(** * solana-launchpad: token form, mint orchestration and metadata upload

    A shallow embedding of the launch page (form validator, base-unit
    amount, token-creation sequence) and of the upload route, followed by
    the properties proved about them.

    Layout: [JS] holds the host-language data and builtins the code calls
    (strings as UTF-16 code units, trimming, numeric coercions, BigInt);
    [Page] embeds the launch page; [Route] embeds the upload endpoint.
    The theorems come after all definitions. *)

From Stdlib Require Import ZArith NArith QArith Qround Qabs Qpower List String Ascii Bool Lia Lqa.
From Stdlib Require Import DecimalString.
Import ListNotations.


(* ===================================================================== *)
(** * Host language: strings, numbers, BigInt, thrown values              *)
(* ===================================================================== *)

Module JS.

(** A string is its sequence of UTF-16 code units; [length] is the
    [.length] of the source. *)
Definition jsstring := list N.

(** Code units of an ASCII literal. *)
Definition js (s : string) : jsstring := map N_of_ascii (list_ascii_of_string s).

Definition eqb_string (a b : jsstring) : bool :=
  if list_eq_dec N.eq_dec a b then true else false.

(** [Array.prototype.includes] on an array of strings. *)
Definition includes (l : list jsstring) (x : jsstring) : bool := existsb (eqb_string x) l.

(** Truthiness of a string: the empty string is the only falsy one. *)
Definition truthy (s : jsstring) : bool :=
  match s with [] => false | _ :: _ => true end.

(** WhiteSpace and LineTerminator code points: TAB, LF, VT, FF, CR, SP,
    NBSP, U+1680, U+2000..U+200A, LS, PS, U+202F, U+205F, U+3000, BOM. *)
Definition isWhiteSpace (c : N) : bool :=
  existsb (N.eqb c)
    [9; 10; 11; 12; 13; 32; 160; 5760; 8232; 8233; 8239; 8287; 12288; 65279]%N
  || ((8192 <=? c) && (c <=? 8202))%N.

Fixpoint trimStart (s : jsstring) : jsstring :=
  match s with
  | [] => []
  | c :: s' => if isWhiteSpace c then trimStart s' else s
  end.

Definition trimEnd (s : jsstring) : jsstring := rev (trimStart (rev s)).

(** [String.prototype.trim]. *)
Definition trim (s : jsstring) : jsstring := trimEnd (trimStart s).

(** ** Regular expressions of the shape [/^[class]+$/] *)

(** [/^[class]+$/.test(s)]: [s] is non-empty and every code unit is in the class. *)
Definition testPlus (class : N -> bool) (s : jsstring) : bool :=
  truthy s && forallb class s.

(** [\d] *)
Definition isDigit (c : N) : bool := ((48 <=? c) && (c <=? 57))%N.
Definition isUpper (c : N) : bool := ((65 <=? c) && (c <=? 90))%N.
Definition isLower (c : N) : bool := ((97 <=? c) && (c <=? 122))%N.

(** ** Numbers

    A Number is NaN, an infinity, or a finite binary64 value, kept as the
    exact rational it denotes (in lowest terms).  The two zeros are not
    told apart: nothing in the code modelled divides by a zero or prints
    one. *)
Inductive number : Type :=
| NaN
| Infinity (negative : bool)
| Finite (q : Q).

Definition pow2 (k : Z) : Q := Qpower (inject_Z 2) k.
Definition pow10 (k : Z) : Q := Qpower (inject_Z 10) k.

(** Largest [k] with [2^k <= q], for [q > 0]. *)
Definition floorLog2 (q : Q) : Z :=
  let k := (Z.log2 (Qnum q) - Z.log2 (Zpos (Qden q)))%Z in
  if Qle_bool (pow2 k) q then k else (k - 1)%Z.

(** Nearest integer to [q >= 0], ties to even. *)
Definition roundHalfEven (q : Q) : Z :=
  let f := Qfloor q in
  match Qcompare (q - inject_Z f) (1 # 2) with
  | Lt => f
  | Gt => (f + 1)%Z
  | Eq => if Z.even f then f else (f + 1)%Z
  end.

(** The binary64 value nearest to the rational [q] (round to nearest,
    ties to even; 53-bit significand, least exponent -1074, overflow to
    an infinity at 2^1024). *)
Definition round64 (q : Q) : number :=
  match Qnum q with
  | Z0 => Finite 0
  | _ =>
    let a := Qabs q in
    let ue := Z.max (floorLog2 a - 52) (-1074) in
    let v := inject_Z (roundHalfEven (a / pow2 ue)) * pow2 ue in
    if Qle_bool (pow2 1024) v then Infinity (Qnum q <? 0)%Z
    else Finite (Qred (if (Qnum q <? 0)%Z then - v else v))
  end.

(** Number addition ([+] on two Numbers). *)
Definition add (a b : number) : number :=
  match a, b with
  | NaN, _ | _, NaN => NaN
  | Infinity s, Infinity s' => if Bool.eqb s s' then Infinity s else NaN
  | Infinity s, Finite _ | Finite _, Infinity s => Infinity s
  | Finite x, Finite y => round64 (x + y)
  end.

(** [a < b] on Numbers; false whenever an operand is NaN. *)
Definition lt (a b : number) : bool :=
  match a, b with
  | NaN, _ | _, NaN => false
  | Infinity s, Infinity s' => s && negb s'
  | Infinity s, Finite _ => s
  | Finite _, Infinity s => negb s
  | Finite x, Finite y => negb (Qle_bool y x)
  end.

(** [a > b] is [b < a]. *)
Definition gt (a b : number) : bool := lt b a.

Definition isNaN (a : number) : bool :=
  match a with NaN => true | _ => false end.

(** [Number.isInteger]. *)
Definition isInteger (a : number) : bool :=
  match a with
  | Finite q => Pos.eqb (Qden (Qred q)) 1
  | _ => false
  end.

(** A Number literal with integer value [z] (exact below 2^53). *)
Definition ofZ (z : Z) : number := Finite (inject_Z z).

(** ** Numeric literals inside strings *)

Definition decDigit (c : N) : option Z :=
  if isDigit c then Some (Z.of_N c - 48)%Z else None.

Definition hexDigit (c : N) : option Z :=
  if isDigit c then Some (Z.of_N c - 48)%Z
  else if ((65 <=? c) && (c <=? 70))%N then Some (Z.of_N c - 55)%Z
  else if ((97 <=? c) && (c <=? 102))%N then Some (Z.of_N c - 87)%Z
  else None.

Definition octDigit (c : N) : option Z :=
  if ((48 <=? c) && (c <=? 55))%N then Some (Z.of_N c - 48)%Z else None.

Definition binDigit (c : N) : option Z :=
  if ((48 <=? c) && (c <=? 49))%N then Some (Z.of_N c - 48)%Z else None.

(** Value of a digit sequence read left to right in [base], starting
    from [acc]; [None] when a code unit is not a digit of the base. *)
Fixpoint digitsFrom (base : Z) (digit : N -> option Z) (acc : Z) (s : jsstring)
  : option Z :=
  match s with
  | [] => Some acc
  | c :: s' =>
    match digit c with
    | Some d => digitsFrom base digit (base * acc + d)%Z s'
    | None => None
    end
  end.

(** A non-empty digit sequence. *)
Definition digits (base : Z) (digit : N -> option Z) (s : jsstring) : option Z :=
  match s with
  | [] => None
  | _ => digitsFrom base digit 0%Z s
  end.

(** NonDecimalIntegerLiteral: [0x], [0o], [0b] (either case) and digits. *)
Definition nonDecimalLiteral (s : jsstring) : option Z :=
  match s with
  | z :: p :: ds =>
    if negb (z =? 48)%N then None
    else if (p =? 120)%N || (p =? 88)%N then digits 16 hexDigit ds
    else if (p =? 111)%N || (p =? 79)%N then digits 8 octDigit ds
    else if (p =? 98)%N || (p =? 66)%N then digits 2 binDigit ds
    else None
  | _ => None
  end.

(** Longest prefix of decimal digits, and the rest. *)
Fixpoint spanDigits (s : jsstring) : jsstring * jsstring :=
  match s with
  | c :: s' =>
    if isDigit c then let (d, r) := spanDigits s' in (c :: d, r) else ([], s)
  | [] => ([], [])
  end.

(** An optional leading sign: [(negative, rest)]. *)
Definition splitSign (s : jsstring) : bool * jsstring :=
  match s with
  | c :: r =>
    if (c =? 43)%N then (false, r)
    else if (c =? 45)%N then (true, r)
    else (false, s)
  | [] => (false, s)
  end.

(** ExponentPart, or nothing: the power of ten. *)
Definition exponentPart (s : jsstring) : option Z :=
  match s with
  | [] => Some 0%Z
  | c :: r =>
    if (c =? 101)%N || (c =? 69)%N then
      let (neg, ds) := splitSign r in
      match digits 10 decDigit ds with
      | Some e => Some (if neg then (- e)%Z else e)
      | None => None
      end
    else None
  end.

(** StrUnsignedDecimalLiteral other than [Infinity]: its exact
    mathematical value. *)
Definition unsignedDecimal (s : jsstring) : option Q :=
  let (ip, r1) := spanDigits s in
  let '(hasFrac, fp, r2) :=
    match r1 with
    | c :: r =>
      if (c =? 46)%N then let (f, r') := spanDigits r in (true, f, r')
      else (false, [], r1)
    | [] => (false, [], r1)
    end in
  if truthy ip || (hasFrac && truthy fp) then
    match digitsFrom 10 decDigit 0%Z (ip ++ fp), exponentPart r2 with
    | Some m, Some e => Some (inject_Z m * pow10 (e - Z.of_nat (List.length fp)))
    | _, _ => None
    end
  else None.

(** StringToNumber, which is [Number(s)] for a string [s]. *)
Definition Number (s : jsstring) : number :=
  let t := trim s in
  match t with
  | [] => Finite 0
  | _ =>
    match nonDecimalLiteral t with
    | Some z => round64 (inject_Z z)
    | None =>
      let (neg, u) := splitSign t in
      if eqb_string u (js "Infinity") then Infinity neg
      else match unsignedDecimal u with
           | Some q => round64 (if neg then - q else q)
           | None => NaN
           end
    end
  end.

(** ** Thrown values *)

(** Errors raised by builtins; their message text belongs to the engine. *)
Inductive hostError : Type :=
| BigIntSyntaxError (s : jsstring)      (* BigInt(s): s is not an integer literal *)
| BigIntRangeError (n : number)         (* BigInt(n): n is not an integer *)
| NegativeExponent.                     (* a ** b with b < 0n *)

Inductive thrown : Type :=
| ErrorObj (message : jsstring)         (* an Error instance and its message *)
| HostError (e : hostError)             (* an Error instance raised by a builtin *)
| NonError.                             (* any thrown value that is not an Error *)

(** The outcome of evaluating an expression that may throw. *)
Inductive completion (A : Type) : Type :=
| Normal (a : A)
| Throw (t : thrown).
Arguments Normal {A} a.
Arguments Throw {A} t.

(** ** BigInt *)

(** [BigInt(s)] for a string: StringToBigInt, a SyntaxError when [s] is
    not an integer literal. *)
Definition BigIntOfString (s : jsstring) : completion Z :=
  let t := trim s in
  match t with
  | [] => Normal 0%Z
  | _ =>
    match nonDecimalLiteral t with
    | Some z => Normal z
    | None =>
      let (neg, ds) := splitSign t in
      match digits 10 decDigit ds with
      | Some z => Normal (if neg then (- z)%Z else z)
      | None => Throw (HostError (BigIntSyntaxError s))
      end
    end
  end.

(** [BigInt(n)] for a Number: a RangeError unless [n] is an integer. *)
Definition BigIntOfNumber (n : number) : completion Z :=
  match n with
  | Finite q => if isInteger n then Normal (Qnum (Qred q))
                else Throw (HostError (BigIntRangeError n))
  | _ => Throw (HostError (BigIntRangeError n))
  end.

(** [a ** b] on BigInts: a RangeError for a negative exponent. *)
Definition BigIntPow (a b : Z) : completion Z :=
  if (b <? 0)%Z then Throw (HostError NegativeExponent) else Normal (a ^ b)%Z.

(** ** What the embedding takes from the engine

    Case conversion follows the Unicode tables and error messages of
    builtins and number formatting are the engine's; the code is modelled
    over any engine that upper-cases Basic Latin the usual way. *)
Definition upperBasicLatin (c : N) : N :=
  if isLower c then (c - 32)%N else c.

Definition basicLatin (s : jsstring) : Prop := Forall (fun c => (c < 128)%N) s.

Class Engine : Type := {
  (** [String.prototype.toUpperCase] *)
  toUpperCase : jsstring -> jsstring;
  toUpperCase_basicLatin :
    forall s, basicLatin s -> toUpperCase s = map upperBasicLatin s;
  (** [Number.prototype.toFixed] *)
  toFixed : number -> N -> jsstring;
  (** the [message] of an error raised by a builtin *)
  hostMessage : hostError -> jsstring
}.

(** [error instanceof Error ? error.message : fallback] *)
Definition messageOr {E : Engine} (fallback : jsstring) (t : thrown) : jsstring :=
  match t with
  | ErrorObj m => m
  | HostError e => hostMessage e
  | NonError => fallback
  end.

(** What an outcome threw, if it did. *)
Definition thrownBy {A} (r : completion A) : option thrown :=
  match r with Normal _ => None | Throw t => Some t end.

(** ** Files and JSON documents *)

(** A [File]: the parts of it the code reads. *)
Record File : Type := {
  fileName : jsstring;   (* [name] *)
  size : Z;
  type : jsstring
}.

#[local] Set Warnings "-register-all".

(** A JSON document; an object keeps its keys in insertion order. *)
Inductive json : Type :=
| JString (s : jsstring)
| JBool (b : bool)
| JArray (items : list json)
| JObject (fields : list (string * json)).

(** Property lookup on the fields of an object. *)
Fixpoint lookup (k : string) (fields : list (string * json)) : option json :=
  match fields with
  | [] => None
  | (k', v) :: rest => if String.eqb k k' then Some v else lookup k rest
  end.

(** [delete o[k]]. *)
Definition delete (k : string) (fields : list (string * json)) : list (string * json) :=
  filter (fun kv => negb (String.eqb k (fst kv))) fields.

(** [Object.keys]. *)
Definition keys (fields : list (string * json)) : list string := map fst fields.

(** [...(s && { k: s })] inside an object literal: the property when
    [s] is non-empty, nothing when it is the empty string. *)
Definition spreadIf (s : jsstring) (k : string) : list (string * json) :=
  if truthy s then [(k, JString s)] else [].

(** ** Effects: a state that only grows by assignment and logging, and
    completions that may throw *)

Definition M (S A : Type) : Type := S -> completion A * S.

Definition ret {S A} (a : A) : M S A := fun s => (Normal a, s).

Definition bind {S A B} (m : M S A) (k : A -> M S B) : M S B :=
  fun s =>
    match m s with
    | (Normal a, s') => k a s'
    | (Throw t, s') => (Throw t, s')
    end.

(** [throw new Error(...)] and rethrown completions. *)
Definition throw {S A} (t : thrown) : M S A := fun s => (Throw t, s).

(** A pure expression that may throw. *)
Definition lift {S A} (c : completion A) : M S A := fun s => (c, s).

(** A state update (a setter call). *)
Definition update {S} (f : S -> S) : M S unit := fun s => (Normal tt, f s).

(** [try { body } catch (error) { handler }]. *)
Definition tryCatch {S A} (body : M S A) (handler : thrown -> M S A) : M S A :=
  fun s =>
    match body s with
    | (Normal a, s') => (Normal a, s')
    | (Throw t, s') => handler t s'
    end.

(** [try { body } finally { final }], for a [final] block that itself
    completes normally or throws. *)
Definition tryFinally {S A} (body : M S A) (final : M S unit) : M S A :=
  fun s =>
    let (r, s') := body s in
    match final s' with
    | (Normal _, s'') => (r, s'')
    | (Throw t, s'') => (Throw t, s'')
    end.

(** ** A reference engine

    Upper-cases Basic Latin and leaves other code units alone, prints
    fixed-point numbers digit by digit, and words its error messages in
    the manner of V8.  It serves to run the code on concrete inputs. *)

Definition decimalText (n : N) : jsstring :=
  js (NilZero.string_of_uint (N.to_uint n)).

Definition zeros (k : nat) : jsstring := repeat 48%N k.

(** [toFixed]: the nearest multiple of [10^-f], the larger on a tie. *)
Definition fixedText (x : number) (f : N) : jsstring :=
  match x with
  | NaN => js "NaN"
  | Infinity neg => if neg then js "-Infinity" else js "Infinity"
  | Finite q =>
    let n := Qfloor (Qabs q * pow10 (Z.of_N f) + (1 # 2)) in
    let ds := decimalText (Z.to_N n) in
    let ds := zeros (S (N.to_nat f) - List.length ds) ++ ds in
    let k := (List.length ds - N.to_nat f)%nat in
    (if (Qnum q <? 0)%Z then js "-" else [])
      ++ firstn k ds ++ (if (f =? 0)%N then [] else js "." ++ skipn k ds)
  end.

Definition v8Message (e : hostError) : jsstring :=
  match e with
  | BigIntSyntaxError s => js "Cannot convert " ++ s ++ js " to a BigInt"
  | BigIntRangeError _ =>
    js "The number cannot be converted to a BigInt because it is not an integer"
  | NegativeExponent => js "Exponent must be non-negative"
  end.

Definition basicLatinEngine : Engine :=
  {| toUpperCase := map upperBasicLatin;
     toUpperCase_basicLatin := fun s _ => eq_refl;
     toFixed := fixedText;
     hostMessage := v8Message |}.

Declare Scope effect_scope.
Delimit Scope effect_scope with effect.
Notation "x <- m ;; k" := (bind m (fun x => k))
  (at level 61, m at next level, right associativity) : effect_scope.
Notation "m ;; k" := (bind m (fun _ => k))
  (at level 61, right associativity) : effect_scope.

End JS.

(* ===================================================================== *)
(** * The launch page                                                     *)
(* ===================================================================== *)

Module Page.
Import JS.
Local Open Scope effect_scope.

Module LaunchForm.
Record t : Type := {
  name : jsstring;
  symbol : jsstring;
  decimals : jsstring;
  supply : jsstring;
  description : jsstring;
  metadataUrl : jsstring;
  website : jsstring;
  twitter : jsstring;
  telegram : jsstring
}.
End LaunchForm.

(** An absent key of the errors object is [None]; keys are created in
    the order of the fields below, which is the order of the assignments
    in [validateForm]. *)
Module FormErrors.
Record t : Type := {
  name : option jsstring;
  symbol : option jsstring;
  decimals : option jsstring;
  supply : option jsstring;
  description : option jsstring;
  image : option jsstring
}.

Definition empty : t :=
  {| name := None; symbol := None; decimals := None; supply := None;
     description := None; image := None |}.

(** [Object.values(errors)] *)
Definition values (e : t) : list jsstring :=
  flat_map (fun o => match o with Some m => [m] | None => [] end)
    [name e; symbol e; decimals e; supply e; description e; image e].

(** [Object.keys(errors).length] *)
Definition keysLength (e : t) : nat := List.length (values e).
End FormErrors.

Definition DEFAULT_FORM : LaunchForm.t :=
  {| LaunchForm.name := []; LaunchForm.symbol := [];
     LaunchForm.decimals := js "9"; LaunchForm.supply := js "1000000000";
     LaunchForm.description := []; LaunchForm.metadataUrl := [];
     LaunchForm.website := []; LaunchForm.twitter := []; LaunchForm.telegram := [] |}.

Definition MAX_NAME_LENGTH : nat := 32.
Definition MAX_SYMBOL_LENGTH : nat := 10.
Definition MAX_DESCRIPTION_LENGTH : nat := 200.
Definition MAX_IMAGE_SIZE_MB : Z := 5.
Definition MAX_IMAGE_SIZE_BYTES : Z := MAX_IMAGE_SIZE_MB * 1024 * 1024.

(** The Number denoted by a decimal literal [m]e[e10] of the source. *)
Definition literal (m e10 : Z) : number := round64 (inject_Z m * pow10 e10).

Module ESTIMATED_COSTS.
Definition mintAccount : number := literal 145 (-5).      (* 0.00145 *)
Definition tokenAccount : number := literal 204 (-5).     (* 0.00204 *)
Definition metadataAccount : number := literal 1 (-2).    (* 0.01 *)
Definition transactions : number := literal 15 (-5).      (* 0.00015 *)
End ESTIMATED_COSTS.

Definition TOTAL_ESTIMATED_COST : number :=
  add (add (add ESTIMATED_COSTS.mintAccount ESTIMATED_COSTS.tokenAccount)
           ESTIMATED_COSTS.metadataAccount)
      ESTIMATED_COSTS.transactions.

Definition toBigIntAmount (value : jsstring) (decimals : number) : completion Z :=
  let trimmed := trim value in
  if negb (truthy trimmed) then Normal 0%Z
  else if negb (testPlus isDigit trimmed) then
    Throw (ErrorObj (js "Only whole numbers are supported for supply."))
  else
    match BigIntOfString trimmed with
    | Throw t => Throw t
    | Normal whole =>
      match BigIntOfNumber (ofZ 10) with
      | Throw t => Throw t
      | Normal ten =>
        match BigIntOfNumber decimals with
        | Throw t => Throw t
        | Normal d =>
          match BigIntPow ten d with
          | Throw t => Throw t
          | Normal scale => Normal (whole * scale)%Z
          end
        end
      end
    end.

(** [[a-zA-Z0-9\s\-_]] *)
Definition nameClass (c : N) : bool :=
  isLower c || isUpper c || isDigit c || isWhiteSpace c || (c =? 45)%N || (c =? 95)%N.

(** [[A-Z0-9]] *)
Definition symbolClass (c : N) : bool := isUpper c || isDigit c.

Definition validTypes : list jsstring :=
  [js "image/jpeg"; js "image/png"; js "image/gif"; js "image/webp"].

Definition UINT64_MAX_TEXT : jsstring := js "18446744073709551615".

Section Validator.
Context {E : Engine}.

(** The supply rule compares BigInts, so the validator is written over
    completions; [validateForm_returns] below shows it never throws. *)
Definition validateForm (form : LaunchForm.t) (imageFile : option File)
  : completion FormErrors.t :=
  (* Name validation *)
  let name :=
    if negb (truthy (trim (LaunchForm.name form))) then
      Some (js "Token name is required")
    else if (MAX_NAME_LENGTH <? List.length (LaunchForm.name form))%nat then
      Some (js "Name must be 32 characters or less")
    else if negb (testPlus nameClass (LaunchForm.name form)) then
      Some (js "Name can only contain letters, numbers, spaces, hyphens, and underscores")
    else None in
  (* Symbol validation *)
  let symbol :=
    if negb (truthy (trim (LaunchForm.symbol form))) then
      Some (js "Token symbol is required")
    else if (MAX_SYMBOL_LENGTH <? List.length (LaunchForm.symbol form))%nat then
      Some (js "Symbol must be 10 characters or less")
    else if negb (testPlus symbolClass (toUpperCase (LaunchForm.symbol form))) then
      Some (js "Symbol can only contain letters and numbers")
    else None in
  (* Decimals validation *)
  let decimals := Number (LaunchForm.decimals form) in
  let decimalsError :=
    if isNaN decimals || negb (isInteger decimals) then
      Some (js "Decimals must be a whole number")
    else if lt decimals (ofZ 0) || gt decimals (ofZ 9) then
      Some (js "Decimals must be between 0 and 9")
    else None in
  (* Supply validation *)
  let trimmed := trim (LaunchForm.supply form) in
  let supply : completion (option jsstring) :=
    if negb (truthy trimmed) then Normal (Some (js "Supply is required"))
    else if negb (testPlus isDigit trimmed) then
      Normal (Some (js "Supply must be a whole number"))
    else
      match BigIntOfString trimmed with
      | Throw t => Throw t
      | Normal v =>
        if (v <=? 0)%Z then Normal (Some (js "Supply must be greater than 0"))
        else
          match BigIntOfString trimmed, BigIntOfString UINT64_MAX_TEXT with
          | Throw t, _ | _, Throw t => Throw t
          | Normal v', Normal max =>
            if (max <? v')%Z then
              Normal (Some (js "Supply exceeds maximum allowed value"))
            else Normal None
          end
      end in
  (* Description validation (optional but with limits) *)
  let description :=
    if (MAX_DESCRIPTION_LENGTH <? List.length (LaunchForm.description form))%nat then
      Some (js "Description must be 200 characters or less")
    else None in
  (* Image validation *)
  let image :=
    match imageFile with
    | Some f =>
      let tooLarge :=
        if (MAX_IMAGE_SIZE_BYTES <? size f)%Z then
          Some (js "Image must be 5MB or less")
        else None in
      if negb (includes validTypes (type f)) then
        Some (js "Image must be JPEG, PNG, GIF, or WebP")
      else tooLarge
    | None => None
    end in
  match supply with
  | Throw t => Throw t
  | Normal supplyError =>
    Normal {| FormErrors.name := name; FormErrors.symbol := symbol;
              FormErrors.decimals := decimalsError; FormErrors.supply := supplyError;
              FormErrors.description := description; FormErrors.image := image |}
  end.

End Validator.

(** ** Chain-side data handed to the SDK *)

Record PublicKey : Type := { toBase58 : jsstring }.

(** A keypair, as far as the page uses it. *)
Record Keypair : Type := { publicKey : PublicKey }.

Inductive AuthorityType : Type :=
| MintTokens | FreezeAccount | AccountOwner | CloseAccount.

Record MetadataAccounts : Type := {
  metadata : PublicKey;
  mint : PublicKey;
  mintAuthority : PublicKey;
  payer : PublicKey;
  updateAuthority : PublicKey
}.

(** [createMetadataAccountArgsV3]; creators, collection, uses and
    collectionDetails are always null and left out. *)
Record MetadataArgs : Type := {
  dataName : jsstring;
  dataSymbol : jsstring;
  uri : jsstring;
  sellerFeeBasisPoints : Z;
  isMutable : bool
}.

(** The instructions the page builds, each kept as the call of its
    builder with the arguments the page passes.  How a builder lays its
    arguments out belongs to the SDK and is not modelled; so the [amount]
    of [createMintToInstruction] is the bigint passed, of any size, and
    not the unsigned 64-bit field of the instruction sent. *)
Inductive instruction : Type :=
| createAccount (fromPubkey newAccountPubkey : PublicKey) (space lamports : Z)
    (programId : PublicKey)
| createInitializeMintInstruction (mint : PublicKey) (decimals : number)
    (mintAuthority freezeAuthority : PublicKey)
| createAssociatedTokenAccountInstruction (payer associatedToken owner mint : PublicKey)
| createMintToInstruction (mint destination authority : PublicKey) (amount : Z)
| createCreateMetadataAccountV3Instruction (accounts : MetadataAccounts)
    (args : MetadataArgs)
| createSetAuthorityInstruction (account currentAuthority : PublicKey)
    (authorityType : AuthorityType) (newAuthority : option PublicKey).

Record Transaction : Type := {
  instructions : list instruction;
  recentBlockhash : option jsstring;
  feePayer : option PublicKey
}.

(** [new Transaction().add(...)] *)
Definition newTransaction (l : list instruction) : Transaction :=
  {| instructions := l; recentBlockhash := None; feePayer := None |}.

Inductive seed : Type :=
| BufferFrom (text : jsstring)
| toBuffer (key : PublicKey).

(** The first argument of [confirmTransaction]. *)
Inductive confirmation : Type :=
| Strategy (signature blockhash : jsstring) (lastValidBlockHeight : Z)
| BySignature (signature : jsstring).

(** ** Calls that leave the page, and the log of them *)

Inductive call : Type :=
| Keypair_generate
| getMinimumBalanceForRentExemption (space : Z)
| getAssociatedTokenAddress (mint owner : PublicKey)
| getLatestBlockhash
| sendTransaction (tx : Transaction) (signers : list Keypair)
| confirmTransaction (what : confirmation)
| findProgramAddressSync (seeds : list seed) (programId : PublicKey)
| refreshBalance.

(** A call that was made, and what it threw if it failed. *)
Record event : Type := Called { made : call; threw : option thrown }.

Definition history := list event.

(** Everything outside the page: SDK constants, and the outcome of each
    call to the SDK, the RPC node and the wallet.  An outcome may depend
    on the arguments and on all that happened before. *)
Record World : Type := {
  MINT_SIZE : Z;
  TOKEN_PROGRAM_ID : PublicKey;
  TOKEN_METADATA_PROGRAM_ID : PublicKey;
  answerKeypair : history -> completion Keypair;
  answerRent : history -> Z -> completion Z;
  answerAssociated : history -> PublicKey -> PublicKey -> completion PublicKey;
  answerBlockhash : history -> completion (jsstring * Z);
  answerSend : history -> Transaction -> list Keypair -> completion jsstring;
  answerConfirm : history -> confirmation -> completion unit;
  answerProgramAddress : history -> list seed -> PublicKey -> completion PublicKey
}.

(** ** Component state *)

Inductive StatusType : Type := info | success | error.

(** What the component reads when [createToken] runs: the values of the
    render that created the callback.  The balance, when read, is a
    lamport count divided by [LAMPORTS_PER_SOL], a finite Number. *)
Record Props : Type := {
  walletPublicKey : option PublicKey;     (* [publicKey] of [useWallet] *)
  form : LaunchForm.t;
  imageFile : option File;
  walletBalance : option Q
}.

(** What [createToken] writes: the state cells behind the setters, and
    the calls made so far. *)
Record State : Type := {
  formErrors : FormErrors.t;
  status : jsstring;
  statusType : StatusType;
  mintAddress : jsstring;
  tokenAccount : jsstring;
  isLaunching : bool;
  currentStep : Z;
  log : history
}.

Definition setFormErrors (e : FormErrors.t) : M State unit :=
  update (fun s => {| formErrors := e; status := status s; statusType := statusType s;
                      mintAddress := mintAddress s; tokenAccount := tokenAccount s;
                      isLaunching := isLaunching s; currentStep := currentStep s;
                      log := log s |}).

Definition setStatusMessage (message : jsstring) (type : StatusType) : M State unit :=
  update (fun s => {| formErrors := formErrors s; status := message; statusType := type;
                      mintAddress := mintAddress s; tokenAccount := tokenAccount s;
                      isLaunching := isLaunching s; currentStep := currentStep s;
                      log := log s |}).

Definition setMintAddress (a : jsstring) : M State unit :=
  update (fun s => {| formErrors := formErrors s; status := status s;
                      statusType := statusType s;
                      mintAddress := a; tokenAccount := tokenAccount s;
                      isLaunching := isLaunching s; currentStep := currentStep s;
                      log := log s |}).

Definition setTokenAccount (a : jsstring) : M State unit :=
  update (fun s => {| formErrors := formErrors s; status := status s;
                      statusType := statusType s;
                      mintAddress := mintAddress s; tokenAccount := a;
                      isLaunching := isLaunching s; currentStep := currentStep s;
                      log := log s |}).

Definition setIsLaunching (b : bool) : M State unit :=
  update (fun s => {| formErrors := formErrors s; status := status s;
                      statusType := statusType s;
                      mintAddress := mintAddress s; tokenAccount := tokenAccount s;
                      isLaunching := b; currentStep := currentStep s;
                      log := log s |}).

Definition setCurrentStep (n : Z) : M State unit :=
  update (fun s => {| formErrors := formErrors s; status := status s;
                      statusType := statusType s;
                      mintAddress := mintAddress s; tokenAccount := tokenAccount s;
                      isLaunching := isLaunching s; currentStep := n;
                      log := log s |}).

(** The state with one more call in its log. *)
Definition logged (e : event) (s : State) : State :=
  {| formErrors := formErrors s; status := status s; statusType := statusType s;
     mintAddress := mintAddress s; tokenAccount := tokenAccount s;
     isLaunching := isLaunching s; currentStep := currentStep s;
     log := log s ++ [e] |}.

(** Make the call [c], whose outcome the world gives from the history. *)
Definition perform {A} (c : call) (answer : history -> completion A) : M State A :=
  fun s =>
    let r := answer (log s) in
    (r, logged (Called c (thrownBy r)) s).

Section Orchestrator.
Context {E : Engine}.
Variable w : World.
Variable props : Props.

(** The [try] block of [createToken], for the connected key [publicKey]. *)
Definition launch (publicKey : PublicKey) : M State unit :=
  let form := form props in
  let decimals := Number (LaunchForm.decimals form) in
  mintKeypair <- perform Keypair_generate (answerKeypair w) ;;
  lamports <- perform (getMinimumBalanceForRentExemption (MINT_SIZE w))
                (fun h => answerRent w h (MINT_SIZE w)) ;;
  ata <- perform (getAssociatedTokenAddress (Page.publicKey mintKeypair) publicKey)
           (fun h => answerAssociated w h (Page.publicKey mintKeypair) publicKey) ;;
  amount <- lift (toBigIntAmount (LaunchForm.supply form) decimals) ;;
  let createMintTx := newTransaction
    [ createAccount publicKey (Page.publicKey mintKeypair) (MINT_SIZE w) lamports
        (TOKEN_PROGRAM_ID w);
      createInitializeMintInstruction (Page.publicKey mintKeypair) decimals
        publicKey publicKey;
      createAssociatedTokenAccountInstruction publicKey ata publicKey
        (Page.publicKey mintKeypair);
      createMintToInstruction (Page.publicKey mintKeypair) ata publicKey amount ] in
  setCurrentStep 2 ;;
  setStatusMessage (js "Step 2/4: Please sign the transaction in your wallet...") info ;;
  latest <- perform getLatestBlockhash (answerBlockhash w) ;;
  let blockhash := fst latest in
  let lastValidBlockHeight := snd latest in
  let createMintTx :=
    {| instructions := instructions createMintTx;
       recentBlockhash := Some blockhash;
       feePayer := Some publicKey |} in
  signature <- perform (sendTransaction createMintTx [mintKeypair])
                 (fun h => answerSend w h createMintTx [mintKeypair]) ;;
  setStatusMessage (js "Step 2/4: Confirming transaction...") info ;;
  perform (confirmTransaction (Strategy signature blockhash lastValidBlockHeight))
    (fun h => answerConfirm w h (Strategy signature blockhash lastValidBlockHeight)) ;;
  (* Create metadata if URL provided *)
  (if truthy (trim (LaunchForm.metadataUrl form)) then
     setCurrentStep 3 ;;
     setStatusMessage (js "Step 3/4: Creating on-chain metadata...") info ;;
     let seeds := [ BufferFrom (js "metadata");
                    toBuffer (TOKEN_METADATA_PROGRAM_ID w);
                    toBuffer (Page.publicKey mintKeypair) ] in
     metadataPda <- perform (findProgramAddressSync seeds (TOKEN_METADATA_PROGRAM_ID w))
                      (fun h => answerProgramAddress w h seeds
                                  (TOKEN_METADATA_PROGRAM_ID w)) ;;
     let metadataTx := newTransaction
       [ createCreateMetadataAccountV3Instruction
           {| metadata := metadataPda;
              mint := Page.publicKey mintKeypair;
              mintAuthority := publicKey;
              payer := publicKey;
              updateAuthority := publicKey |}
           {| dataName := trim (LaunchForm.name form);
              dataSymbol := toUpperCase (trim (LaunchForm.symbol form));
              uri := trim (LaunchForm.metadataUrl form);
              sellerFeeBasisPoints := 0;
              isMutable := false |} ] in
     metadataSig <- perform (sendTransaction metadataTx [])
                      (fun h => answerSend w h metadataTx []) ;;
     perform (confirmTransaction (BySignature metadataSig))
       (fun h => answerConfirm w h (BySignature metadataSig))
   else ret tt) ;;
  setCurrentStep 4 ;;
  setStatusMessage (js "Step 4/4: Revoking mint and freeze authorities...") info ;;
  let revokeTx := newTransaction
    [ createSetAuthorityInstruction (Page.publicKey mintKeypair) publicKey
        MintTokens None;
      createSetAuthorityInstruction (Page.publicKey mintKeypair) publicKey
        FreezeAccount None ] in
  revokeSig <- perform (sendTransaction revokeTx [])
                 (fun h => answerSend w h revokeTx []) ;;
  perform (confirmTransaction (BySignature revokeSig))
    (fun h => answerConfirm w h (BySignature revokeSig)) ;;
  setMintAddress (toBase58 (Page.publicKey mintKeypair)) ;;
  setTokenAccount (toBase58 ata) ;;
  setCurrentStep 5 ;;
  setStatusMessage
    (js "Token created successfully! Mint and freeze authorities have been revoked.")
    success ;;
  (* Refresh balance: started, not awaited; it handles its own failures *)
  perform refreshBalance (fun _ => Normal tt).

(** The [catch] block of [createToken]. *)
Definition launchFailed (e : thrown) : M State unit :=
  let message := messageOr (js "Token creation failed. Please try again.") e in
  setStatusMessage message error ;;
  setCurrentStep 0.

(** [createToken] from the point where the three checks have passed. *)
Definition start (publicKey : PublicKey) : M State unit :=
  setIsLaunching true ;;
  setCurrentStep 1 ;;
  setStatusMessage (js "Step 1/4: Creating mint account...") info ;;
  tryFinally (tryCatch (launch publicKey) launchFailed) (setIsLaunching false).

Definition createToken : M State unit :=
  match walletPublicKey props with
  | None =>
    setStatusMessage (js "Please connect your Phantom wallet first.") error
  | Some publicKey =>
    (* Validate form *)
    errors <- lift (validateForm (form props) (imageFile props)) ;;
    if (0 <? FormErrors.keysLength errors)%nat then
      setFormErrors errors ;;
      (* [Object.values(errors)[0]]; the empty string stands for undefined *)
      let firstError := hd [] (FormErrors.values errors) in
      setStatusMessage
        (if truthy firstError then firstError else js "Please fix the form errors.")
        error
    else
      (* Check wallet balance *)
      match walletBalance props with
      | Some balance =>
        if lt (Finite balance) TOTAL_ESTIMATED_COST then
          setStatusMessage
            (js "Insufficient balance. You need at least ~"
               ++ toFixed TOTAL_ESTIMATED_COST 4
               ++ js " SOL. Current balance: "
               ++ toFixed (Finite balance) 4 ++ js " SOL")
            error
        else start publicKey
      | None => start publicKey
      end
  end.

End Orchestrator.

End Page.

(* ===================================================================== *)
(** * The upload route                                                    *)
(* ===================================================================== *)

Module Route.
Import JS.
Local Open Scope effect_scope.

Definition PINATA_FILE_ENDPOINT : jsstring :=
  js "https://api.pinata.cloud/pinning/pinFileToIPFS".
Definition PINATA_JSON_ENDPOINT : jsstring :=
  js "https://api.pinata.cloud/pinning/pinJSONToIPFS".

(* Validation constants *)
Definition MAX_FILE_SIZE : Z := 5 * 1024 * 1024.
Definition ALLOWED_TYPES : list jsstring :=
  [js "image/jpeg"; js "image/png"; js "image/gif"; js "image/webp"].
Definition MAX_NAME_LENGTH : nat := 32.
Definition MAX_SYMBOL_LENGTH : nat := 10.
Definition MAX_DESCRIPTION_LENGTH : nat := 200.

(** The one field of the pinning reply that is read; an absent field is [None]. *)
Record PinataResponse : Type := { IpfsHash : option jsstring }.

(** [process.env]: an unset variable is [None]. *)
Record Env : Type := {
  PINATA_JWT : option jsstring;
  PINATA_API_KEY : option jsstring;
  PINATA_API_SECRET : option jsstring
}.

(** [process.env.X?.trim()]; an unset variable reads as the empty
    string, which is falsy like undefined. *)
Definition trimmed (v : option jsstring) : jsstring :=
  match v with Some s => trim s | None => [] end.

Inductive FormDataEntryValue : Type :=
| Text (s : jsstring)
| Blob (f : File).

Definition FormData := list (jsstring * FormDataEntryValue).

(** [formData.get(k)]: the first entry named [k], or null. *)
Fixpoint get (fd : FormData) (k : jsstring) : option FormDataEntryValue :=
  match fd with
  | [] => None
  | (k', v) :: rest => if eqb_string k k' then Some v else get rest k
  end.

(** [String(formData.get(k) ?? "").trim()] *)
Definition field (fd : FormData) (k : jsstring) : jsstring :=
  trim match get fd k with
       | None => []
       | Some (Text s) => s
       | Some (Blob _) => js "[object File]"
       end.

Record Request : Type := { formData : completion FormData }.

Definition Headers := list (string * jsstring).

Inductive Body : Type :=
| FormBody (file : File) (filename : jsstring)   (* a FormData with the one part [file] *)
| JsonBody (document : json).                    (* [JSON.stringify(document)] *)

Record FetchResponse : Type := {
  ok : bool;
  text : completion jsstring;                    (* [await response.text()] *)
  json : completion PinataResponse               (* [await response.json()], read as a reply *)
}.

Inductive logged : Type :=
| LoggedText (s : jsstring)
| LoggedThrown (t : thrown).

(** What the handler does to the outside: requests to the pinning
    service and lines on the server console. *)
Inductive event : Type :=
| fetch (url : jsstring) (headers : Headers) (body : Body) (threw : option thrown)
| console_error (label : jsstring) (detail : logged).

Definition history := list event.

Definition isFetch (e : event) : bool :=
  match e with fetch _ _ _ _ => true | console_error _ _ => false end.

(** The pinning service: the outcome of a request may depend on the
    request and on all that happened before. *)
Record World : Type := {
  answerFetch : history -> jsstring -> Headers -> Body -> completion FetchResponse
}.

(** [NextResponse.json(body, { status })] *)
Record HttpResponse : Type := {
  httpStatus : Z;
  httpBody : JS.json
}.

Definition errorResponse (message : jsstring) (code : Z) : HttpResponse :=
  {| httpStatus := code; httpBody := JObject [("error"%string, JString message)] |}.

Definition consoleError (label : jsstring) (detail : logged) : M history unit :=
  update (fun h => h ++ [console_error label detail]).

Section Handler.
Context {E : Engine}.
Variable env : Env.
Variable w : World.

Definition doFetch (url : jsstring) (headers : Headers) (body : Body)
  : M history FetchResponse :=
  fun h =>
    let r := answerFetch w h url headers body in
    (r, h ++ [fetch url headers body (thrownBy r)]).

(* Get authentication headers - supports both JWT and API Key methods *)
Definition getPinataAuthHeaders : completion Headers :=
  let jwt := trimmed (PINATA_JWT env) in
  let apiKey := trimmed (PINATA_API_KEY env) in
  let apiSecret := trimmed (PINATA_API_SECRET env) in
  (* Prefer API Key authentication (more reliable) *)
  if truthy apiKey && truthy apiSecret then
    Normal [("pinata_api_key"%string, apiKey); ("pinata_secret_api_key"%string, apiSecret)]
  (* Fall back to JWT *)
  else if truthy jwt then
    Normal [("Authorization"%string, js "Bearer " ++ jwt)]
  else Throw (ErrorObj (js "No Pinata credentials configured")).

(** [!data.IpfsHash] fails for an absent and for an empty hash. *)
Definition hashOf (data : PinataResponse) : completion jsstring :=
  match IpfsHash data with
  | Some h => if truthy h then Normal h
              else Throw (ErrorObj (js "IPFS upload failed - no hash returned"))
  | None => Throw (ErrorObj (js "IPFS upload failed - no hash returned"))
  end.

Definition uploadFileToPinata (file : File) : M history jsstring :=
  let filename := if truthy (fileName file) then fileName file else js "token-image" in
  authHeaders <- lift getPinataAuthHeaders ;;
  response <- doFetch PINATA_FILE_ENDPOINT authHeaders (FormBody file filename) ;;
  (if negb (ok response) then
     text <- lift (text response) ;;
     consoleError (js "Pinata file upload error:") (LoggedText text) ;;
     throw (ErrorObj (js "Failed to upload image to IPFS"))
   else ret tt) ;;
  data <- lift (json response) ;;
  lift (hashOf data).

Definition uploadJsonToPinata (metadata : JS.json) : M history jsstring :=
  authHeaders <- lift getPinataAuthHeaders ;;
  response <- doFetch PINATA_JSON_ENDPOINT
                (authHeaders ++ [("Content-Type"%string, js "application/json")])
                (JsonBody metadata) ;;
  (if negb (ok response) then
     text <- lift (text response) ;;
     consoleError (js "Pinata JSON upload error:") (LoggedText text) ;;
     throw (ErrorObj (js "Failed to upload metadata to IPFS"))
   else ret tt) ;;
  data <- lift (json response) ;;
  lift (hashOf data).

(** The [extensions] object literal. *)
Definition extensionsOf (website twitter telegram : jsstring) : list (string * JS.json) :=
  spreadIf website "website" ++ spreadIf twitter "twitter" ++ spreadIf telegram "telegram".

(** The metadata document as uploaded: the object literal, then the
    removal of an empty [extensions]. *)
Definition buildMetadata (name symbol description imageUrl imageType
                          website twitter telegram : jsstring) : list (string * JS.json) :=
  let metadata :=
    [ ("name"%string, JString name);
      ("symbol"%string, JString (toUpperCase symbol));
      ("description"%string, JString description);
      ("image"%string, JString imageUrl);
      ("attributes"%string, JArray []);
      ("properties"%string,
         JObject [ ("files"%string,
                      JArray [ JObject [ ("uri"%string, JString imageUrl);
                                         ("type"%string, JString imageType) ] ]);
                   ("category"%string, JString (js "image")) ]) ]
    ++ spreadIf website "external_url"
    ++ [ ("extensions"%string, JObject (extensionsOf website twitter telegram)) ] in
  (* Remove empty extensions object *)
  match lookup "extensions" metadata with
  | Some (JObject fields) =>
    if (List.length (keys fields) =? 0)%nat then delete "extensions" metadata
    else metadata
  | _ => metadata
  end.

(** The [try] block of [POST]. *)
Definition handle (request : Request) : M history HttpResponse :=
  (* Check for credentials *)
  let hasJwt := truthy (trimmed (PINATA_JWT env)) in
  let hasApiKey :=
    truthy (trimmed (PINATA_API_KEY env)) && truthy (trimmed (PINATA_API_SECRET env)) in
  if negb hasJwt && negb hasApiKey then
    ret (errorResponse (js "Server configuration error: Missing Pinata credentials.") 500)
  else
    (* Parse form data *)
    formData <- lift (formData request) ;;
    let image := get formData (js "image") in
    let name := field formData (js "name") in
    let symbol := field formData (js "symbol") in
    let description := field formData (js "description") in
    let website := field formData (js "website") in
    let twitter := field formData (js "twitter") in
    let telegram := field formData (js "telegram") in
    (* Validate image *)
    match image with
    | Some (Blob image) =>
      if (MAX_FILE_SIZE <? size image)%Z then
        ret (errorResponse (js "Image too large. Maximum size is 5MB.") 400)
      else if negb (includes ALLOWED_TYPES (type image)) then
        ret (errorResponse (js "Invalid image format. Allowed: JPEG, PNG, GIF, WebP.") 400)
      (* Validate name *)
      else if negb (truthy name) then
        ret (errorResponse (js "Token name is required.") 400)
      else if (MAX_NAME_LENGTH <? List.length name)%nat then
        ret (errorResponse (js "Token name must be 32 characters or less.") 400)
      (* Validate symbol *)
      else if negb (truthy symbol) then
        ret (errorResponse (js "Token symbol is required.") 400)
      else if (MAX_SYMBOL_LENGTH <? List.length symbol)%nat then
        ret (errorResponse (js "Symbol must be 10 characters or less.") 400)
      (* Validate description length *)
      else if (MAX_DESCRIPTION_LENGTH <? List.length description)%nat then
        ret (errorResponse (js "Description must be 200 characters or less.") 400)
      else
        (* Upload image to IPFS *)
        imageCid <- uploadFileToPinata image ;;
        let imageUrl := js "https://gateway.pinata.cloud/ipfs/" ++ imageCid in
        (* Create and upload metadata JSON (follows Metaplex standard) *)
        let metadata :=
          buildMetadata name symbol description imageUrl (type image)
            website twitter telegram in
        metadataCid <- uploadJsonToPinata (JObject metadata) ;;
        let metadataUrl := js "https://gateway.pinata.cloud/ipfs/" ++ metadataCid in
        ret {| httpStatus := 200;
               httpBody := JObject [ ("success"%string, JBool true);
                                     ("imageUrl"%string, JString imageUrl);
                                     ("metadataUrl"%string, JString metadataUrl) ] |}
    | _ =>
      ret (errorResponse (js "Please provide an image file.") 400)
    end.

Definition POST (request : Request) : M history HttpResponse :=
  tryCatch (handle request)
    (fun error =>
       consoleError (js "Upload error:") (LoggedThrown error) ;;
       let message := messageOr (js "Upload failed. Please try again.") error in
       ret (errorResponse message 500)).

End Handler.

End Route.

(* ===================================================================== *)
(** * What the specification says, in its own words                       *)
(* ===================================================================== *)

Module Spec.
Import JS.

(** The whole number a string of decimal digits denotes, digit by
    digit: each digit times its power of ten. *)
Fixpoint decimalValue (s : jsstring) : Z :=
  match s with
  | [] => 0
  | c :: s' => (Z.of_N c - 48) * 10 ^ Z.of_nat (List.length s') + decimalValue s'
  end%Z.

(** The unsigned 64-bit maximum. *)
Definition UINT64_MAX : Z := 18446744073709551615.

(** The supply rule on the entered text [t], surrounding whitespace
    removed: required, a base-10 integer, strictly greater than zero and
    no greater than the unsigned 64-bit maximum. *)
Definition supplyVerdict (t : jsstring) : option jsstring :=
  if negb (truthy t) then Some (js "Supply is required")
  else if negb (testPlus isDigit t) then Some (js "Supply must be a whole number")
  else if (decimalValue t <=? 0)%Z then Some (js "Supply must be greater than 0")
  else if (UINT64_MAX <? decimalValue t)%Z then
    Some (js "Supply exceeds maximum allowed value")
  else None.

(** The estimated minimum cost: 0.00145 + 0.00204 + 0.01 + 0.00015 added
    left to right as binary64 Numbers, which is 0.013640000000000001. *)
Definition threshold : Q := 7862924661418697 # 576460752303423488.

(** The validation rules of the upload endpoint, on the fields with
    surrounding whitespace removed: the image is a file of at most 5 MB
    and of one of the four accepted types, the name is non-empty and at
    most 32 long, the symbol non-empty and at most 10 long, the
    description at most 200 long.  True when one of them is broken. *)
Definition ruleFails (fd : Route.FormData) : bool :=
  match Route.get fd (js "image") with
  | Some (Route.Blob image) =>
    (5 * 1024 * 1024 <? size image)%Z
    || negb (includes [js "image/jpeg"; js "image/png"; js "image/gif"; js "image/webp"]
               (type image))
    || negb (truthy (Route.field fd (js "name")))
    || (32 <? List.length (Route.field fd (js "name")))%nat
    || negb (truthy (Route.field fd (js "symbol")))
    || (10 <? List.length (Route.field fd (js "symbol")))%nat
    || (200 <? List.length (Route.field fd (js "description")))%nat
  | _ => true
  end.

(** Upload credentials are configured: a token, or a key with its secret. *)
Definition configured (env : Route.Env) : bool :=
  truthy (Route.trimmed (Route.PINATA_JWT env))
  || (truthy (Route.trimmed (Route.PINATA_API_KEY env))
      && truthy (Route.trimmed (Route.PINATA_API_SECRET env))).

(** What the extensions block holds under key [k]: the link supplied
    for that key when it is not empty, and nothing otherwise. *)
Definition expectedLink (website twitter telegram : jsstring) (k : string)
  : option json :=
  let given (v : jsstring) := if truthy v then Some (JString v) else None in
  if String.eqb k "website" then given website
  else if String.eqb k "twitter" then given twitter
  else if String.eqb k "telegram" then given telegram
  else None.

Definition gateway : jsstring := js "https://gateway.pinata.cloud/ipfs/".

(** A JSON error body: an object with the one key [error]. *)
Definition isErrorBody (b : json) : Prop :=
  exists message, b = JObject [("error"%string, JString message)].

(** The body of a successful upload: the two gateway URLs. *)
Definition successBody (imageCid metadataCid : jsstring) : json :=
  JObject [ ("success"%string, JBool true);
            ("imageUrl"%string, JString (gateway ++ imageCid));
            ("metadataUrl"%string, JString (gateway ++ metadataCid)) ].

(** A call that did not throw. *)
Definition succeeded (e : Page.event) : Prop := Page.threw e = None.

(** A computation of the page is orderly when it only appends to the
    log, every call logged by a normal run succeeded, and a run that
    throws stops at the call that threw. *)
Definition Orderly {A} (m : M Page.State A) : Prop :=
  forall s, exists new,
    Page.log (snd (m s)) = Page.log s ++ new
    /\ match fst (m s) with
       | Normal _ => Forall succeeded new
       | Throw t => exists good bad,
           new = good ++ [bad] /\ Forall succeeded good /\ Page.threw bad = Some t
       end.

(** The calls made after the first confirmation of a mint transaction
    (one confirmed by blockhash strategy), if there was one. *)
Fixpoint afterMintConfirmed (l : list Page.event) : option (list Page.event) :=
  match l with
  | [] => None
  | e :: l' =>
    match Page.made e, Page.threw e with
    | Page.confirmTransaction (Page.Strategy _ _ _), None => Some l'
    | _, _ => afterMintConfirmed l'
    end
  end.

Definition isMetadataInstruction (i : Page.instruction) : bool :=
  match i with
  | Page.createCreateMetadataAccountV3Instruction _ _ => true
  | _ => false
  end.

(** A call of the metadata-attachment step: deriving the metadata
    address, or sending a transaction with a metadata instruction. *)
Definition isMetadataCall (e : Page.event) : bool :=
  match Page.made e with
  | Page.findProgramAddressSync _ _ => true
  | Page.sendTransaction tx _ => existsb isMetadataInstruction (Page.instructions tx)
  | _ => false
  end.

(** The metadata transaction was sent, and the send succeeded. *)
Definition isMetadataSent (e : Page.event) : bool :=
  match Page.made e, Page.threw e with
  | Page.sendTransaction tx _, None =>
    existsb isMetadataInstruction (Page.instructions tx)
  | _, _ => false
  end.

(** The two revocations, of the mint authority and of the freeze
    authority, in one transaction. *)
Definition isRevocation (tx : Page.Transaction) : Prop :=
  exists account authority,
    Page.instructions tx
    = [ Page.createSetAuthorityInstruction account authority Page.MintTokens None;
        Page.createSetAuthorityInstruction account authority Page.FreezeAccount None ].

Definition isSetAuthority (i : Page.instruction) : bool :=
  match i with
  | Page.createSetAuthorityInstruction _ _ _ _ => true
  | _ => false
  end.

(** Sending a transaction that changes an authority. *)
Definition isRevocationSend (e : Page.event) : bool :=
  match Page.made e with
  | Page.sendTransaction tx _ => existsb isSetAuthority (Page.instructions tx)
  | _ => false
  end.

(** Every element satisfying [q] comes after one satisfying [p]. *)
Fixpoint precedes {A} (p q : A -> bool) (l : list A) : bool :=
  match l with
  | [] => true
  | a :: l' => if p a then true else negb (q a) && precedes p q l'
  end.

(** The three checks before the sequence starts: a wallet is connected,
    the validator has no error, and a balance, when one was read, is at
    least the estimated minimum cost. *)
Definition checksPass {E : Engine} (props : Page.Props) : Prop :=
  (exists publicKey, Page.walletPublicKey props = Some publicKey)
  /\ Page.validateForm (Page.form props) (Page.imageFile props)
     = Normal Page.FormErrors.empty
  /\ (forall balance, Page.walletBalance props = Some balance ->
        (threshold <= balance)%Q).

End Spec.

(* ===================================================================== *)
(** * Worlds and forms to run the code on                                 *)
(* ===================================================================== *)

Module Fixtures.
Import JS Page.

Definition key (s : string) : PublicKey := {| toBase58 := js s |}.

Definition wallet : PublicKey := key "Wa11et".

(** A world in which [sendTransaction] answers [send] and every other
    call succeeds. *)
Definition worldWith
  (send : history -> Transaction -> list Keypair -> completion jsstring) : World :=
  {| MINT_SIZE := 82;
     TOKEN_PROGRAM_ID := key "TokenProgram";
     TOKEN_METADATA_PROGRAM_ID := key "MetadataProgram";
     answerKeypair := fun _ => Normal {| publicKey := key "Mint" |};
     answerRent := fun _ _ => Normal 1461600%Z;
     answerAssociated := fun _ _ _ => Normal (key "Ata");
     answerBlockhash := fun _ => Normal (js "hash", 1000%Z);
     answerSend := send;
     answerConfirm := fun _ _ => Normal tt;
     answerProgramAddress := fun _ _ _ => Normal (key "Pda") |}.

(** Every call succeeds. *)
Definition calmWorld : World := worldWith (fun _ _ _ => Normal (js "sig")).

(** The user dismisses the first wallet prompt. *)
Definition rejectingWallet : World :=
  worldWith (fun _ _ _ => Throw (ErrorObj (js "User rejected the request."))).

(** The mint transaction goes through; the wallet prompt after it is
    dismissed. *)
Definition rejectingSecondPrompt : World :=
  worldWith (fun h _ _ =>
               if existsb (fun e => match made e with
                                    | sendTransaction _ _ => true
                                    | _ => false
                                    end) h
               then Throw (ErrorObj (js "User rejected the request."))
               else Normal (js "sig")).

(** The wallet adapter throws a value that is not an Error at the first
    prompt. *)
Definition throwingNonError : World := worldWith (fun _ _ _ => Throw NonError).

Definition tokenForm (metadataUrl : string) : LaunchForm.t :=
  {| LaunchForm.name := js "Token"; LaunchForm.symbol := js "TKN";
     LaunchForm.decimals := js "9"; LaunchForm.supply := js "1000000000";
     LaunchForm.description := []; LaunchForm.metadataUrl := js metadataUrl;
     LaunchForm.website := []; LaunchForm.twitter := []; LaunchForm.telegram := [] |}.

Definition connected (f : LaunchForm.t) (balance : option Q) : Props :=
  {| walletPublicKey := Some wallet; form := f; imageFile := None;
     walletBalance := balance |}.

(** The component before anything was launched. *)
Definition fresh : State :=
  {| formErrors := FormErrors.empty; status := []; statusType := info;
     mintAddress := []; tokenAccount := []; isLaunching := false;
     currentStep := 0; log := [] |}.

(** The pinning service accepts every upload and answers with [hash]. *)
Definition pinning (hash : string) : Route.World :=
  {| Route.answerFetch := fun _ _ _ _ =>
       Normal {| Route.ok := true;
                 Route.text := Normal [];
                 Route.json := Normal {| Route.IpfsHash := Some (js hash) |} |} |}.

(** The pinning service refuses every upload. *)
Definition refusing : Route.World :=
  {| Route.answerFetch := fun _ _ _ _ =>
       Normal {| Route.ok := false;
                 Route.text := Normal (js "{}");
                 Route.json := Normal {| Route.IpfsHash := None |} |} |}.

Definition noCredentials : Route.Env :=
  {| Route.PINATA_JWT := None; Route.PINATA_API_KEY := Some (js "  ");
     Route.PINATA_API_SECRET := Some (js "secret") |}.

Definition withToken : Route.Env :=
  {| Route.PINATA_JWT := Some (js "token"); Route.PINATA_API_KEY := None;
     Route.PINATA_API_SECRET := None |}.

Definition logo : File :=
  {| fileName := js "logo.png"; size := 1024; type := js "image/png" |}.

Definition upload (website twitter telegram : string) : Route.Request :=
  {| Route.formData := Normal
       [ (js "image", Route.Blob logo);
         (js "name", Route.Text (js " Token "));
         (js "symbol", Route.Text (js "tkn"));
         (js "description", Route.Text []);
         (js "website", Route.Text (js website));
         (js "twitter", Route.Text (js twitter));
         (js "telegram", Route.Text (js telegram)) ] |}.

(** A request without an image. *)
Definition bare : Route.Request :=
  {| Route.formData := Normal [ (js "name", Route.Text (js "Token")) ] |}.

End Fixtures.

(* ===================================================================== *)
(** * The providers: network and endpoint                                 *)
(* ===================================================================== *)

Module Providers.
Import JS.

(** The public variables of [process.env]; an unset one is [None]. *)
Record Env : Type := {
  NEXT_PUBLIC_SOLANA_NETWORK : option jsstring;
  NEXT_PUBLIC_SOLANA_RPC_URL : option jsstring
}.

(** [String.prototype.startsWith]. *)
Fixpoint startsWith (s prefix : jsstring) : bool :=
  match prefix, s with
  | [], _ => true
  | p :: prefix', c :: s' => (c =? p)%N && startsWith s' prefix'
  | _ :: _, [] => false
  end.

(* Network configuration with fallback *)
Definition getNetwork (env : Env) : jsstring :=
  match NEXT_PUBLIC_SOLANA_NETWORK env with
  | Some network =>
    if eqb_string network (js "mainnet-beta")
       || eqb_string network (js "testnet")
       || eqb_string network (js "devnet")
    then network
    else js "devnet"   (* Safe default *)
  | None => js "devnet"
  end.

(** [clusterApiUrl] belongs to the SDK and is taken as it comes. *)
Definition getEndpoint (clusterApiUrl : jsstring -> jsstring) (env : Env) : jsstring :=
  match NEXT_PUBLIC_SOLANA_RPC_URL env with
  | Some customRpc =>
    if truthy customRpc && startsWith customRpc (js "http") then customRpc
    else clusterApiUrl (getNetwork env)
  | None => clusterApiUrl (getNetwork env)
  end.

End Providers.

(* ===================================================================== *)
(** * The launch page: what is shown and what is typed                    *)
(* ===================================================================== *)

Module Views.
Import JS Page.

(** [address.slice(0, 6)] and [address.slice(-6)]. *)
Definition formatAddress (address : jsstring) : jsstring :=
  if (List.length address <=? 12)%nat then address
  else firstn 6 address ++ js "..." ++ skipn (List.length address - 6) address.

(** The Solscan link of the page; [network] is the value of
    [NEXT_PUBLIC_SOLANA_NETWORK]. *)
Definition solscanUrl (network : option jsstring) (mintAddress : jsstring) : jsstring :=
  if negb (truthy mintAddress) then []
  else
    let network :=
      match network with
      | Some n => if truthy n then n else js "mainnet-beta"
      | None => js "mainnet-beta"
      end in
    let cluster :=
      if eqb_string network (js "mainnet-beta") then []
      else js "?cluster=" ++ network in
    js "https://solscan.io/token/" ++ mintAddress ++ cluster.

End Views.

Module Form.
Import JS Page.

(** [keyof LaunchForm] *)
Inductive field : Type :=
| name | symbol | decimals | supply | description
| metadataUrl | website | twitter | telegram.

(** [form[field]] *)
Definition get (f : field) (form : LaunchForm.t) : jsstring :=
  match f with
  | name => LaunchForm.name form
  | symbol => LaunchForm.symbol form
  | decimals => LaunchForm.decimals form
  | supply => LaunchForm.supply form
  | description => LaunchForm.description form
  | metadataUrl => LaunchForm.metadataUrl form
  | website => LaunchForm.website form
  | twitter => LaunchForm.twitter form
  | telegram => LaunchForm.telegram form
  end.

(** [{ ...prev, [field]: value }] *)
Definition set (f : field) (value : jsstring) (prev : LaunchForm.t) : LaunchForm.t :=
  {| LaunchForm.name := match f with name => value | _ => LaunchForm.name prev end;
     LaunchForm.symbol := match f with symbol => value | _ => LaunchForm.symbol prev end;
     LaunchForm.decimals :=
       match f with decimals => value | _ => LaunchForm.decimals prev end;
     LaunchForm.supply := match f with supply => value | _ => LaunchForm.supply prev end;
     LaunchForm.description :=
       match f with description => value | _ => LaunchForm.description prev end;
     LaunchForm.metadataUrl :=
       match f with metadataUrl => value | _ => LaunchForm.metadataUrl prev end;
     LaunchForm.website := match f with website => value | _ => LaunchForm.website prev end;
     LaunchForm.twitter := match f with twitter => value | _ => LaunchForm.twitter prev end;
     LaunchForm.telegram :=
       match f with telegram => value | _ => LaunchForm.telegram prev end |}.

(** [formErrors[field as keyof FormErrors]]: the four fields without a
    validation rule have no entry. *)
Definition errorOf (f : field) (e : FormErrors.t) : option jsstring :=
  match f with
  | name => FormErrors.name e
  | symbol => FormErrors.symbol e
  | decimals => FormErrors.decimals e
  | supply => FormErrors.supply e
  | description => FormErrors.description e
  | metadataUrl | website | twitter | telegram => None
  end.

(** [{ ...prev, [field]: undefined }], an undefined entry being shown
    like an absent one. *)
Definition clear (f : field) (prev : FormErrors.t) : FormErrors.t :=
  {| FormErrors.name := match f with name => None | _ => FormErrors.name prev end;
     FormErrors.symbol := match f with symbol => None | _ => FormErrors.symbol prev end;
     FormErrors.decimals :=
       match f with decimals => None | _ => FormErrors.decimals prev end;
     FormErrors.supply := match f with supply => None | _ => FormErrors.supply prev end;
     FormErrors.description :=
       match f with description => None | _ => FormErrors.description prev end;
     FormErrors.image := FormErrors.image prev |}.

(** The state cells the form handlers write. *)
Record State : Type := {
  form : LaunchForm.t;
  formErrors : FormErrors.t;
  imageFile : option File;
  imagePreview : jsstring;
  reading : list File          (* files handed to [FileReader.readAsDataURL] *)
}.

(** [updateForm(field)(value)]; [rendered] is the [formErrors] of the
    render that created the handler, which the test reads, while the
    setters work on the state as it is. *)
Definition updateForm (rendered : FormErrors.t) (f : field) (value : jsstring)
  (s : State) : State :=
  let cleared :=
    (* Clear error for this field when user types *)
    match errorOf f rendered with
    | Some message => if truthy message then clear f (formErrors s) else formErrors s
    | None => formErrors s
    end in
  {| form := set f value (form s); formErrors := cleared;
     imageFile := imageFile s; imagePreview := imagePreview s; reading := reading s |}.

(** [value.replace(/\D/g, "")] *)
Definition stripNonDigits (value : jsstring) : jsstring := filter isDigit value.

(** The [onChange] of the supply input. *)
Definition onSupplyChange (rendered : FormErrors.t) (typed : jsstring) (s : State)
  : State :=
  updateForm rendered supply (stripNonDigits typed) s.

(** The [onChange] of the symbol input. *)
Definition onSymbolChange {E : Engine} (rendered : FormErrors.t) (typed : jsstring)
  (s : State) : State :=
  updateForm rendered symbol (toUpperCase typed) s.

(** [{ ...prev, image: message }] *)
Definition withImageError (message : option jsstring) (prev : FormErrors.t)
  : FormErrors.t :=
  {| FormErrors.name := FormErrors.name prev; FormErrors.symbol := FormErrors.symbol prev;
     FormErrors.decimals := FormErrors.decimals prev;
     FormErrors.supply := FormErrors.supply prev;
     FormErrors.description := FormErrors.description prev;
     FormErrors.image := message |}.

(** [handleImageChange(file)], up to the point where the reader is
    started; the preview of an accepted file is set once it has loaded. *)
Definition handleImageChange (file : option File) (s : State) : State :=
  let errors := withImageError None (formErrors s) in
  match file with
  | None =>
    {| form := form s; formErrors := errors; imageFile := None;
       imagePreview := []; reading := reading s |}
  | Some f =>
    (* Validate image *)
    if (MAX_IMAGE_SIZE_BYTES <? size f)%Z then
      {| form := form s;
         formErrors := withImageError (Some (js "Image must be 5MB or less")) errors;
         imageFile := file; imagePreview := imagePreview s; reading := reading s |}
    else if negb (includes validTypes (type f)) then
      {| form := form s;
         formErrors :=
           withImageError (Some (js "Image must be JPEG, PNG, GIF, or WebP")) errors;
         imageFile := file; imagePreview := imagePreview s; reading := reading s |}
    else
      {| form := form s; formErrors := errors; imageFile := file;
         imagePreview := imagePreview s; reading := reading s ++ [f] |}
  end.

(** The truthiness of [isFormValid]. *)
Definition isFormValid {E : Engine} (form : LaunchForm.t) (imageFile : option File)
  : completion bool :=
  match validateForm form imageFile with
  | Throw t => Throw t
  | Normal errors =>
    Normal ((FormErrors.keysLength errors =? 0)%nat
            && truthy (trim (LaunchForm.name form))
            && truthy (trim (LaunchForm.symbol form)))
  end.

End Form.

(* ===================================================================== *)
(** * The launch page: publishing the metadata                            *)
(* ===================================================================== *)

Module Publisher.
Import JS Page.
Local Open Scope effect_scope.

(** The body of a reply that is not ok, as far as it is read: a JSON
    object and its [error], a string when present. *)
Module ErrorData.
Record t : Type := { error : option jsstring }.
End ErrorData.

(** The body of an ok reply, at the type the code declares for it. *)
Record UploadData : Type := { imageUrl : jsstring; metadataUrl : jsstring }.

(** A reply to the page; [response.json()] is read at one of the two
    types above, depending on [ok]. *)
Record Response : Type := {
  ok : bool;
  errorData : completion ErrorData.t;
  data : completion UploadData
}.

(** A request the page made, and what it threw if it failed. *)
Record event : Type :=
  Requested { url : jsstring; body : Route.FormData; threw : option thrown }.

Definition history := list event.

(** Whatever answers the requests of the page. *)
Record World : Type := {
  answerUpload : history -> jsstring -> Route.FormData -> completion Response
}.

(** What [uploadMetadata] reads: the values of the render that created it. *)
Record Props : Type := {
  imageFile : option File;
  form : LaunchForm.t
}.

(** What [uploadMetadata] writes: the cells behind the setters, and the
    requests made so far. *)
Record State : Type := {
  currentForm : LaunchForm.t;
  formErrors : FormErrors.t;
  status : jsstring;
  statusType : StatusType;
  isUploading : bool;
  log : history
}.

(** [setForm((prev) => ({ ...prev, metadataUrl }))] *)
Definition setMetadataUrl (value : jsstring) : M State unit :=
  update (fun s => {| currentForm := Form.set Form.metadataUrl value (currentForm s);
                      formErrors := formErrors s; status := status s;
                      statusType := statusType s; isUploading := isUploading s;
                      log := log s |}).

(** [setFormErrors((prev) => ({ ...prev, image }))] *)
Definition setImageError (message : jsstring) : M State unit :=
  update (fun s => {| currentForm := currentForm s;
                      formErrors := Form.withImageError (Some message) (formErrors s);
                      status := status s; statusType := statusType s;
                      isUploading := isUploading s; log := log s |}).

Definition setStatusMessage (message : jsstring) (type : StatusType) : M State unit :=
  update (fun s => {| currentForm := currentForm s; formErrors := formErrors s;
                      status := message; statusType := type;
                      isUploading := isUploading s; log := log s |}).

Definition setIsUploading (b : bool) : M State unit :=
  update (fun s => {| currentForm := currentForm s; formErrors := formErrors s;
                      status := status s; statusType := statusType s;
                      isUploading := b; log := log s |}).

Section Upload.
Context {E : Engine}.
Variable w : World.
Variable props : Props.

(** [fetch(url, { method: "POST", body })] *)
Definition request (url : jsstring) (body : Route.FormData) : M State Response :=
  fun s =>
    let r := answerUpload w (log s) url body in
    (r, {| currentForm := currentForm s; formErrors := formErrors s;
           status := status s; statusType := statusType s;
           isUploading := isUploading s;
           log := log s ++ [Requested url body (thrownBy r)] |}).

(** The form data sent for the image [imageFile]. *)
Definition formDataOf (imageFile : File) : Route.FormData :=
  let form := form props in
  [ (js "image", Route.Blob imageFile);
    (js "name", Route.Text (trim (LaunchForm.name form)));
    (js "symbol", Route.Text (toUpperCase (trim (LaunchForm.symbol form))));
    (js "description", Route.Text (trim (LaunchForm.description form)));
    (js "website", Route.Text (trim (LaunchForm.website form)));
    (js "twitter", Route.Text (trim (LaunchForm.twitter form)));
    (js "telegram", Route.Text (trim (LaunchForm.telegram form))) ].

(** The [try] block of [uploadMetadata]. *)
Definition send (imageFile : File) : M State unit :=
  response <- request (js "/api/upload") (formDataOf imageFile) ;;
  (if negb (ok response) then
     let errorData :=
       match errorData response with
       | Normal d => d
       | Throw _ => {| ErrorData.error := Some (js "Upload failed") |}
       end in
     let message :=
       match ErrorData.error errorData with
       | Some m => if truthy m then m else js "Failed to upload metadata"
       | None => js "Failed to upload metadata"
       end in
     throw (ErrorObj message)
   else ret tt) ;;
  data <- lift (data response) ;;
  setMetadataUrl (metadataUrl data) ;;
  setStatusMessage (js "Metadata uploaded successfully to IPFS!") success.

(** The [catch] block of [uploadMetadata]. *)
Definition sendFailed (e : thrown) : M State unit :=
  setStatusMessage (messageOr (js "Upload failed. Please try again.") e) error.

(** [uploadMetadata] from the point where its three checks have passed. *)
Definition upload (imageFile : File) : M State unit :=
  setIsUploading true ;;
  setStatusMessage (js "Uploading image and metadata to IPFS...") info ;;
  tryFinally (tryCatch (send imageFile) sendFailed) (setIsUploading false).

Definition uploadMetadata : M State unit :=
  match imageFile props with
  | None => setStatusMessage (js "Please upload an image first.") error
  | Some imageFile =>
    if negb (truthy (trim (LaunchForm.name (form props))))
       || negb (truthy (trim (LaunchForm.symbol (form props)))) then
      setStatusMessage
        (js "Please fill in token name and symbol before uploading metadata.") error
    else
      (* Validate image *)
      errors <- lift (validateForm (form props) (Some imageFile)) ;;
      match FormErrors.image errors with
      | Some message =>
        if truthy message then
          setImageError message ;;
          setStatusMessage message error
        else upload imageFile
      | None => upload imageFile
      end
  end.

End Upload.

(** ** The page talking to the route of the same deployment *)

(** A string-valued property of a JSON object. *)
Definition stringAt (k : string) (document : json) : option jsstring :=
  match document with
  | JObject fields =>
    match lookup k fields with
    | Some (JString s) => Some s
    | _ => None
    end
  | _ => None
  end.

(** What the page receives for the answer [r] of the route: [ok] for a
    status from 200 to 299, and the body parsed again.  A body with
    status 200 always holds the two URLs, so the last case is never read. *)
Definition received (r : Route.HttpResponse) : Response :=
  {| ok := (200 <=? Route.httpStatus r)%Z && (Route.httpStatus r <=? 299)%Z;
     errorData := Normal {| ErrorData.error := stringAt "error" (Route.httpBody r) |};
     data :=
       match stringAt "imageUrl" (Route.httpBody r),
             stringAt "metadataUrl" (Route.httpBody r) with
       | Some i, Some m => Normal {| imageUrl := i; metadataUrl := m |}
       | _, _ => Throw NonError
       end |}.

(** *** The form data on its way

    [fetch] sends a FormData body as multipart/form-data, and the route
    reads it back with [request.formData()]. *)

Definition isHighSurrogate (c : N) : bool := ((55296 <=? c) && (c <=? 56319))%N.
Definition isLowSurrogate (c : N) : bool := ((56320 <=? c) && (c <=? 57343))%N.

(** [FormData.append] takes its value as a USVString: a surrogate that
    is not part of a pair becomes U+FFFD. *)
Fixpoint toUSVString (s : jsstring) : jsstring :=
  match s with
  | [] => []
  | c :: rest =>
    if isHighSurrogate c then
      match rest with
      | d :: rest' =>
        if isLowSurrogate d then c :: d :: toUSVString rest'
        else 65533%N :: toUSVString rest
      | [] => [65533%N]
      end
    else if isLowSurrogate c then 65533%N :: toUSVString rest
    else c :: toUSVString rest
  end.

(** The multipart encoding of a text value: every CR not followed by LF
    and every LF not preceded by CR is sent as CR LF. *)
Fixpoint normalizeLineBreaks (s : jsstring) : jsstring :=
  match s with
  | [] => []
  | c :: rest =>
    if (c =? 13)%N then
      match rest with
      | d :: rest' =>
        if (d =? 10)%N then 13%N :: 10%N :: normalizeLineBreaks rest'
        else 13%N :: 10%N :: normalizeLineBreaks rest
      | [] => [13%N; 10%N]
      end
    else if (c =? 10)%N then 13%N :: 10%N :: normalizeLineBreaks rest
    else c :: normalizeLineBreaks rest
  end.

(** A text value as the route reads it. *)
Definition onWire (s : jsstring) : jsstring := normalizeLineBreaks (toUSVString s).

(** The form data as the route reads it.  The names the page sends are
    plain words and arrive as they are.  A file arrives as [arrived]
    gives it: the name and the type of the part read back are a matter
    of the runtimes at both ends. *)
Definition transmitted (arrived : File -> File) (fd : Route.FormData) : Route.FormData :=
  map (fun entry =>
         (fst entry,
          match snd entry with
          | Route.Text s => Route.Text (onWire s)
          | Route.Blob f => Route.Blob (arrived f)
          end)) fd.

(** The route, configured by [env] and facing the pinning service
    [pinata], serving each request of the page on a fresh server log. *)
Definition served {E : Engine} (env : Route.Env) (pinata : Route.World)
  (arrived : File -> File) : World :=
  {| answerUpload := fun _ _ body =>
       match fst (Route.POST env pinata
                    {| Route.formData := Normal (transmitted arrived body) |} []) with
       | Normal r => Normal (received r)
       | Throw t => Throw t
       end |}.

End Publisher.

(* ===================================================================== *)
(** * The launch page: the balance shown                                  *)
(* ===================================================================== *)

Module Balance.
Import JS.
Local Open Scope effect_scope.

Definition LAMPORTS_PER_SOL : Z := 1000000000.

(** [lamports / LAMPORTS_PER_SOL] for the finite Number [lamports]. *)
Definition toSol (lamports : Q) : number :=
  round64 (lamports / inject_Z LAMPORTS_PER_SOL).

Inductive call : Type :=
| getAccountInfo
| getBalance
| console_error (label : jsstring) (detail : thrown).

Record event : Type := Called { made : call; threw : option thrown }.

Definition history := list event.

(** The RPC node, and the component as far as the reader sees it: the
    answers may depend on all that happened before, and so may
    [isMounted], which the cleanup of the effect clears. *)
Record World : Type := {
  answerAccountInfo : history -> completion (option Q);  (* [accountInfo?.lamports] *)
  answerBalance : history -> completion Q;
  isMounted : history -> bool
}.

Record State : Type := {
  walletBalance : option number;
  log : history
}.

Definition setWalletBalance (b : number) : M State unit :=
  update (fun s => {| walletBalance := Some b; log := log s |}).

Definition logged (e : event) (s : State) : State :=
  {| walletBalance := walletBalance s; log := log s ++ [e] |}.

Definition perform {A} (c : call) (answer : history -> completion A) : M State A :=
  fun s =>
    let r := answer (log s) in
    (r, logged (Called c (thrownBy r)) s).

Definition consoleError (label : jsstring) (detail : thrown) : M State unit :=
  perform (console_error label detail) (fun _ => Normal tt).

(** Reads [isMounted]. *)
Definition mounted (w : World) : M State bool :=
  fun s => (Normal (isMounted w (log s)), s).

Section Observer.
Variable w : World.

(* Function to update balance *)
Definition updateBalance : M State unit :=
  tryCatch
    ((* Use getAccountInfo as primary method (more reliable) *)
     accountInfo <- perform getAccountInfo (answerAccountInfo w) ;;
     alive <- mounted w ;;
     if alive then
       match accountInfo with
       | Some lamports => setWalletBalance (toSol lamports)
       | None =>
         (* Account exists but might have 0 balance, try getBalance *)
         balance <- perform getBalance (answerBalance w) ;;
         setWalletBalance (toSol balance)
       end
     else ret tt)
    (fun err =>
       consoleError (js "Failed to fetch balance:") err ;;
       alive <- mounted w ;;
       if alive then
         (* Fallback to getBalance *)
         tryCatch
           (balance <- perform getBalance (answerBalance w) ;;
            setWalletBalance (toSol balance))
           (fun _ => setWalletBalance (Finite 0))
       else ret tt).

(* Manual refresh function for after transactions *)
Definition refreshBalance (connected : bool) : M State unit :=
  if negb connected then ret tt
  else
    tryCatch
      (balance <- perform getBalance (answerBalance w) ;;
       setWalletBalance (toSol balance))
      (fun err => consoleError (js "Failed to refresh balance:") err).

End Observer.

(** The balance as [createToken] reads it; a balance that is not a
    finite Number is not one a lamport count gives. *)
Definition shown (b : option number) : option Q :=
  match b with
  | Some (Finite q) => Some q
  | _ => None
  end.

(** A read of the chain, as opposed to a line on the console. *)
Definition isRead (e : event) : bool :=
  match made e with
  | getAccountInfo | getBalance => true
  | console_error _ _ => false
  end.

(** A node that answers no read. *)
Definition unreachable : World :=
  {| answerAccountInfo := fun _ => Throw (ErrorObj (js "fetch failed"));
     answerBalance := fun _ => Throw (ErrorObj (js "fetch failed"));
     isMounted := fun _ => true |}.

(** A wallet whose account is not found, and a component unmounted
    while [getBalance] is awaited: [isMounted] holds until that read is
    made and no longer after it. *)
Definition leaving : World :=
  {| answerAccountInfo := fun _ => Normal None;
     answerBalance := fun _ => Normal 5000000000%Q;
     isMounted := fun h => negb (existsb (fun e => match made e with
                                                   | getBalance => true
                                                   | _ => false
                                                   end) h) |}.

End Balance.

(* ===================================================================== *)
(** * What a user of the page can rely on, as checks on a run             *)
(* ===================================================================== *)

Module Expect.
Import JS Page.

(** The instruction [i] concerns the mint [mint] and is paid, owned and
    authorised by [wallet] alone; metadata is immutable and an authority,
    when changed, is given to nobody. *)
Definition concerns (mint wallet : PublicKey) (i : instruction) : Prop :=
  match i with
  | createAccount fromPubkey newAccountPubkey _ _ _ =>
    fromPubkey = wallet /\ newAccountPubkey = mint
  | createInitializeMintInstruction m _ mintAuthority freezeAuthority =>
    m = mint /\ mintAuthority = wallet /\ freezeAuthority = wallet
  | createAssociatedTokenAccountInstruction payer _ owner m =>
    payer = wallet /\ owner = wallet /\ m = mint
  | createMintToInstruction m _ authority _ => m = mint /\ authority = wallet
  | createCreateMetadataAccountV3Instruction accounts args =>
    Page.mint accounts = mint /\ mintAuthority accounts = wallet
    /\ payer accounts = wallet /\ updateAuthority accounts = wallet
    /\ isMutable args = false /\ sellerFeeBasisPoints args = 0%Z
  | createSetAuthorityInstruction account currentAuthority _ newAuthority =>
    account = mint /\ currentAuthority = wallet /\ newAuthority = None
  end.

(** The signature a confirmation waits for. *)
Definition signatureOf (c : confirmation) : jsstring :=
  match c with
  | Strategy signature _ _ => signature
  | BySignature signature => signature
  end.

(** A call of [sendTransaction]: the wallet is asked to sign. *)
Definition isSend (e : event) : bool :=
  match made e with sendTransaction _ _ => true | _ => false end.

(** The messages the validator can give. *)
Definition validatorMessages : list jsstring :=
  [ js "Token name is required";
    js "Name must be 32 characters or less";
    js "Name can only contain letters, numbers, spaces, hyphens, and underscores";
    js "Token symbol is required";
    js "Symbol must be 10 characters or less";
    js "Symbol can only contain letters and numbers";
    js "Decimals must be a whole number";
    js "Decimals must be between 0 and 9";
    js "Supply is required";
    js "Supply must be a whole number";
    js "Supply must be greater than 0";
    js "Supply exceeds maximum allowed value";
    js "Description must be 200 characters or less";
    js "Image must be 5MB or less";
    js "Image must be JPEG, PNG, GIF, or WebP" ].

(** The first error in the order of the fields. *)
Definition firstError (e : FormErrors.t) : option jsstring :=
  match FormErrors.name e, FormErrors.symbol e, FormErrors.decimals e,
        FormErrors.supply e, FormErrors.description e, FormErrors.image e with
  | Some m, _, _, _, _, _ => Some m
  | None, Some m, _, _, _, _ => Some m
  | None, None, Some m, _, _, _ => Some m
  | None, None, None, Some m, _, _ => Some m
  | None, None, None, None, Some m, _ => Some m
  | None, None, None, None, None, o => o
  end.

(** An image the page accepts: at most 5 MB, of one of the four types. *)
Definition imageAccepted (f : File) : bool :=
  (size f <=? 5 * 1024 * 1024)%Z
  && includes [js "image/jpeg"; js "image/png"; js "image/gif"; js "image/webp"] (type f).

(** The keys of the metadata document for the three links given. *)
Definition documentKeys (website twitter telegram : jsstring) : list string :=
  [ "name"; "symbol"; "description"; "image"; "attributes"; "properties" ]%string
  ++ (if truthy website then ["external_url"%string] else [])
  ++ (if truthy website || truthy twitter || truthy telegram
      then ["extensions"%string] else []).

(** A text with every code unit that is not one of 0 to 9 removed. *)
Fixpoint digitsOf (typed : jsstring) : jsstring :=
  match typed with
  | [] => []
  | c :: rest =>
    if ((48 <=? c) && (c <=? 57))%N then c :: digitsOf rest else digitsOf rest
  end.

(** No line feed and no carriage return. *)
Definition noLineBreak (s : jsstring) : bool :=
  forallb (fun c => negb ((c =? 10) || (c =? 13))%N) s.

(** A code unit that is neither a line break nor a surrogate. *)
Definition plain (c : N) : bool :=
  negb ((c =? 10) || (c =? 13))%N
  && negb (Publisher.isHighSurrogate c) && negb (Publisher.isLowSurrogate c).

(** ASCII letters and digits. *)
Definition isAlphanumeric (c : N) : bool := isLower c || isUpper c || isDigit c.

(** The names of the three clusters. *)
Definition isCluster (n : jsstring) : Prop :=
  n = js "mainnet-beta" \/ n = js "testnet" \/ n = js "devnet".

(** The headers for the credentials configured: the key with its secret
    when both are set, the token otherwise. *)
Definition credentials (env : Route.Env) : Route.Headers :=
  if truthy (Route.trimmed (Route.PINATA_API_KEY env))
     && truthy (Route.trimmed (Route.PINATA_API_SECRET env))
  then [ ("pinata_api_key"%string, Route.trimmed (Route.PINATA_API_KEY env));
         ("pinata_secret_api_key"%string, Route.trimmed (Route.PINATA_API_SECRET env)) ]
  else [ ("Authorization"%string, js "Bearer " ++ Route.trimmed (Route.PINATA_JWT env)) ].

(** The name under which the image is sent on. *)
Definition filenameOf (image : File) : jsstring :=
  if truthy (fileName image) then fileName image else js "token-image".

(** The request that uploads the image. *)
Definition fileRequest (env : Route.Env) (image : File) (threw : option thrown)
  : Route.event :=
  Route.fetch Route.PINATA_FILE_ENDPOINT (credentials env)
    (Route.FormBody image (filenameOf image)) threw.

(** The request that uploads the document. *)
Definition jsonRequest (env : Route.Env) (document : json) (threw : option thrown)
  : Route.event :=
  Route.fetch Route.PINATA_JSON_ENDPOINT
    (credentials env ++ [("Content-Type"%string, js "application/json")])
    (Route.JsonBody document) threw.

(** The document uploaded for the form [fd], its image pinned as [imageCid]. *)
Definition documentFor {E : Engine} (fd : Route.FormData) (image : File)
  (imageCid : jsstring) : json :=
  JObject (Route.buildMetadata (Route.field fd (js "name")) (Route.field fd (js "symbol"))
             (Route.field fd (js "description")) (Spec.gateway ++ imageCid) (type image)
             (Route.field fd (js "website")) (Route.field fd (js "twitter"))
             (Route.field fd (js "telegram"))).

(** What the pinning service answers to the upload of the image, and to
    the upload of the document once the image is pinned as [imageCid]. *)
Definition imageAnswer (env : Route.Env) (w : Route.World) (h : Route.history)
  (image : File) : completion Route.FetchResponse :=
  Route.answerFetch w h Route.PINATA_FILE_ENDPOINT (credentials env)
    (Route.FormBody image (filenameOf image)).

Definition documentAnswer {E : Engine} (env : Route.Env) (w : Route.World)
  (h : Route.history) (fd : Route.FormData) (image : File) (imageCid : jsstring)
  : completion Route.FetchResponse :=
  Route.answerFetch w (h ++ [fileRequest env image None]) Route.PINATA_JSON_ENDPOINT
    (credentials env ++ [("Content-Type"%string, js "application/json")])
    (Route.JsonBody (documentFor fd image imageCid)).

(** An upload that went through: the pinning service answered ok, with
    a body that could be read and holds the hash [cid], which is not
    empty. *)
Definition pinnedAs (answer : completion Route.FetchResponse) (cid : jsstring) : Prop :=
  exists r data,
    answer = Normal r /\ Route.ok r = true /\ Route.json r = Normal data
    /\ Route.IpfsHash data = Some cid /\ cid <> [].

(** An upstream failure: the request throws; or it is answered not ok;
    or the body of an ok answer cannot be read, or holds no hash or an
    empty one. *)
Definition upstreamFailure (answer : completion Route.FetchResponse) : Prop :=
  match answer with
  | Throw _ => True
  | Normal r =>
    Route.ok r = false
    \/ match Route.json r with
       | Throw _ => True
       | Normal data => Route.IpfsHash data = None \/ Route.IpfsHash data = Some []
       end
  end.

(** What is left of [POST] once credentials are found, the form is read
    and no rule is broken: the two uploads and the answer. *)
Definition uploads {E : Engine} (env : Route.Env) (w : Route.World)
  (fd : Route.FormData) (image : File) : M Route.history Route.HttpResponse :=
  tryCatch
    (bind (Route.uploadFileToPinata env w image) (fun imageCid =>
     bind (Route.uploadJsonToPinata env w (documentFor fd image imageCid))
       (fun metadataCid =>
     ret {| Route.httpStatus := 200;
            Route.httpBody := Spec.successBody imageCid metadataCid |})))
    (fun error =>
       bind (Route.consoleError (js "Upload error:") (Route.LoggedThrown error))
         (fun _ =>
       ret (Route.errorResponse
              (messageOr (js "Upload failed. Please try again.") error) 500))).

End Expect.

(* ===================================================================== *)
(** * A launch in the calm world, to run the code on                      *)
(* ===================================================================== *)

Module Sample.
Import JS Page Fixtures.

Definition props : Props := connected (tokenForm "ipfs://metadata") None.

Definition mintKeypair : Keypair := {| publicKey := key "Mint" |}.

(** The three transactions of that launch. *)
Definition createMintTx : Transaction :=
  {| instructions :=
       [ createAccount wallet (key "Mint") 82 1461600 (key "TokenProgram");
         createInitializeMintInstruction (key "Mint") (ofZ 9) wallet wallet;
         createAssociatedTokenAccountInstruction wallet (key "Ata") wallet (key "Mint");
         createMintToInstruction (key "Mint") (key "Ata") wallet
           1000000000000000000 ];
     recentBlockhash := Some (js "hash");
     feePayer := Some wallet |}.

Definition metadataAccounts : MetadataAccounts :=
  {| metadata := key "Pda"; mint := key "Mint"; mintAuthority := wallet;
     payer := wallet; updateAuthority := wallet |}.

Definition metadataArgs : MetadataArgs :=
  {| dataName := js "Token"; dataSymbol := js "TKN"; uri := js "ipfs://metadata";
     sellerFeeBasisPoints := 0; isMutable := false |}.

Definition metadataTx : Transaction :=
  newTransaction [createCreateMetadataAccountV3Instruction metadataAccounts metadataArgs].

Definition revokeTx : Transaction :=
  newTransaction
    [ createSetAuthorityInstruction (key "Mint") wallet MintTokens None;
      createSetAuthorityInstruction (key "Mint") wallet FreezeAccount None ].

(** The publisher before anything was uploaded, with the logo chosen. *)
Definition publishing : Publisher.Props :=
  {| Publisher.imageFile := Some logo; Publisher.form := tokenForm "" |}.

(** A pinning service that answers the image with one hash and the
    document with another. *)
Definition pinningBoth : Route.World :=
  {| Route.answerFetch := fun _ url _ _ =>
       Normal {| Route.ok := true;
                 Route.text := Normal [];
                 Route.json :=
                   Normal {| Route.IpfsHash :=
                               Some (if eqb_string url Route.PINATA_FILE_ENDPOINT
                                     then js "QmImage" else js "QmDocument") |} |} |}.

(** The same with a description of 200 code units in two lines. *)
Definition twoLines : Publisher.Props :=
  {| Publisher.imageFile := Some logo;
     Publisher.form :=
       Form.set Form.description (js "a" ++ [10%N] ++ repeat 98%N 198) (tokenForm "") |}.

Definition idle : Publisher.State :=
  {| Publisher.currentForm := tokenForm ""; Publisher.formErrors := FormErrors.empty;
     Publisher.status := []; Publisher.statusType := info;
     Publisher.isUploading := false; Publisher.log := [] |}.

End Sample.

(* ===================================================================== *)
(** * Facts about the host language                                       *)
(* ===================================================================== *)

Module JSFacts.
Import JS Spec.

Lemma digit_not_space c : isDigit c = true -> isWhiteSpace c = false.
Proof.
  unfold isDigit, isWhiteSpace. intros H.
  apply andb_true_iff in H. destruct H as [H1 H2].
  apply N.leb_le in H1. apply N.leb_le in H2.
  cbn [existsb].
  repeat match goal with
         | |- context [N.eqb ?a ?b] => destruct (N.eqb_spec a b); [lia|]
         end.
  cbn. apply andb_false_iff. left. apply N.leb_gt. lia.
Qed.

Lemma trimStart_spaces s : forallb isWhiteSpace s = true -> trimStart s = [].
Proof.
  induction s as [|c s IH]; cbn; [reflexivity|].
  intros H. apply andb_true_iff in H. destruct H as [Hc Hs].
  rewrite Hc. auto.
Qed.

Lemma trim_spaces s : forallb isWhiteSpace s = true -> trim s = [].
Proof.
  intros H. unfold trim. rewrite (trimStart_spaces _ H). reflexivity.
Qed.

Lemma trimStart_head c s : isWhiteSpace c = false -> trimStart (c :: s) = c :: s.
Proof. intros H. cbn. rewrite H. reflexivity. Qed.

Lemma trimStart_keeps_digits s : forallb isDigit s = true -> trimStart s = s.
Proof.
  destruct s as [|c s]; [reflexivity|]. cbn [forallb]. intros H.
  apply andb_true_iff in H. destruct H as [Hc _].
  apply trimStart_head, digit_not_space, Hc.
Qed.

Lemma forallb_rev {A} (f : A -> bool) l : forallb f (rev l) = forallb f l.
Proof.
  induction l as [|a l IH]; [reflexivity|].
  cbn. rewrite forallb_app, IH. cbn. rewrite andb_true_r. apply andb_comm.
Qed.

Lemma trim_digits s : forallb isDigit s = true -> trim s = s.
Proof.
  intros H. unfold trim, trimEnd.
  rewrite (trimStart_keeps_digits _ H).
  rewrite trimStart_keeps_digits by (rewrite forallb_rev; exact H).
  apply rev_involutive.
Qed.

(** Trimming removes nothing more from a trimmed string. *)
Lemma trimStart_idem s : trimStart (trimStart s) = trimStart s.
Proof.
  induction s as [|c s IH]; [reflexivity|].
  cbn. destruct (isWhiteSpace c) eqn:Hc; [exact IH|]. cbn. rewrite Hc. reflexivity.
Qed.

Lemma trimStart_app s c t :
  isWhiteSpace c = false -> trimStart (s ++ c :: t) = trimStart s ++ c :: t.
Proof.
  intros Hc. induction s as [|a s IH]; cbn.
  - rewrite Hc. reflexivity.
  - destruct (isWhiteSpace a); [exact IH | reflexivity].
Qed.

Lemma trimStart_nil_or_head s :
  trimStart s = [] \/ exists c t, trimStart s = c :: t /\ isWhiteSpace c = false.
Proof.
  induction s as [|a s IH]; cbn; [left; reflexivity|].
  destruct (isWhiteSpace a) eqn:Ha; [exact IH|].
  right. exists a, s. split; [reflexivity | exact Ha].
Qed.

(** The first code unit left by [trimStart] survives trimming at the end. *)
Lemma trimEnd_head c t :
  isWhiteSpace c = false -> exists t', trimEnd (c :: t) = c :: t'.
Proof.
  intros Hc. unfold trimEnd. cbn [rev].
  rewrite (trimStart_app _ _ _ Hc), rev_app_distr. cbn. eauto.
Qed.

Lemma trimEnd_idem s : trimEnd (trimEnd s) = trimEnd s.
Proof.
  unfold trimEnd. rewrite rev_involutive, trimStart_idem. reflexivity.
Qed.

Lemma trim_idem s : trim (trim s) = trim s.
Proof.
  unfold trim at 2 3.
  destruct (trimStart_nil_or_head s) as [H | (c & t & H & Hc)].
  - rewrite H. reflexivity.
  - rewrite H. destruct (trimEnd_head c t Hc) as (t' & Ht).
    unfold trim. rewrite Ht, (trimStart_head _ _ Hc), <- Ht. apply trimEnd_idem.
Qed.

(** ** Digit strings *)

Lemma decDigit_digit c : isDigit c = true -> decDigit c = Some (Z.of_N c - 48)%Z.
Proof. intros H. unfold decDigit. rewrite H. reflexivity. Qed.

Lemma digitsFrom_decimal s : forall acc,
  forallb isDigit s = true ->
  digitsFrom 10 decDigit acc s
  = Some (acc * 10 ^ Z.of_nat (List.length s) + decimalValue s)%Z.
Proof.
  induction s as [|c s IH]; intros acc H.
  - cbn. f_equal. lia.
  - cbn [forallb] in H. apply andb_true_iff in H. destruct H as [Hc Hs].
    cbn [digitsFrom]. rewrite (decDigit_digit _ Hc), (IH _ Hs).
    f_equal. cbn [List.length decimalValue].
    rewrite Nat2Z.inj_succ, Z.pow_succ_r by lia. ring.
Qed.

Lemma decimalValue_nonneg s : forallb isDigit s = true -> (0 <= decimalValue s)%Z.
Proof.
  induction s as [|c s IH]; cbn [forallb decimalValue]; intros H; [lia|].
  apply andb_true_iff in H. destruct H as [Hc Hs].
  unfold isDigit in Hc. apply andb_true_iff in Hc. destruct Hc as [H1 H2].
  apply N.leb_le in H1. apply N.leb_le in H2.
  specialize (IH Hs).
  assert (0 <= 10 ^ Z.of_nat (List.length s))%Z by (apply Z.pow_nonneg; lia).
  nia.
Qed.

Lemma nonDecimalLiteral_digits s :
  forallb isDigit s = true -> nonDecimalLiteral s = None.
Proof.
  intros H. unfold nonDecimalLiteral.
  destruct s as [|a [|p ds]]; [reflexivity | reflexivity |].
  cbn [forallb] in H.
  apply andb_true_iff in H. destruct H as [_ H].
  apply andb_true_iff in H. destruct H as [Hp _].
  unfold isDigit in Hp. apply andb_true_iff in Hp. destruct Hp as [H1 H2].
  apply N.leb_le in H1. apply N.leb_le in H2.
  destruct (negb (a =? 48)%N); [reflexivity|].
  repeat match goal with
         | |- context [N.eqb ?a ?b] => destruct (N.eqb_spec a b); [lia|]
         end.
  reflexivity.
Qed.

Lemma splitSign_digits s : forallb isDigit s = true -> splitSign s = (false, s).
Proof.
  destruct s as [|c s]; [reflexivity|]. cbn [forallb]. intros H.
  apply andb_true_iff in H. destruct H as [Hc _].
  unfold isDigit in Hc. apply andb_true_iff in Hc. destruct Hc as [H1 H2].
  apply N.leb_le in H1. apply N.leb_le in H2.
  unfold splitSign.
  repeat match goal with
         | |- context [N.eqb ?a ?b] => destruct (N.eqb_spec a b); [lia|]
         end.
  reflexivity.
Qed.

(** [BigInt] of a non-empty digit string is the number it denotes. *)
Lemma BigIntOfString_digits s :
  testPlus isDigit s = true -> BigIntOfString s = Normal (decimalValue s).
Proof.
  unfold testPlus. intros H. apply andb_true_iff in H. destruct H as [Hne Hd].
  unfold BigIntOfString. rewrite (trim_digits _ Hd).
  destruct s as [|c s]; [discriminate|].
  rewrite (nonDecimalLiteral_digits _ Hd), (splitSign_digits _ Hd).
  unfold digits. rewrite (digitsFrom_decimal _ 0%Z Hd). f_equal.
Qed.

Lemma Qred_inject_Z z : Qred (inject_Z z) = inject_Z z.
Proof.
  unfold Qred, inject_Z.
  pose proof (Z.ggcd_gcd z 1) as Hg.
  pose proof (Z.ggcd_correct_divisors z 1) as Hd.
  destruct (Z.ggcd z 1) as [g [a b]]. cbn [fst snd] in *.
  rewrite Z.gcd_1_r in Hg. subst g. destruct Hd as [Ha Hb].
  replace a with z by lia. replace b with 1%Z by lia. reflexivity.
Qed.

Lemma isInteger_ofZ z : isInteger (ofZ z) = true.
Proof. unfold isInteger, ofZ. rewrite Qred_inject_Z. reflexivity. Qed.

Lemma BigIntOfNumber_ofZ z : BigIntOfNumber (ofZ z) = Normal z.
Proof.
  unfold BigIntOfNumber. change (ofZ z) with (Finite (inject_Z z)) at 1.
  cbv beta iota. rewrite isInteger_ofZ.
  unfold ofZ. rewrite Qred_inject_Z. reflexivity.
Qed.

(** ** The coercions on some inputs *)

Example Number_digit : Number (js "9") = Finite 9.
Proof. vm_compute. reflexivity. Qed.

Example Number_rounds_to_binary64 :
  Number (js " 9.0000000000000000001 ") = Finite 9
  /\ Number (js "0.1") = Finite (3602879701896397 # 36028797018963968)
  /\ Number (js "9007199254740993") = Finite 9007199254740992.
Proof. repeat split; vm_compute; reflexivity. Qed.

Example Number_other_literals :
  Number (js "0x1F") = Finite 31 /\ Number (js ".5e1") = Finite 5
  /\ Number (js "1e400") = Infinity false /\ Number (js "-Infinity") = Infinity true
  /\ Number (js "9.5") = Finite (19 # 2) /\ Number (js "nine") = NaN
  /\ Number (js "1e") = NaN /\ Number (js "") = Finite 0.
Proof. repeat split; vm_compute; reflexivity. Qed.

Example BigIntOfString_literals :
  BigIntOfString (js "007") = Normal 7%Z
  /\ BigIntOfString (js " -5 ") = Normal (-5)%Z
  /\ BigIntOfString (js "0x10") = Normal 16%Z
  /\ BigIntOfString (js "1.5") = Throw (HostError (BigIntSyntaxError (js "1.5"))).
Proof. repeat split; vm_compute; reflexivity. Qed.

End JSFacts.

(* ===================================================================== *)
(** * The launch page: amount and validator                               *)
(* ===================================================================== *)

Module PageProofs.
Import JS Spec JSFacts Page.

(** ** Base-unit amount *)

Lemma toBigIntAmount_blank s n : trim s = [] -> toBigIntAmount s n = Normal 0%Z.
Proof. intros H. unfold toBigIntAmount. rewrite H. reflexivity. Qed.

Lemma toBigIntAmount_rejects s n :
  trim s <> [] -> forallb isDigit (trim s) = false ->
  toBigIntAmount s n
  = Throw (ErrorObj (js "Only whole numbers are supported for supply.")).
Proof.
  intros Hne Hd. unfold toBigIntAmount, testPlus.
  destruct (trim s) as [|c t] eqn:Ht; [congruence|].
  cbn [truthy negb andb]. rewrite Hd. reflexivity.
Qed.

Lemma toBigIntAmount_digits s d :
  testPlus isDigit (trim s) = true -> (0 <= d)%Z ->
  toBigIntAmount s (ofZ d) = Normal (decimalValue (trim s) * 10 ^ d)%Z.
Proof.
  intros Hd Hpos. unfold toBigIntAmount.
  assert (Ht : truthy (trim s) = true)
    by (unfold testPlus in Hd; apply andb_true_iff in Hd; tauto).
  rewrite Ht, Hd. cbn [negb].
  rewrite (BigIntOfString_digits _ Hd), !BigIntOfNumber_ofZ.
  unfold BigIntPow. destruct (Z.ltb_spec d 0); [lia | reflexivity].
Qed.

(** C1, as it stands, fails on a padded number: the string [" 5"] is
    not empty and holds a character that is no digit, and yet the amount
    is computed, not refused. *)
Lemma toBigIntAmount_padded_number :
  js " 5" <> []
  /\ existsb (fun c => negb (isDigit c)) (js " 5") = true
  /\ toBigIntAmount (js " 5") (ofZ 0) = Normal 5%Z.
Proof. split; [discriminate | split; reflexivity]. Qed.

(** C1 (amended).  For a supply string of decimal digits only and an
    integer [d] of decimals in [0,9], the base-unit amount is exactly the
    integer the string denotes times [10^d], an unbounded integer; for
    ["1000000000"] and [9] it is [1000000000 * 10^9].  A string of
    whitespace only (the empty string included) gives 0.  Whitespace
    around the supply is dropped before anything else, and a string that
    is then non-empty and holds a non-digit makes the computation throw. *)
Theorem toBigIntAmount_exact (s : jsstring) (d : Z) (n : number) :
  (0 <= d <= 9)%Z ->
  (forallb isDigit s = true ->
     toBigIntAmount s (ofZ d) = Normal (decimalValue s * 10 ^ d)%Z)
  /\ (forallb isWhiteSpace s = true -> toBigIntAmount s n = Normal 0%Z)
  /\ toBigIntAmount s n = toBigIntAmount (trim s) n
  /\ (trim s <> [] -> forallb isDigit (trim s) = false ->
       toBigIntAmount s n
       = Throw (ErrorObj (js "Only whole numbers are supported for supply.")))
  /\ toBigIntAmount (js "1000000000") (ofZ 9) = Normal (1000000000 * 10 ^ 9)%Z.
Proof.
  intros Hd. split; [|split; [|split; [|split]]].
  - intros Hs. destruct s as [|c s'] eqn:Es; [reflexivity|].
    rewrite <- Es in *. rewrite <- (trim_digits _ Hs) at 2.
    apply toBigIntAmount_digits; [|lia].
    rewrite (trim_digits _ Hs). unfold testPlus. rewrite Hs, Es. reflexivity.
  - intros Hs. apply toBigIntAmount_blank, trim_spaces, Hs.
  - unfold toBigIntAmount. rewrite trim_idem. reflexivity.
  - apply toBigIntAmount_rejects.
  - reflexivity.
Qed.

Lemma toBigIntAmount_exact_witness :
  (0 <= 9 <= 9)%Z
  /\ forallb isDigit (js "1000000000") = true
  /\ toBigIntAmount (js "1000000000") (ofZ 9)
      = Normal (decimalValue (js "1000000000") * 10 ^ 9)%Z.
Proof.
  split; [lia|]. split; [reflexivity|].
  refine (proj1 (toBigIntAmount_exact (js "1000000000") 9 NaN _) _);
    [lia | reflexivity].
Defined.

(** ** The validator *)

Section ValidatorFacts.
Context {E : Engine}.

Lemma UINT64_MAX_TEXT_value : BigIntOfString UINT64_MAX_TEXT = Normal UINT64_MAX.
Proof. vm_compute. reflexivity. Qed.

(** Opens [validateForm] in [H] and settles the BigInt conversions of
    the supply rule, which succeed whenever they are reached. *)
Ltac open_validator H :=
  unfold validateForm in H;
  match type of H with
  | context [BigIntOfString (trim ?s)] =>
    destruct (truthy (trim s)) eqn:?Htruthy; cbn [negb] in H;
    [ destruct (testPlus isDigit (trim s)) eqn:?Hdigits; cbn [negb] in H;
      [ rewrite (BigIntOfString_digits _ Hdigits), UINT64_MAX_TEXT_value in H;
        destruct (decimalValue (trim s) <=? 0)%Z eqn:?Hle;
        [| destruct (UINT64_MAX <? decimalValue (trim s))%Z eqn:?Hmax ]
      | ]
    | ]
  end;
  injection H as H; subst.

(** The validator always returns: the conversions in its supply rule
    are only reached for digit strings. *)
Lemma validateForm_returns form img : exists e, validateForm form img = Normal e.
Proof.
  destruct (validateForm form img) as [e|t] eqn:H; [eauto|].
  exfalso. unfold validateForm in H.
  destruct (truthy (trim (LaunchForm.supply form))); cbn [negb] in H; [|discriminate].
  destruct (testPlus isDigit (trim (LaunchForm.supply form))) eqn:Hd;
    cbn [negb] in H; [|discriminate].
  rewrite (BigIntOfString_digits _ Hd), UINT64_MAX_TEXT_value in H.
  destruct (decimalValue (trim (LaunchForm.supply form)) <=? 0)%Z; [discriminate|].
  destruct (UINT64_MAX <? decimalValue (trim (LaunchForm.supply form)))%Z;
    discriminate.
Qed.

Lemma validateForm_supply form img e :
  validateForm form img = Normal e ->
  FormErrors.supply e = supplyVerdict (trim (LaunchForm.supply form)).
Proof.
  intros H. open_validator H; cbn [FormErrors.supply]; unfold supplyVerdict;
    repeat match goal with
           | H : _ = _ |- _ => rewrite H
           end; reflexivity.
Qed.

Lemma validateForm_symbol form img e :
  validateForm form img = Normal e ->
  FormErrors.symbol e =
    if negb (truthy (trim (LaunchForm.symbol form))) then
      Some (js "Token symbol is required")
    else if (MAX_SYMBOL_LENGTH <? List.length (LaunchForm.symbol form))%nat then
      Some (js "Symbol must be 10 characters or less")
    else if negb (testPlus symbolClass (toUpperCase (LaunchForm.symbol form))) then
      Some (js "Symbol can only contain letters and numbers")
    else None.
Proof. intros H. open_validator H; reflexivity. Qed.

Lemma validateForm_decimals form img e :
  validateForm form img = Normal e ->
  FormErrors.decimals e =
    let decimals := Number (LaunchForm.decimals form) in
    if isNaN decimals || negb (isInteger decimals) then
      Some (js "Decimals must be a whole number")
    else if lt decimals (ofZ 0) || gt decimals (ofZ 9) then
      Some (js "Decimals must be between 0 and 9")
    else None.
Proof. intros H. open_validator H; reflexivity. Qed.

Lemma truthy_nil s : truthy s = false <-> s = [].
Proof. destruct s; cbn; split; congruence. Qed.

(** C6 (amended).  The validator returns, and its result has a supply
    error exactly when the supply, whitespace around it removed, is
    empty, or holds a non-digit, or denotes a value that is not above
    zero or is above 18446744073709551615; and a symbol error exactly
    when the symbol is empty or whitespace only, or longer than 10 code
    units, or, once upper-cased, is not made of [A-Z] and [0-9] only. *)
Theorem validateForm_supply_symbol (form : LaunchForm.t) (img : option File) :
  exists e, validateForm form img = Normal e
  /\ (FormErrors.supply e <> None <->
        let t := trim (LaunchForm.supply form) in
        t = [] \/ forallb isDigit t = false
        \/ (decimalValue t <= 0)%Z \/ (UINT64_MAX < decimalValue t)%Z)
  /\ (FormErrors.symbol e <> None <->
        trim (LaunchForm.symbol form) = []
        \/ (10 < List.length (LaunchForm.symbol form))%nat
        \/ testPlus symbolClass (toUpperCase (LaunchForm.symbol form)) = false).
Proof.
  destruct (validateForm_returns form img) as [e He]. exists e.
  split; [exact He|]. split.
  - rewrite (validateForm_supply _ _ _ He). unfold supplyVerdict, testPlus. cbv zeta.
    destruct (truthy (trim (LaunchForm.supply form))) eqn:Ht; cbn [negb andb].
    + assert (Hne : trim (LaunchForm.supply form) <> [])
        by (intros Hn; apply truthy_nil in Hn; congruence).
      destruct (forallb isDigit (trim (LaunchForm.supply form))) eqn:Hd; cbn [negb].
      * destruct (Z.leb_spec (decimalValue (trim (LaunchForm.supply form))) 0).
        { split; [intros _; tauto | discriminate]. }
        destruct (Z.ltb_spec UINT64_MAX (decimalValue (trim (LaunchForm.supply form)))).
        { split; [intros _; tauto | discriminate]. }
        split; [congruence|]. intros [H'|[H'|[H'|H']]]; [congruence|discriminate|lia|lia].
      * split; [intros _; tauto | discriminate].
    + apply truthy_nil in Ht. split; [intros _; tauto | discriminate].
  - rewrite (validateForm_symbol _ _ _ He).
    destruct (truthy (trim (LaunchForm.symbol form))) eqn:Ht; cbn [negb].
    + assert (Hne : trim (LaunchForm.symbol form) <> [])
        by (intros Hn; apply truthy_nil in Hn; congruence).
      unfold MAX_SYMBOL_LENGTH.
      destruct (Nat.ltb_spec 10 (List.length (LaunchForm.symbol form))).
      { split; [intros _; tauto | discriminate]. }
      destruct (testPlus symbolClass (toUpperCase (LaunchForm.symbol form))) eqn:Hc;
        cbn [negb].
      * split; [congruence|]. intros [H'|[H'|H']]; [congruence|lia|discriminate].
      * split; [intros _; tauto | discriminate].
    + apply truthy_nil in Ht. split; [intros _; tauto | discriminate].
Qed.

(** C10.  A decimals field left empty, or holding whitespace only, is
    coerced to the number 0 and raises no decimals error. *)
Theorem blank_decimals_accepted (form : LaunchForm.t) (img : option File) :
  forallb isWhiteSpace (LaunchForm.decimals form) = true ->
  Number (LaunchForm.decimals form) = Finite 0
  /\ exists e, validateForm form img = Normal e /\ FormErrors.decimals e = None.
Proof.
  intros Hw.
  assert (Hn : Number (LaunchForm.decimals form) = Finite 0)
    by (unfold Number; rewrite (trim_spaces _ Hw); reflexivity).
  split; [exact Hn|].
  destruct (validateForm_returns form img) as [e He]. exists e.
  split; [exact He|].
  rewrite (validateForm_decimals _ _ _ He), Hn. reflexivity.
Qed.

(** C9.  The validator accepts the form with supply
    ["18446744073709551615"] and decimals ["9"], and the amount minted for
    it, supply times [10^9], is above the unsigned 64-bit maximum: only
    the entered supply is bounded, not the scaled amount. *)
Theorem accepted_supply_overflows_u64 :
  exists form amount,
    LaunchForm.supply form = js "18446744073709551615"
    /\ LaunchForm.decimals form = js "9"
    /\ validateForm form None = Normal FormErrors.empty
    /\ toBigIntAmount (LaunchForm.supply form) (Number (LaunchForm.decimals form))
        = Normal amount
    /\ amount = (UINT64_MAX * 10 ^ 9)%Z
    /\ (UINT64_MAX < amount)%Z.
Proof.
  exists {| LaunchForm.name := js "Token"; LaunchForm.symbol := js "TKN";
            LaunchForm.decimals := js "9";
            LaunchForm.supply := js "18446744073709551615";
            LaunchForm.description := []; LaunchForm.metadataUrl := [];
            LaunchForm.website := []; LaunchForm.twitter := [];
            LaunchForm.telegram := [] |}.
  exists (UINT64_MAX * 10 ^ 9)%Z.
  split; [reflexivity|]. split; [reflexivity|]. split; [|split; [|split]].
  - unfold validateForm. cbn [LaunchForm.name LaunchForm.symbol LaunchForm.decimals
      LaunchForm.supply LaunchForm.description].
    rewrite (toUpperCase_basicLatin (js "TKN")) by (repeat constructor).
    vm_compute. reflexivity.
  - vm_compute. reflexivity.
  - reflexivity.
  - vm_compute. reflexivity.
Qed.

End ValidatorFacts.

(** ** The token-creation sequence: how calls and failures line up *)

Lemma Orderly_ret {A} (a : A) : Orderly (ret a).
Proof. intros s. exists []. cbn. rewrite app_nil_r. auto. Qed.

Lemma Orderly_update (f : State -> State) :
  (forall s, log (f s) = log s) -> Orderly (update f).
Proof. intros Hf s. exists []. cbn. rewrite app_nil_r, Hf. auto. Qed.

Lemma Orderly_perform {A} (c : call) (answer : history -> completion A) :
  Orderly (perform c answer).
Proof.
  intros s. exists [Called c (thrownBy (answer (log s)))]. cbn.
  split; [reflexivity|].
  destruct (answer (log s)) as [a|t]; cbn.
  - repeat constructor.
  - exists [], (Called c (Some t)). repeat split. constructor.
Qed.

Lemma Orderly_lift {A} (c : completion A) (a : A) : c = Normal a -> Orderly (lift c).
Proof. intros ->. apply (Orderly_ret a). Qed.

Lemma Orderly_bind {A B} (m : M State A) (k : A -> M State B) :
  Orderly m -> (forall a, Orderly (k a)) -> Orderly (bind m k).
Proof.
  intros Hm Hk s. unfold bind.
  destruct (Hm s) as (new & Hlog & Hres).
  destruct (m s) as [[a|t] s'] eqn:Hms; cbn [fst snd] in *.
  - destruct (Hk a s') as (new' & Hlog' & Hres').
    exists (new ++ new'). rewrite Hlog', Hlog, app_assoc. split; [reflexivity|].
    destruct (fst (k a s')) as [b|t].
    + apply Forall_app. auto.
    + destruct Hres' as (good & bad & -> & Hgood & Hbad).
      exists (new ++ good), bad. rewrite app_assoc. repeat split; [|exact Hbad].
      apply Forall_app. auto.
  - exists new. auto.
Qed.

Lemma Orderly_if {A} (b : bool) (m1 m2 : M State A) :
  Orderly m1 -> Orderly m2 -> Orderly (if b then m1 else m2).
Proof. destruct b; auto. Qed.

Ltac orderly :=
  repeat first
    [ apply Orderly_bind; [|intro]
    | apply Orderly_perform
    | apply Orderly_ret
    | apply Orderly_if
    | apply Orderly_update; intros; reflexivity ].

(** ** Running the sequence one call at a time *)

Lemma bind_perform_normal {A B} c (answer : history -> completion A)
  (k : A -> M State B) s a :
  answer (log s) = Normal a ->
  bind (perform c answer) k s = k a (logged (Called c None) s).
Proof. intros H. unfold bind, perform. rewrite H. reflexivity. Qed.

Lemma bind_perform_throw {A B} c (answer : history -> completion A)
  (k : A -> M State B) s t :
  answer (log s) = Throw t ->
  bind (perform c answer) k s = (Throw t, logged (Called c (Some t)) s).
Proof. intros H. unfold bind, perform. rewrite H. reflexivity. Qed.

Lemma perform_normal {A} c (answer : history -> completion A) s a :
  answer (log s) = Normal a ->
  perform c answer s = (Normal a, logged (Called c None) s).
Proof. intros H. unfold perform. rewrite H. reflexivity. Qed.

Lemma perform_throw {A} c (answer : history -> completion A) s t :
  answer (log s) = Throw t ->
  perform c answer s = (Throw t, logged (Called c (Some t)) s).
Proof. intros H. unfold perform. rewrite H. reflexivity. Qed.

Lemma bind_update {B} f (k : unit -> M State B) s : bind (update f) k s = k tt (f s).
Proof. reflexivity. Qed.

Lemma bind_lift_normal {A B} (a : A) (k : A -> M State B) s :
  bind (lift (Normal a)) k s = k a s.
Proof. reflexivity. Qed.

Lemma bind_ret {A B} (a : A) (k : A -> M State B) s : bind (ret a) k s = k a s.
Proof. reflexivity. Qed.

Lemma bind_bind {A B C} (m : M State A) (k : A -> M State B) (k' : B -> M State C) s :
  bind (bind m k) k' s = bind m (fun a => bind (k a) k') s.
Proof. unfold bind. destruct (m s) as [[a|t] s']; reflexivity. Qed.

(** One step of a run: a setter is applied, or the next call is made
    and both of its outcomes are followed. *)
Ltac step :=
  first
    [ rewrite bind_update
    | rewrite bind_ret
    | rewrite bind_lift_normal
    | rewrite bind_bind
    | match goal with
      | |- context [bind (perform ?c ?ans) ?k ?s] =>
        let H := fresh "Hans" in
        destruct (ans (log s)) eqn:H;
        [ rewrite (bind_perform_normal c ans k s _ H)
        | rewrite (bind_perform_throw c ans k s _ H) ]
      end ];
  cbv beta iota;
  cbn [formErrors status statusType mintAddress tokenAccount isLaunching
       currentStep log logged].

Lemma succeeded_all l :
  Forall succeeded l ->
  forallb (fun e => match threw e with None => true | Some _ => false end) l = true.
Proof.
  induction 1 as [|e l He _ IH]; [reflexivity|].
  cbn. unfold succeeded in He. rewrite He. exact IH.
Qed.

Section OrchestratorFacts.
Context {E : Engine}.
Variable w : World.
Variable props : Props.

Lemma lt_finite_false x y : lt (Finite x) (Finite y) = false <-> (y <= x)%Q.
Proof.
  cbn. rewrite negb_false_iff. apply Qle_bool_iff.
Qed.

Lemma lt_zero_false q : lt (Finite q) (ofZ 0) = false -> (0 <= Qnum (Qred q))%Z.
Proof.
  intros H. apply lt_finite_false in H.
  assert (H' : (inject_Z 0 <= Qred q)%Q) by (rewrite Qred_correct; exact H).
  unfold Qle in H'. cbn in H'. lia.
Qed.

(** Once the validator has let a form through, its amount is computed
    without a throw. *)
Lemma accepted_amount form img :
  validateForm form img = Normal FormErrors.empty ->
  exists amount,
    toBigIntAmount (LaunchForm.supply form) (Number (LaunchForm.decimals form))
    = Normal amount.
Proof.
  intros H.
  pose proof (validateForm_supply _ _ _ H) as Hs.
  pose proof (validateForm_decimals _ _ _ H) as Hd.
  cbn [FormErrors.supply FormErrors.decimals FormErrors.empty] in Hs, Hd.
  cbv zeta in Hd. unfold supplyVerdict in Hs.
  destruct (truthy (trim (LaunchForm.supply form))) eqn:Ht; [|discriminate].
  destruct (testPlus isDigit (trim (LaunchForm.supply form))) eqn:Hdig;
    [|discriminate].
  clear Hs. unfold toBigIntAmount. rewrite Ht, Hdig. cbn [negb].
  rewrite (BigIntOfString_digits _ Hdig), BigIntOfNumber_ofZ.
  destruct (Number (LaunchForm.decimals form)) as [|neg|q]; [discriminate..|].
  cbn [isNaN orb] in Hd.
  destruct (isInteger (Finite q)) eqn:Hint; [|discriminate].
  cbn [negb] in Hd.
  destruct (lt (Finite q) (ofZ 0)) eqn:Hlt; [discriminate|].
  unfold BigIntOfNumber. rewrite Hint.
  apply lt_zero_false in Hlt. unfold BigIntPow.
  destruct (Z.ltb_spec (Qnum (Qred q)) 0); [lia|]. eauto.
Qed.

Lemma launch_orderly pk :
  validateForm (form props) (imageFile props) = Normal FormErrors.empty ->
  Orderly (launch w props pk).
Proof.
  intros Hv. destruct (accepted_amount _ _ Hv) as [amount Ha].
  unfold launch. cbv zeta. unfold setCurrentStep, setStatusMessage, setMintAddress,
    setTokenAccount.
  orderly.
  eapply Orderly_lift. exact Ha.
Qed.

Lemma TOTAL_ESTIMATED_COST_value : TOTAL_ESTIMATED_COST = Finite threshold.
Proof. vm_compute. reflexivity. Qed.

Lemma no_keys e : (0 <? FormErrors.keysLength e)%nat = false <-> e = FormErrors.empty.
Proof.
  split; [|intros ->; reflexivity].
  destruct e as [[?|] [?|] [?|] [?|] [?|] [?|]]; cbn;
    intros H; first [discriminate H | reflexivity].
Qed.

(** Either the checks pass and [createToken] is [start], or one fails
    and it ends at once with an error status, the log untouched. *)
Lemma createToken_cases s0 :
  (checksPass props
   /\ exists pk, walletPublicKey props = Some pk
                /\ createToken w props s0 = start w props pk s0)
  \/ (~ checksPass props
      /\ fst (createToken w props s0) = Normal tt
      /\ statusType (snd (createToken w props s0)) = error
      /\ log (snd (createToken w props s0)) = log s0
      /\ currentStep (snd (createToken w props s0)) = currentStep s0
      /\ isLaunching (snd (createToken w props s0)) = isLaunching s0).
Proof.
  unfold createToken, checksPass.
  destruct (walletPublicKey props) as [pk|] eqn:Hpk.
  2:{ right. cbn. repeat split; auto. intros [[pk H] _]. discriminate. }
  destruct (validateForm_returns (form props) (imageFile props)) as [e He].
  unfold bind, lift. rewrite He.
  destruct (0 <? FormErrors.keysLength e)%nat eqn:Hk.
  { right. cbn. repeat split; auto. intros (_ & H & _).
    injection H as ->. discriminate. }
  apply no_keys in Hk. subst e.
  destruct (walletBalance props) as [balance|] eqn:Hb.
  2:{ left. split; [|eauto]. split; [eauto|]. split; [reflexivity|]. discriminate. }
  rewrite TOTAL_ESTIMATED_COST_value.
  destruct (lt (Finite balance) (Finite threshold)) eqn:Hlt.
  - right. cbn. repeat split; auto. intros (_ & _ & H).
    specialize (H _ eq_refl). apply lt_finite_false in H. congruence.
  - left. split; [|eauto]. split; [eauto|]. split; [reflexivity|].
    intros b Hb'. injection Hb' as <-. apply lt_finite_false, Hlt.
Qed.

(** What [start] leaves behind, from what [launch] did. *)
Lemma start_outcome pk s0 :
  exists s, log s = log s0
  /\ fst (start w props pk s0) = Normal tt
  /\ log (snd (start w props pk s0)) = log (snd (launch w props pk s))
  /\ isLaunching (snd (start w props pk s0)) = false
  /\ match fst (launch w props pk s) with
     | Normal _ =>
       status (snd (start w props pk s0)) = status (snd (launch w props pk s))
       /\ statusType (snd (start w props pk s0))
          = statusType (snd (launch w props pk s))
       /\ currentStep (snd (start w props pk s0))
          = currentStep (snd (launch w props pk s))
     | Throw t =>
       status (snd (start w props pk s0))
       = messageOr (js "Token creation failed. Please try again.") t
       /\ statusType (snd (start w props pk s0)) = error
       /\ currentStep (snd (start w props pk s0)) = 0%Z
     end.
Proof.
  exists {| formErrors := formErrors s0;
            status := js "Step 1/4: Creating mint account...";
            statusType := info; mintAddress := mintAddress s0;
            tokenAccount := tokenAccount s0; isLaunching := true;
            currentStep := 1; log := log s0 |}.
  split; [reflexivity|].
  unfold start, bind, tryFinally, tryCatch. cbn -[launch js].
  match goal with
  | |- context [launch w props pk ?s] =>
    destruct (launch w props pk s) as [[[]|t] s']; cbn -[js]; auto 10
  end.
Qed.

Lemma first_call_logged {A B} c answer (k : A -> M State B) :
  (forall a, Orderly (k a)) ->
  forall s, exists r rest,
    log (snd (bind (perform c answer) k s)) = log s ++ Called c r :: rest.
Proof.
  intros Hk s. unfold bind, perform.
  destruct (answer (log s)) as [a|t]; cbn [thrownBy].
  - match goal with
    | |- context [k a ?s1] => destruct (Hk a s1) as (new & Hlog & _)
    end.
    cbn [log logged] in Hlog. rewrite Hlog, <- app_assoc. cbn. eauto.
  - cbn. eauto.
Qed.

Lemma launch_first_call pk s :
  validateForm (form props) (imageFile props) = Normal FormErrors.empty ->
  exists r rest, log (snd (launch w props pk s)) = log s ++ Called Keypair_generate r :: rest.
Proof.
  intros Hv. destruct (accepted_amount _ _ Hv) as [amount Ha].
  unfold launch. cbv zeta. apply first_call_logged. intro.
  unfold setCurrentStep, setStatusMessage, setMintAddress, setTokenAccount.
  orderly. eapply Orderly_lift. exact Ha.
Qed.

(** C7.  The estimated minimum cost is the sum of the four constants.
    When the three checks pass (wallet connected, validator without
    errors, balance unknown or at least that cost) the sequence starts:
    its first call, key generation for the mint, is logged.  When one of
    them fails, [createToken] returns with an error status and without
    any call.  So a call is made only when all three pass. *)
Theorem createToken_gates (s0 : State) :
  TOTAL_ESTIMATED_COST
  = add (add (add ESTIMATED_COSTS.mintAccount ESTIMATED_COSTS.tokenAccount)
             ESTIMATED_COSTS.metadataAccount) ESTIMATED_COSTS.transactions
  /\ TOTAL_ESTIMATED_COST = Finite threshold
  /\ (checksPass props ->
      exists r rest,
        log (snd (createToken w props s0)) = log s0 ++ Called Keypair_generate r :: rest)
  /\ (~ checksPass props ->
      fst (createToken w props s0) = Normal tt
      /\ statusType (snd (createToken w props s0)) = error
      /\ log (snd (createToken w props s0)) = log s0)
  /\ (log (snd (createToken w props s0)) <> log s0 -> checksPass props).
Proof.
  split; [reflexivity|]. split; [apply TOTAL_ESTIMATED_COST_value|].
  destruct (createToken_cases s0)
    as [(Hpass & pk & Hpk & Hrun) | (Hfail & Hr & Hst & Hlog & _)].
  - split; [|split; [tauto | auto]].
    intros _. rewrite Hrun.
    destruct (start_outcome pk s0) as (s & Hs & _ & Hlog & _).
    rewrite Hlog, <- Hs. apply launch_first_call. apply Hpass.
  - split; [tauto|]. split; [auto|]. congruence.
Qed.

Lemma failing_call_is_last good bad pre e post t :
  good ++ [bad] = pre ++ e :: post -> Forall succeeded good -> threw e = Some t ->
  post = [] /\ pre = good /\ e = bad.
Proof.
  revert pre. induction good as [|g good IH]; intros pre Heq Hgood He.
  - destruct pre as [|x pre]; cbn in Heq.
    + injection Heq as -> <-. auto.
    + injection Heq as _ Heq. destruct pre; discriminate.
  - inversion Hgood as [|? ? Hg Hgood']; subst.
    destruct pre as [|x pre]; cbn in Heq.
    + injection Heq as -> _. unfold succeeded in Hg. congruence.
    + injection Heq as -> Heq.
      destruct (IH pre Heq Hgood' He) as (-> & -> & ->). auto.
Qed.

(** C3.  Whenever a call made by the sequence throws [t], be it the
    wallet refusing to sign, a submission or a confirmation that fails,
    that call is the last one made and every call before it succeeded;
    [createToken] still returns normally, having set the status to the
    message of [t] when [t] is an Error (its own message, or the
    engine's for an error of a builtin) and to the text
    "Token creation failed. Please try again." when [t] is not an Error,
    its type to error, the step counter to 0 and the launching flag to
    false. *)
Theorem createToken_failure (s0 : State) (pre post : list event) (e : event)
  (t : thrown) :
  log (snd (createToken w props s0)) = log s0 ++ pre ++ e :: post ->
  threw e = Some t ->
  post = []
  /\ Forall succeeded pre
  /\ fst (createToken w props s0) = Normal tt
  /\ (forall message, t = ErrorObj message ->
      status (snd (createToken w props s0)) = message)
  /\ (forall builtin, t = HostError builtin ->
      status (snd (createToken w props s0)) = hostMessage builtin)
  /\ (t = NonError ->
      status (snd (createToken w props s0))
      = js "Token creation failed. Please try again.")
  /\ statusType (snd (createToken w props s0)) = error
  /\ currentStep (snd (createToken w props s0)) = 0%Z
  /\ isLaunching (snd (createToken w props s0)) = false.
Proof.
  intros Hlog He.
  destruct (createToken_cases s0)
    as [(Hpass & pk & Hpk & Hrun) | (_ & _ & _ & Hsame & _)].
  2:{ exfalso. rewrite Hsame in Hlog. rewrite <- (app_nil_r (log s0)) in Hlog at 1.
      apply app_inv_head in Hlog. destruct pre; discriminate. }
  rewrite Hrun in *.
  destruct (start_outcome pk s0) as (s & Hs & Hr & Hl & Hflag & Hres).
  destruct Hpass as (_ & Hv & _).
  destruct (launch_orderly pk Hv s) as (new & Hnew & Hord).
  rewrite Hl, Hnew, Hs in Hlog. apply app_inv_head in Hlog.
  destruct (fst (launch w props pk s)) as [[]|t0].
  - exfalso. rewrite Hlog in Hord. apply Forall_app in Hord.
    destruct Hord as [_ Hord]. inversion Hord as [|? ? Hsucc _]; subst.
    unfold succeeded in Hsucc. congruence.
  - destruct Hord as (good & bad & -> & Hgood & Hbad).
    destruct (failing_call_is_last _ _ _ _ _ _ Hlog Hgood He) as (-> & -> & ->).
    assert (t0 = t) by congruence. subst t0.
    destruct Hres as (H1 & H2 & H3).
    repeat split; auto; intros; subst t; exact H1.
Qed.

(** The sequence from the confirmation of the mint transaction on. *)
Lemma launch_after_mint pk s new post :
  validateForm (form props) (imageFile props) = Normal FormErrors.empty ->
  log (snd (launch w props pk s)) = log s ++ new ->
  afterMintConfirmed new = Some post ->
  (trim (LaunchForm.metadataUrl (form props)) = [] ->
     forallb (fun e => negb (isMetadataCall e)) new = true
     /\ (exists tx r rest,
           post = Called (sendTransaction tx []) r :: rest /\ isRevocation tx)
     /\ (Forall succeeded post ->
         fst (launch w props pk s) = Normal tt
         /\ statusType (snd (launch w props pk s)) = success
         /\ currentStep (snd (launch w props pk s)) = 5%Z))
  /\ (trim (LaunchForm.metadataUrl (form props)) <> [] ->
      (exists seeds programId r rest,
          post = Called (findProgramAddressSync seeds programId) r :: rest)
      /\ precedes isMetadataSent isRevocationSend post = true
      /\ (Forall succeeded post ->
          (exists tx r, In (Called (sendTransaction tx []) r) post /\ isRevocation tx)
          /\ fst (launch w props pk s) = Normal tt
          /\ statusType (snd (launch w props pk s)) = success
          /\ currentStep (snd (launch w props pk s)) = 5%Z)).
Proof.
  intros Hv. destruct (accepted_amount _ _ Hv) as [amount Ha].
  unfold launch. cbv zeta.
  unfold setCurrentStep, setStatusMessage, setMintAddress, setTokenAccount.
  rewrite Ha.
  destruct (truthy (trim (LaunchForm.metadataUrl (form props)))) eqn:Hurl.
  - repeat step.
    all: unfold perform; cbn [fst snd log logged thrownBy statusType currentStep].
    all: repeat rewrite <- app_assoc; cbn [app].
    all: intros Hlog; apply app_inv_head in Hlog; subst new.
    all: cbn; intros Hafter; try discriminate Hafter.
    all: injection Hafter as <-.
    all: split; [intros Hnil; rewrite Hnil in Hurl; discriminate | intros _].
    all: split; [do 4 eexists; reflexivity|].
    all: split; [reflexivity|].
    all: intros Hall; apply succeeded_all in Hall; cbn in Hall;
      try discriminate Hall.
    split; [|auto].
    do 2 eexists. split; [right; right; right; left; reflexivity|].
    do 2 eexists. reflexivity.
  - apply truthy_nil in Hurl.
    repeat step.
    all: unfold perform; cbn [fst snd log logged thrownBy statusType currentStep].
    all: repeat rewrite <- app_assoc; cbn [app].
    all: intros Hlog; apply app_inv_head in Hlog; subst new.
    all: cbn; intros Hafter; try discriminate Hafter.
    all: injection Hafter as <-.
    all: split; [intros _ | intros Hne; congruence].
    all: split; [reflexivity|].
    all: split; [do 3 eexists; split; [reflexivity | do 2 eexists; reflexivity]|].
    all: intros Hall; apply succeeded_all in Hall; cbn in Hall;
      try discriminate Hall.
    auto.
Qed.

(** C2.  Take any run of [createToken] in which the mint transaction
    was confirmed.  If the metadata URI is empty once trimmed, no call of
    the metadata step is made at all, the very next call sends the
    transaction with the two revocations (mint authority, then freeze
    authority), and unless one of the revocation calls itself fails the
    run ends in success at step 5.  If the URI is not empty, the very
    next call opens the metadata step, and a revocation is sent only
    after the metadata transaction was. *)
Theorem metadata_step_optional (s0 : State) (new post : list event) :
  log (snd (createToken w props s0)) = log s0 ++ new ->
  afterMintConfirmed new = Some post ->
  (trim (LaunchForm.metadataUrl (form props)) = [] ->
     forallb (fun e => negb (isMetadataCall e)) new = true
     /\ (exists tx r rest,
           post = Called (sendTransaction tx []) r :: rest /\ isRevocation tx)
     /\ (Forall succeeded post ->
         statusType (snd (createToken w props s0)) = success
         /\ currentStep (snd (createToken w props s0)) = 5%Z))
  /\ (trim (LaunchForm.metadataUrl (form props)) <> [] ->
      (exists seeds programId r rest,
          post = Called (findProgramAddressSync seeds programId) r :: rest)
      /\ precedes isMetadataSent isRevocationSend post = true
      /\ (Forall succeeded post ->
          (exists tx r, In (Called (sendTransaction tx []) r) post /\ isRevocation tx)
          /\ statusType (snd (createToken w props s0)) = success
          /\ currentStep (snd (createToken w props s0)) = 5%Z)).
Proof.
  intros Hlog Hafter.
  destruct (createToken_cases s0)
    as [(Hpass & pk & Hpk & Hrun) | (_ & _ & _ & Hsame & _)].
  2:{ exfalso. rewrite Hsame in Hlog. rewrite <- (app_nil_r (log s0)) in Hlog at 1.
      apply app_inv_head in Hlog. subst new. discriminate. }
  rewrite Hrun in *.
  destruct (start_outcome pk s0) as (s & Hs & Hr & Hl & Hflag & Hres).
  destruct Hpass as (_ & Hv & _).
  rewrite Hl, <- Hs in Hlog.
  destruct (launch_after_mint pk s new post Hv Hlog Hafter) as [Hempty Hfull].
  split.
  - intros Hurl. destruct (Hempty Hurl) as (H1 & H2 & H3).
    split; [exact H1|]. split; [exact H2|].
    intros Hall. destruct (H3 Hall) as (Hn & Hok & Hstep).
    rewrite Hn in Hres. destruct Hres as (_ & -> & ->). auto.
  - intros Hurl. destruct (Hfull Hurl) as (H1 & H2 & H3).
    split; [exact H1|]. split; [exact H2|].
    intros Hall. destruct (H3 Hall) as (Hrev & Hn & Hok & Hstep).
    rewrite Hn in Hres. destruct Hres as (_ & -> & ->). auto.
Qed.

End OrchestratorFacts.

Lemma createToken_failure_witness :
  let props := Fixtures.connected (Fixtures.tokenForm "ipfs://metadata") (Some 1%Q) in
  let run := @createToken basicLatinEngine Fixtures.rejectingSecondPrompt props
               Fixtures.fresh in
  let rejected := ErrorObj (js "User rejected the request.") in
  let odd := @createToken basicLatinEngine Fixtures.throwingNonError props
               Fixtures.fresh in
  (exists pre e,
    log (snd run) = log Fixtures.fresh ++ pre ++ e :: []
    /\ threw e = Some rejected
    /\ List.length pre = 7%nat
    /\ fst run = Normal tt
    /\ status (snd run) = js "User rejected the request."
    /\ statusType (snd run) = error
    /\ currentStep (snd run) = 0%Z)
  /\ (exists pre e,
    log (snd odd) = log Fixtures.fresh ++ pre ++ e :: []
    /\ threw e = Some NonError
    /\ List.length pre = 4%nat
    /\ fst odd = Normal tt
    /\ status (snd odd) = js "Token creation failed. Please try again."
    /\ statusType (snd odd) = error
    /\ currentStep (snd odd) = 0%Z).
Proof.
  intros props run rejected odd. split.
  - exists (removelast (log (snd run))), (last (log (snd run)) (Called refreshBalance None)).
    assert (Hlog : log (snd run) = log Fixtures.fresh
                   ++ removelast (log (snd run))
                   ++ last (log (snd run)) (Called refreshBalance None) :: [])
      by (vm_compute; reflexivity).
    assert (He : threw (last (log (snd run)) (Called refreshBalance None)) = Some rejected)
      by (vm_compute; reflexivity).
    destruct (@createToken_failure basicLatinEngine Fixtures.rejectingSecondPrompt props
                Fixtures.fresh _ _ _ _ Hlog He)
      as (_ & _ & Hr & Hst & _ & _ & Hty & Hstep & _).
    split; [exact Hlog|]. split; [exact He|]. split; [vm_compute; reflexivity|].
    split; [exact Hr|]. split; [exact (Hst _ eq_refl)|].
    split; [exact Hty | exact Hstep].
  - exists (removelast (log (snd odd))), (last (log (snd odd)) (Called refreshBalance None)).
    assert (Hlog : log (snd odd) = log Fixtures.fresh
                   ++ removelast (log (snd odd))
                   ++ last (log (snd odd)) (Called refreshBalance None) :: [])
      by (vm_compute; reflexivity).
    assert (He : threw (last (log (snd odd)) (Called refreshBalance None)) = Some NonError)
      by (vm_compute; reflexivity).
    destruct (@createToken_failure basicLatinEngine Fixtures.throwingNonError props
                Fixtures.fresh _ _ _ _ Hlog He)
      as (_ & _ & Hr & _ & _ & Hst & Hty & Hstep & _).
    split; [exact Hlog|]. split; [exact He|]. split; [vm_compute; reflexivity|].
    split; [exact Hr|]. split; [exact (Hst eq_refl)|].
    split; [exact Hty | exact Hstep].
Defined.

Lemma metadata_step_optional_witness :
  let props := Fixtures.connected (Fixtures.tokenForm "  ") None in
  let run := @createToken basicLatinEngine Fixtures.calmWorld props Fixtures.fresh in
  exists new post,
    log (snd run) = log Fixtures.fresh ++ new
    /\ afterMintConfirmed new = Some post
    /\ trim (LaunchForm.metadataUrl (form props)) = []
    /\ forallb (fun e => negb (isMetadataCall e)) new = true
    /\ (exists tx r rest,
          post = Called (sendTransaction tx []) r :: rest /\ isRevocation tx)
    /\ statusType (snd run) = success.
Proof.
  intros props run.
  exists (log (snd run)), (skipn 6 (log (snd run))).
  assert (Hlog : log (snd run) = log Fixtures.fresh ++ log (snd run)) by reflexivity.
  assert (Hafter : afterMintConfirmed (log (snd run)) = Some (skipn 6 (log (snd run))))
    by (vm_compute; reflexivity).
  assert (Hurl : trim (LaunchForm.metadataUrl (form props)) = []) by reflexivity.
  destruct (@metadata_step_optional basicLatinEngine Fixtures.calmWorld props
              Fixtures.fresh _ _ Hlog Hafter) as [Hempty _].
  destruct (Hempty Hurl) as (Hnone & Hrev & Hdone).
  split; [exact Hlog|]. split; [exact Hafter|]. split; [exact Hurl|].
  split; [exact Hnone|]. split; [exact Hrev|].
  apply Hdone. vm_compute. repeat constructor.
Defined.

(** C6, as it stands, fails: the symbol ["$"] is neither empty nor
    longer than 10 characters and is refused all the same, as is the
    symbol made of one space; and the supply [" 5"] holds a character
    that is no digit and is accepted. *)
Lemma validateForm_other_verdicts :
  let form symbol :=
    {| LaunchForm.name := js "Token"; LaunchForm.symbol := symbol;
       LaunchForm.decimals := js "9"; LaunchForm.supply := js " 5";
       LaunchForm.description := []; LaunchForm.metadataUrl := [];
       LaunchForm.website := []; LaunchForm.twitter := [];
       LaunchForm.telegram := [] |} in
  exists e e',
    @validateForm basicLatinEngine (form (js "$")) None = Normal e
    /\ js "$" <> [] /\ (List.length (js "$") <= 10)%nat
    /\ FormErrors.symbol e = Some (js "Symbol can only contain letters and numbers")
    /\ existsb (fun c => negb (isDigit c)) (js " 5") = true
    /\ FormErrors.supply e = None
    /\ @validateForm basicLatinEngine (form (js " ")) None = Normal e'
    /\ js " " <> [] /\ (List.length (js " ") <= 10)%nat
    /\ FormErrors.symbol e' = Some (js "Token symbol is required").
Proof.
  do 2 eexists. split; [vm_compute; reflexivity|].
  split; [discriminate|]. split; [cbn; lia|]. split; [reflexivity|].
  split; [reflexivity|]. split; [reflexivity|].
  split; [vm_compute; reflexivity|].
  split; [discriminate|]. split; [cbn; lia | reflexivity].
Qed.

Lemma blank_decimals_accepted_witness :
  let form := {| LaunchForm.name := js "Token"; LaunchForm.symbol := js "TKN";
                 LaunchForm.decimals := js "  "; LaunchForm.supply := js "1000";
                 LaunchForm.description := []; LaunchForm.metadataUrl := [];
                 LaunchForm.website := []; LaunchForm.twitter := [];
                 LaunchForm.telegram := [] |} in
  forallb isWhiteSpace (LaunchForm.decimals form) = true
  /\ Number (LaunchForm.decimals form) = Finite 0
  /\ exists e, @validateForm basicLatinEngine form None = Normal e
             /\ FormErrors.decimals e = None.
Proof.
  intros form. split; [reflexivity|].
  apply (@blank_decimals_accepted basicLatinEngine form None). reflexivity.
Defined.

(** ** The page on some inputs *)

(** The cost is a hair above the decimal sum 0.01364 of the four
    constants, so a balance of exactly 13640000 lamports falls short of it. *)
Example threshold_above_decimal_sum :
  (1364 # 100000 < threshold)%Q
  /\ lt (literal 1364 (-5)) TOTAL_ESTIMATED_COST = true.
Proof. split; [reflexivity | vm_compute; reflexivity]. Qed.

Example default_form_lacks_name_and_symbol :
  @validateForm basicLatinEngine DEFAULT_FORM None
  = Normal {| FormErrors.name := Some (js "Token name is required");
              FormErrors.symbol := Some (js "Token symbol is required");
              FormErrors.decimals := None; FormErrors.supply := None;
              FormErrors.description := None; FormErrors.image := None |}.
Proof. vm_compute. reflexivity. Qed.

Example decimals_out_of_range :
  let form (d : string) :=
                {| LaunchForm.name := js "Token"; LaunchForm.symbol := js "TKN";
                   LaunchForm.decimals := js d; LaunchForm.supply := js "1";
                   LaunchForm.description := []; LaunchForm.metadataUrl := [];
                   LaunchForm.website := []; LaunchForm.twitter := [];
                   LaunchForm.telegram := [] |} in
  @validateForm basicLatinEngine (form "10"%string) None
  = Normal {| FormErrors.name := None; FormErrors.symbol := None;
              FormErrors.decimals := Some (js "Decimals must be between 0 and 9");
              FormErrors.supply := None; FormErrors.description := None;
              FormErrors.image := None |}
  /\ @validateForm basicLatinEngine (form "1.5"%string) None
     = Normal {| FormErrors.name := None; FormErrors.symbol := None;
                 FormErrors.decimals := Some (js "Decimals must be a whole number");
                 FormErrors.supply := None; FormErrors.description := None;
                 FormErrors.image := None |}
  /\ @validateForm basicLatinEngine (form "0x9"%string) None = Normal FormErrors.empty.
Proof. repeat split; vm_compute; reflexivity. Qed.

(** A full run with a metadata URI: twelve calls, all successful. *)
Example calm_run_with_metadata :
  let run := @createToken basicLatinEngine Fixtures.calmWorld
               (Fixtures.connected (Fixtures.tokenForm "ipfs://metadata") (Some 1%Q))
               Fixtures.fresh in
  fst run = Normal tt
  /\ statusType (snd run) = success
  /\ currentStep (snd run) = 5%Z
  /\ mintAddress (snd run) = js "Mint"
  /\ tokenAccount (snd run) = js "Ata"
  /\ map (fun e => match made e with
                   | Keypair_generate => "generate"
                   | getMinimumBalanceForRentExemption _ => "rent"
                   | getAssociatedTokenAddress _ _ => "ata"
                   | getLatestBlockhash => "blockhash"
                   | sendTransaction _ _ => "send"
                   | confirmTransaction _ => "confirm"
                   | findProgramAddressSync _ _ => "pda"
                   | refreshBalance => "refresh"
                   end%string) (log (snd run))
     = ["generate"; "rent"; "ata"; "blockhash"; "send"; "confirm";
        "pda"; "send"; "confirm"; "send"; "confirm"; "refresh"]%string
  /\ forallb (fun e => match threw e with None => true | Some _ => false end)
       (log (snd run)) = true.
Proof. repeat split; vm_compute; reflexivity. Qed.

(** The amount above the 64-bit maximum reaches the mint instruction. *)
Example overflowing_amount_is_minted :
  let form := {| LaunchForm.name := js "Token"; LaunchForm.symbol := js "TKN";
                 LaunchForm.decimals := js "9";
                 LaunchForm.supply := js "18446744073709551615";
                 LaunchForm.description := []; LaunchForm.metadataUrl := [];
                 LaunchForm.website := []; LaunchForm.twitter := [];
                 LaunchForm.telegram := [] |} in
  let run := @createToken basicLatinEngine Fixtures.calmWorld
               (Fixtures.connected form None) Fixtures.fresh in
  exists tx signers,
    nth_error (log (snd run)) 4 = Some (Called (sendTransaction tx signers) None)
    /\ nth_error (instructions tx) 3
       = Some (createMintToInstruction (Fixtures.key "Mint") (Fixtures.key "Ata")
                 Fixtures.wallet 18446744073709551615000000000%Z).
Proof. do 2 eexists. split; vm_compute; reflexivity. Qed.

(** Too small a balance: refused before any call. *)
Example short_balance_refused :
  let run := @createToken basicLatinEngine Fixtures.calmWorld
               (Fixtures.connected (Fixtures.tokenForm "") (Some (1 # 100)))
               Fixtures.fresh in
  status (snd run)
  = js "Insufficient balance. You need at least ~0.0136 SOL. Current balance: 0.0100 SOL"
  /\ statusType (snd run) = error
  /\ log (snd run) = [].
Proof. repeat split; vm_compute; reflexivity. Qed.

End PageProofs.

(* ===================================================================== *)
(** * The upload route: statuses and the metadata document                *)
(* ===================================================================== *)

Module RouteProofs.
Import JS Spec JSFacts Route.

Section HandlerFacts.
Context {E : Engine}.
Variable env : Env.
Variable w : World.

(** Without credentials the handler stops at its first test. *)
Lemma POST_unconfigured (request : Request) (h : history) :
  configured env = false ->
  POST env w request h
  = (Normal (errorResponse
               (js "Server configuration error: Missing Pinata credentials.") 500),
     h).
Proof.
  intros Hc. unfold POST, tryCatch, handle.
  rewrite <- negb_orb. fold (configured env). rewrite Hc. reflexivity.
Qed.

(** C5.  Without a token and without a complete key and secret pair
    (whitespace around them not counting), every request is answered
    with status 500 and the configuration-error message, and nothing is
    done to the outside: no request to the pinning service is made. *)
Theorem POST_without_credentials (request : Request) (h : history) :
  truthy (trimmed (PINATA_JWT env)) = false ->
  truthy (trimmed (PINATA_API_KEY env)) && truthy (trimmed (PINATA_API_SECRET env))
  = false ->
  exists response,
    POST env w request h = (Normal response, h)
    /\ httpStatus response = 500%Z
    /\ httpBody response
       = JObject
           [("error"%string,
             JString (js "Server configuration error: Missing Pinata credentials."))]
    /\ forallb (fun e => negb (isFetch e)) (skipn (List.length h) (snd (POST env w request h)))
       = true.
Proof.
  intros Hjwt Hkey.
  assert (Hc : configured env = false) by (unfold configured; rewrite Hjwt, Hkey; reflexivity).
  eexists. rewrite (POST_unconfigured request h Hc). cbn [snd].
  split; [reflexivity|]. split; [reflexivity|]. split; [reflexivity|].
  rewrite skipn_all. reflexivity.
Qed.

(** The extensions block of the metadata document. *)
Lemma buildMetadata_extensions name symbol description imageUrl imageType
  website twitter telegram :
  let document := buildMetadata name symbol description imageUrl imageType
                    website twitter telegram in
  (website = [] /\ twitter = [] /\ telegram = [] ->
     lookup "extensions" document = None /\ ~ In "extensions"%string (keys document))
  /\ (~ (website = [] /\ twitter = [] /\ telegram = []) ->
      exists links,
        lookup "extensions" document = Some (JObject links)
        /\ NoDup (keys links)
        /\ forall k, lookup k links = expectedLink website twitter telegram k).
Proof.
  cbv zeta. split.
  - intros (-> & -> & ->). split; [reflexivity|].
    cbn. intros H. repeat (destruct H as [H|H]; [discriminate H|]). exact H.
  - intros Hsome.
    exists (extensionsOf website twitter telegram).
    assert (Hk : forall k, lookup k (extensionsOf website twitter telegram)
                          = expectedLink website twitter telegram k).
    { intros k. unfold extensionsOf, expectedLink, spreadIf.
      destruct (String.eqb_spec k "website") as [->|];
        [|destruct (String.eqb_spec k "twitter") as [->|];
          [|destruct (String.eqb_spec k "telegram") as [->|]]];
        destruct (truthy website), (truthy twitter), (truthy telegram); cbn;
        repeat match goal with
               | H : ?k <> ?x |- context [String.eqb ?k ?x] =>
                 destruct (String.eqb_spec k x); [contradiction|]
               end; reflexivity. }
    split; [|split; [|exact Hk]].
    + unfold buildMetadata, extensionsOf, spreadIf.
      destruct website, twitter, telegram; try reflexivity.
      exfalso. apply Hsome. auto.
    + unfold extensionsOf, spreadIf.
      destruct (truthy website), (truthy twitter), (truthy telegram); cbn;
        repeat constructor; cbn; intuition discriminate.
Qed.

(** Splits the goal on the innermost condition the handler tests next. *)
Ltac split_match :=
  match goal with
  | |- context [match ?x with _ => _ end] =>
    lazymatch x with
    | context [match _ with _ => _ end] => fail
    | _ => destruct x eqn:?
    end
  end.

(** Rewrites with every condition met on the path. *)
Ltac use_path :=
  repeat match goal with
         | H : ?x = _ |- context [?x] => rewrite H
         end.

Ltac member :=
  cbn [In]; repeat first [left; reflexivity | right].

(** With credentials configured, a request ends in one of three ways:
    the form cannot be read (500), a rule is broken (400, nothing sent),
    or the uploads are attempted (200, or 500 when one fails). *)
Lemma POST_outcome (request : Request) (h : history) :
  configured env = true ->
  exists response new,
    POST env w request h = (Normal response, h ++ new)
    /\ ((exists t,
           formData request = Throw t
           /\ response = errorResponse
                           (messageOr (js "Upload failed. Please try again.") t) 500
           /\ new = [console_error (js "Upload error:") (LoggedThrown t)])
        \/ (exists fd,
              formData request = Normal fd /\ ruleFails fd = true
              /\ httpStatus response = 400%Z /\ isErrorBody (httpBody response)
              /\ new = [])
        \/ (exists fd,
              formData request = Normal fd /\ ruleFails fd = false
              /\ (forall url headers doc threw,
                    In (fetch url headers (JsonBody doc) threw) new ->
                    exists imageUrl imageType,
                      doc = JObject
                        (buildMetadata (field fd (js "name")) (field fd (js "symbol"))
                           (field fd (js "description")) imageUrl imageType
                           (field fd (js "website")) (field fd (js "twitter"))
                           (field fd (js "telegram"))))
              /\ ((exists t,
                     response = errorResponse
                                  (messageOr (js "Upload failed. Please try again.") t) 500
                     /\ In (console_error (js "Upload error:") (LoggedThrown t)) new)
                  \/ (exists imageCid metadataCid headers1 body1 headers2 body2,
                        response = {| httpStatus := 200;
                                      httpBody := successBody imageCid metadataCid |}
                        /\ new = [ fetch PINATA_FILE_ENDPOINT headers1 body1 None;
                                   fetch PINATA_JSON_ENDPOINT headers2 body2 None ])))).
Proof.
  intros Hc.
  unfold POST, handle, tryCatch.
  rewrite <- negb_orb. fold (configured env). rewrite Hc. cbn [negb].
  unfold uploadFileToPinata, uploadJsonToPinata, doFetch, bind,
    lift, ret, throw, consoleError, update, hashOf, getPinataAuthHeaders.
  unfold MAX_FILE_SIZE, ALLOWED_TYPES, MAX_NAME_LENGTH, MAX_SYMBOL_LENGTH,
    MAX_DESCRIPTION_LENGTH.
  repeat (split_match; cbn [negb andb orb fst snd]).
  all: try (exfalso; unfold configured in Hc;
            repeat match goal with H : _ = false |- _ => rewrite H in Hc end;
            discriminate Hc).
  all: do 2 eexists;
    (split;
     [ rewrite <- ?app_assoc; cbn [app thrownBy];
       first [ reflexivity | rewrite app_nil_r; reflexivity ] |]).
  all: first
    [ (* the form could not be read *)
      solve [ left; eexists; split; [reflexivity|]; split; reflexivity ]
    | (* a rule is broken *)
      solve [ right; left; eexists; split; [reflexivity|];
              split; [unfold ruleFails; use_path; cbn [orb negb]; reflexivity|];
              split; [reflexivity|]; split; [eexists; reflexivity | reflexivity] ]
    | (* the uploads are attempted *)
      right; right; eexists; split; [reflexivity|];
      split; [unfold ruleFails; use_path; cbn [orb negb]; reflexivity|];
      split;
      [ intros url hs doc thr Hin; cbn [In] in Hin;
        repeat (destruct Hin as [Hin|Hin];
                [ first [ discriminate Hin
                        | injection Hin as <- <- <- <-; do 2 eexists; reflexivity ] |]);
        contradiction
      | first [ solve [ left; eexists; split; [reflexivity | member] ]
              | solve [ right; do 6 eexists; split; reflexivity ] ] ] ].
Qed.

(** The statuses of the endpoint: always one of 200, 400 and 500; 400
    exactly when credentials are configured, the form can be read and a
    validation rule is broken, and then nothing is sent; 500 exactly
    when credentials are missing or something was thrown while handling
    the request; an error body with every status but 200. *)
Lemma POST_status_cases (request : Request) (h : history) :
  exists response new,
    POST env w request h = (Normal response, h ++ new)
    /\ (httpStatus response = 200 \/ httpStatus response = 400
        \/ httpStatus response = 500)%Z
    /\ (httpStatus response = 400%Z <->
        configured env = true
        /\ exists fd, formData request = Normal fd /\ ruleFails fd = true)
    /\ (httpStatus response = 400%Z -> new = [])
    /\ (httpStatus response = 500%Z <->
        configured env = false
        \/ exists t, In (console_error (js "Upload error:") (LoggedThrown t)) new)
    /\ ((exists url headers body t, In (fetch url headers body (Some t)) new) ->
        httpStatus response = 500%Z)
    /\ (httpStatus response <> 200%Z -> isErrorBody (httpBody response))
    /\ (httpStatus response = 200%Z ->
        exists imageCid metadataCid headers1 body1 headers2 body2,
          httpBody response = successBody imageCid metadataCid
          /\ new = [ fetch PINATA_FILE_ENDPOINT headers1 body1 None;
                     fetch PINATA_JSON_ENDPOINT headers2 body2 None ]).
Proof.
  destruct (configured env) eqn:Hc.
  - destruct (POST_outcome request h Hc) as (response & new & Hrun & Hcases).
    exists response, new. split; [exact Hrun|].
    destruct Hcases as [(t & Hfd & -> & ->)
                       | [(fd & Hfd & Hrule & Hst & Hbody & ->)
                         | (fd & Hfd & Hrule & _ & [(t & -> & Hin)
                                                   | (c1 & c2 & h1 & b1 & h2 & b2 & -> & ->)])]];
      cbn [httpStatus httpBody errorResponse].
    + split; [auto|]. split; [split; [discriminate | intros (_ & fd & H & _); congruence]|].
      split; [discriminate|].
      split; [split; [intros _; right; exists t; left; reflexivity | reflexivity]|].
      split; [reflexivity|]. split; [intros _; eexists; reflexivity | discriminate].
    + rewrite Hst. split; [auto|]. split; [split; [eauto | reflexivity]|].
      split; [reflexivity|].
      split; [split; [discriminate | intros [H | (t & [])]; discriminate]|].
      split; [intros (? & ? & ? & ? & [])|]. split; [intros _; exact Hbody | discriminate].
    + split; [auto|].
      split; [split; [discriminate | intros (_ & fd' & H & H'); congruence]|].
      split; [discriminate|].
      split; [split; [intros _; right; exists t; exact Hin | reflexivity]|].
      split; [reflexivity|]. split; [intros _; eexists; reflexivity | discriminate].
    + split; [auto|].
      split; [split; [discriminate | intros (_ & fd' & H & H'); congruence]|].
      split; [discriminate|].
      split; [split; [discriminate|]|].
      { intros [H | (t & [H | [H | []]])]; discriminate. }
      split; [intros (? & ? & ? & ? & [H | [H | []]]); discriminate|].
      split; [intros H; contradiction|].
      intros _. exists c1, c2, h1, b1, h2, b2. split; reflexivity.
  - eexists. exists []. rewrite app_nil_r.
    split; [apply (POST_unconfigured request h Hc)|].
    cbn [errorResponse].
    cbn [httpStatus httpBody].
    split; [auto|]. split; [split; [discriminate | intros (H & _); discriminate]|].
    split; [reflexivity|]. split; [split; [auto | reflexivity]|].
    split; [reflexivity|]. split; [intros _; eexists; reflexivity | discriminate].
Qed.

(** C4.  In every metadata document the endpoint sends to the pinning
    service, the extensions field is absent when website, twitter and
    telegram are all empty once trimmed; otherwise it is an object whose
    keys are, without repetition, those of the three whose value is not
    empty, each mapped to that (trimmed) value. *)
Theorem metadata_extensions (request : Request) (h new : history) (fd : FormData)
  (url : jsstring) (headers : Headers) (doc : JS.json) (threw : option thrown) :
  formData request = Normal fd ->
  snd (POST env w request h) = h ++ new ->
  In (fetch url headers (JsonBody doc) threw) new ->
  let website := field fd (js "website") in
  let twitter := field fd (js "twitter") in
  let telegram := field fd (js "telegram") in
  exists document,
    doc = JObject document
    /\ (website = [] /\ twitter = [] /\ telegram = [] ->
        lookup "extensions" document = None
        /\ ~ In "extensions"%string (keys document))
    /\ (~ (website = [] /\ twitter = [] /\ telegram = []) ->
        exists links,
          lookup "extensions" document = Some (JObject links)
          /\ NoDup (keys links)
          /\ forall k, lookup k links = expectedLink website twitter telegram k).
Proof.
  intros Hfd Hlog Hin. cbv zeta.
  destruct (configured env) eqn:Hc.
  - destruct (POST_outcome request h Hc) as (response & new' & Hrun & Hcases).
    rewrite Hrun in Hlog. cbn [snd] in Hlog. apply app_inv_head in Hlog. subst new'.
    destruct Hcases as [(t & Hthrow & _) | [(fd' & _ & _ & _ & _ & ->)
                                           | (fd' & Hfd' & _ & Hdoc & _)]].
    + congruence.
    + destruct Hin.
    + assert (fd' = fd) by congruence. subst fd'.
      destruct (Hdoc _ _ _ _ Hin) as (imageUrl & imageType & ->).
      eexists. split; [reflexivity|].
      apply buildMetadata_extensions.
  - rewrite (POST_unconfigured request h Hc) in Hlog. cbn [snd] in Hlog.
    rewrite <- (app_nil_r h) in Hlog at 1. apply app_inv_head in Hlog. subst new.
    destruct Hin.
Qed.

End HandlerFacts.

(** C8, as it stands, fails: with no credentials configured, a request
    without an image breaks a validation rule and is answered with 500,
    not with a 4xx status; and so is, with credentials, a request whose
    form cannot be read, which carries no image either. *)
Lemma POST_rule_broken_without_credentials :
  exists fd response response',
    Route.formData Fixtures.bare = Normal fd
    /\ ruleFails fd = true
    /\ @POST basicLatinEngine Fixtures.noCredentials (Fixtures.pinning "Qm")
         Fixtures.bare []
       = (Normal response, [])
    /\ httpStatus response = 500%Z
    /\ fst (@POST basicLatinEngine Fixtures.withToken (Fixtures.pinning "Qm")
              {| Route.formData := Throw NonError |} [])
       = Normal response'
    /\ httpStatus response' = 500%Z.
Proof. do 3 eexists. repeat split; reflexivity. Qed.

Lemma metadata_extensions_witness :
  let request := Fixtures.upload "https://token.example" "" " @token " in
  let run := @POST basicLatinEngine Fixtures.withToken (Fixtures.pinning "Qm")
               request [] in
  exists fd new headers document links,
    formData request = Normal fd
    /\ snd run = [] ++ new
    /\ In (fetch PINATA_JSON_ENDPOINT headers (JsonBody (JObject document)) None) new
    /\ lookup "extensions" document = Some (JObject links)
    /\ lookup "website" links = Some (JString (js "https://token.example"))
    /\ lookup "twitter" links = None
    /\ lookup "telegram" links = Some (JString (js "@token")).
Proof.
  intros request run.
  pose (fd := match formData request with Normal fd => fd | Throw _ => [] end).
  pose (headers := [("Authorization"%string, js "Bearer token");
                    ("Content-Type"%string, js "application/json")]).
  pose (document := @buildMetadata basicLatinEngine (js "Token") (js "tkn") []
                      (gateway ++ js "Qm") (js "image/png")
                      (js "https://token.example") [] (js "@token")).
  assert (Hfd : formData request = Normal fd) by reflexivity.
  assert (Hlog : snd run = [] ++ snd run) by reflexivity.
  assert (Hin : In (fetch PINATA_JSON_ENDPOINT headers (JsonBody (JObject document)) None)
                  (snd run))
    by (right; left; vm_compute; reflexivity).
  destruct (@metadata_extensions basicLatinEngine Fixtures.withToken
              (Fixtures.pinning "Qm") request [] (snd run) fd _ _ _ _ Hfd Hlog Hin)
    as (document' & Hdoc & _ & Hlinks).
  injection Hdoc as <-.
  destruct Hlinks as (links & Hext & _ & Hkeys).
  { intros (H & _). discriminate H. }
  exists fd, (snd run), headers, document, links.
  split; [exact Hfd|]. split; [exact Hlog|]. split; [exact Hin|].
  split; [exact Hext|].
  split; [apply (Hkeys "website"%string)|].
  split; [apply (Hkeys "twitter"%string) | apply (Hkeys "telegram"%string)].
Defined.

Lemma POST_without_credentials_witness :
  exists response,
    @POST basicLatinEngine Fixtures.noCredentials (Fixtures.pinning "Qm")
      (Fixtures.upload "" "" "") []
    = (Normal response, [])
    /\ httpStatus response = 500%Z.
Proof.
  destruct (@POST_without_credentials basicLatinEngine Fixtures.noCredentials
              (Fixtures.pinning "Qm") (Fixtures.upload "" "" "") [])
    as (response & Hrun & Hstatus & _); [reflexivity | reflexivity |].
  exists response. split; [exact Hrun | exact Hstatus].
Defined.

(** ** The route on some inputs *)

Example upload_succeeds :
  @POST basicLatinEngine Fixtures.withToken (Fixtures.pinning "Qm")
    (Fixtures.upload "" "" "") []
  = (Normal {| httpStatus := 200; httpBody := successBody (js "Qm") (js "Qm") |},
     [ fetch PINATA_FILE_ENDPOINT [("Authorization"%string, js "Bearer token")]
         (FormBody Fixtures.logo (js "logo.png")) None;
       fetch PINATA_JSON_ENDPOINT
         [("Authorization"%string, js "Bearer token");
          ("Content-Type"%string, js "application/json")]
         (JsonBody (JObject
            [ ("name"%string, JString (js "Token"));
              ("symbol"%string, JString (js "TKN"));
              ("description"%string, JString []);
              ("image"%string, JString (js "https://gateway.pinata.cloud/ipfs/Qm"));
              ("attributes"%string, JArray []);
              ("properties"%string,
                 JObject
                   [ ("files"%string,
                        JArray
                          [ JObject
                              [ ("uri"%string,
                                   JString (js "https://gateway.pinata.cloud/ipfs/Qm"));
                                ("type"%string, JString (js "image/png")) ] ]);
                     ("category"%string, JString (js "image")) ]) ]))
         None ]).
Proof. vm_compute. reflexivity. Qed.

Example upload_refused_upstream :
  @POST basicLatinEngine Fixtures.withToken Fixtures.refusing
    (Fixtures.upload "" "" "") []
  = (Normal (errorResponse (js "Failed to upload image to IPFS") 500),
     [ fetch PINATA_FILE_ENDPOINT [("Authorization"%string, js "Bearer token")]
         (FormBody Fixtures.logo (js "logo.png")) None;
       console_error (js "Pinata file upload error:") (LoggedText (js "{}"));
       console_error (js "Upload error:")
         (LoggedThrown (ErrorObj (js "Failed to upload image to IPFS"))) ]).
Proof. vm_compute. reflexivity. Qed.

Example upload_without_image :
  @POST basicLatinEngine Fixtures.withToken (Fixtures.pinning "Qm") Fixtures.bare []
  = (Normal (errorResponse (js "Please provide an image file.") 400), []).
Proof. vm_compute. reflexivity. Qed.

End RouteProofs.

(* ===================================================================== *)
(** * The validator: the forms it accepts                                 *)
(* ===================================================================== *)

Module AcceptedForms.
Import JS Spec JSFacts Page PageProofs Expect.

(** A Number read from a string is kept in lowest terms. *)
Lemma Qred_idem q : Qred (Qred q) = Qred q.
Proof. apply Qred_complete, Qred_correct. Qed.

Lemma round64_reduced x q : round64 x = Finite q -> Qred q = q.
Proof.
  unfold round64. destruct (Qnum x).
  - intros H. injection H as <-. reflexivity.
  - match goal with |- context [Qred ?t] => generalize t end.
    intros y. destruct (Qle_bool _ _); [discriminate|].
    intros H. injection H as <-. apply Qred_idem.
  - match goal with |- context [Qred ?t] => generalize t end.
    intros y. destruct (Qle_bool _ _); [discriminate|].
    intros H. injection H as <-. apply Qred_idem.
Qed.

Lemma Number_reduced s q : Number s = Finite q -> Qred q = q.
Proof.
  unfold Number. destruct (trim s) as [|c t].
  - intros H. injection H as <-. reflexivity.
  - destruct (nonDecimalLiteral (c :: t)); [apply round64_reduced|].
    destruct (splitSign (c :: t)) as [neg u].
    destruct (eqb_string u (js "Infinity")); [discriminate|].
    destruct (unsignedDecimal u); [apply round64_reduced | discriminate].
Qed.

(** An integer Number is the Number of its integer. *)
Lemma integer_Number s q :
  Number s = Finite q -> isInteger (Finite q) = true -> Finite q = ofZ (Qnum q).
Proof.
  intros Hn Hi. apply Number_reduced in Hn. unfold isInteger in Hi. rewrite Hn in Hi.
  apply Pos.eqb_eq in Hi. destruct q as [n d]. cbn [Qden] in Hi. subst d. reflexivity.
Qed.

Lemma lt_ofZ a b : lt (ofZ a) (ofZ b) = (a <? b)%Z.
Proof.
  cbn. unfold Qle_bool. cbn. rewrite !Z.mul_1_r.
  destruct (Z.leb_spec b a), (Z.ltb_spec a b); first [reflexivity | lia].
Qed.

Section Acceptance.
Context {E : Engine}.

Ltac open_validator H :=
  unfold validateForm in H;
  match type of H with
  | context [BigIntOfString (trim ?s)] =>
    destruct (truthy (trim s)); cbn [negb] in H;
    [ destruct (testPlus isDigit (trim s)) eqn:?Hdigits; cbn [negb] in H;
      [ rewrite (BigIntOfString_digits _ Hdigits), UINT64_MAX_TEXT_value in H;
        destruct (decimalValue (trim s) <=? 0)%Z;
        [| destruct (UINT64_MAX <? decimalValue (trim s))%Z ]
      | ]
    | ]
  end;
  injection H as H; subst.

Lemma validateForm_name form img e :
  validateForm form img = Normal e ->
  FormErrors.name e =
    if negb (truthy (trim (LaunchForm.name form))) then
      Some (js "Token name is required")
    else if (MAX_NAME_LENGTH <? List.length (LaunchForm.name form))%nat then
      Some (js "Name must be 32 characters or less")
    else if negb (testPlus nameClass (LaunchForm.name form)) then
      Some (js "Name can only contain letters, numbers, spaces, hyphens, and underscores")
    else None.
Proof. intros H. open_validator H; reflexivity. Qed.

Lemma validateForm_description form img e :
  validateForm form img = Normal e ->
  FormErrors.description e =
    if (MAX_DESCRIPTION_LENGTH <? List.length (LaunchForm.description form))%nat then
      Some (js "Description must be 200 characters or less")
    else None.
Proof. intros H. open_validator H; reflexivity. Qed.

Lemma validateForm_image form img e :
  validateForm form img = Normal e ->
  FormErrors.image e =
    match img with
    | Some f =>
      if negb (includes validTypes (type f)) then
        Some (js "Image must be JPEG, PNG, GIF, or WebP")
      else if (MAX_IMAGE_SIZE_BYTES <? size f)%Z then
        Some (js "Image must be 5MB or less")
      else None
    | None => None
    end.
Proof. intros H. open_validator H; reflexivity. Qed.

Lemma image_verdict f :
  (if negb (includes validTypes (type f)) then
     Some (js "Image must be JPEG, PNG, GIF, or WebP")
   else if (MAX_IMAGE_SIZE_BYTES <? size f)%Z then Some (js "Image must be 5MB or less")
   else None) = None
  <-> imageAccepted f = true.
Proof.
  unfold imageAccepted. fold validTypes.
  change (5 * 1024 * 1024)%Z with MAX_IMAGE_SIZE_BYTES.
  destruct (includes validTypes (type f)); cbn [negb].
  - rewrite Z.leb_antisym. destruct (MAX_IMAGE_SIZE_BYTES <? size f)%Z; cbn;
      split; congruence.
  - rewrite andb_false_r. split; discriminate.
Qed.

Lemma decimals_verdict s :
  (let decimals := Number s in
   if isNaN decimals || negb (isInteger decimals) then
     Some (js "Decimals must be a whole number")
   else if lt decimals (ofZ 0) || gt decimals (ofZ 9) then
     Some (js "Decimals must be between 0 and 9")
   else None) = None
  <-> exists d, Number s = ofZ d /\ (0 <= d <= 9)%Z.
Proof.
  cbv zeta. split.
  - destruct (Number s) as [| |q] eqn:Hn; [discriminate..|].
    cbn [isNaN orb]. destruct (isInteger (Finite q)) eqn:Hi; [|discriminate].
    cbn [negb]. rewrite (integer_Number _ _ Hn Hi). unfold gt. rewrite !lt_ofZ.
    destruct (Z.ltb_spec (Qnum q) 0); [discriminate|].
    destruct (Z.ltb_spec 9 (Qnum q)); [discriminate|].
    intros _. exists (Qnum q). split; [reflexivity | lia].
  - intros (d & -> & Hd). cbn [isNaN orb]. rewrite isInteger_ofZ. cbn [negb].
    unfold gt. rewrite !lt_ofZ.
    destruct (Z.ltb_spec d 0); [lia|]. destruct (Z.ltb_spec 9 d); [lia|]. reflexivity.
Qed.

Lemma supply_verdict t :
  supplyVerdict t = None
  <-> testPlus isDigit t = true /\ (1 <= decimalValue t <= UINT64_MAX)%Z.
Proof.
  unfold supplyVerdict, testPlus.
  destruct (truthy t); cbn [negb andb]; [|split; [discriminate | intros [? _]; discriminate]].
  destruct (forallb isDigit t); cbn [negb];
    [|split; [discriminate | intros [? _]; discriminate]].
  destruct (Z.leb_spec (decimalValue t) 0); [split; [discriminate | lia]|].
  destruct (Z.ltb_spec UINT64_MAX (decimalValue t)); [split; [discriminate | lia]|].
  split; [intros _; split; [reflexivity | lia] | reflexivity].
Qed.

Lemma name_verdict s :
  (if negb (truthy (trim s)) then Some (js "Token name is required")
   else if (MAX_NAME_LENGTH <? List.length s)%nat then
     Some (js "Name must be 32 characters or less")
   else if negb (testPlus nameClass s) then
     Some (js "Name can only contain letters, numbers, spaces, hyphens, and underscores")
   else None) = None
  <-> trim s <> [] /\ (List.length s <= 32)%nat /\ forallb nameClass s = true.
Proof.
  unfold MAX_NAME_LENGTH, testPlus.
  destruct (truthy (trim s)) eqn:Ht; cbn [negb].
  2:{ apply truthy_nil in Ht. split; [discriminate | intros [H _]; contradiction]. }
  assert (Hne : trim s <> []) by (intros Hn; rewrite Hn in Ht; discriminate).
  assert (Hs : truthy s = true) by (destruct s; [contradiction Hne|]; reflexivity).
  rewrite Hs. cbn [andb].
  destruct (Nat.ltb_spec 32 (List.length s)); [split; [discriminate | lia]|].
  destruct (forallb nameClass s); cbn [negb];
    [split; [auto | reflexivity] | split; [discriminate | intros (_ & _ & H'); discriminate]].
Qed.

Lemma symbol_verdict s :
  (if negb (truthy (trim s)) then Some (js "Token symbol is required")
   else if (MAX_SYMBOL_LENGTH <? List.length s)%nat then
     Some (js "Symbol must be 10 characters or less")
   else if negb (testPlus symbolClass (toUpperCase s)) then
     Some (js "Symbol can only contain letters and numbers")
   else None) = None
  <-> trim s <> [] /\ (List.length s <= 10)%nat
      /\ testPlus symbolClass (toUpperCase s) = true.
Proof.
  unfold MAX_SYMBOL_LENGTH.
  destruct (truthy (trim s)) eqn:Ht; cbn [negb].
  2:{ apply truthy_nil in Ht. split; [discriminate | intros [H _]; contradiction]. }
  assert (Hne : trim s <> []) by (intros Hn; rewrite Hn in Ht; discriminate).
  destruct (Nat.ltb_spec 10 (List.length s)); [split; [discriminate | lia]|].
  destruct (testPlus symbolClass (toUpperCase s)); cbn [negb];
    [split; [auto | reflexivity] | split; [discriminate | intros (_ & _ & H'); discriminate]].
Qed.

(** X1.  The forms the validator lets through are exactly those in which:
    the name is not blank, at most 32 code units long and made of
    letters, digits, whitespace, hyphens and underscores; the symbol is
    not blank, at most 10 long and, upper-cased, made of [A-Z] and digits;
    the decimals read as an integer from 0 to 9; the supply, trimmed, is
    a digit string denoting a value from 1 to 2^64-1; the description is
    at most 200 long; and the image, if any, is an accepted one. *)
Theorem validateForm_accepts (form : LaunchForm.t) (img : option File) :
  validateForm form img = Normal FormErrors.empty
  <-> (trim (LaunchForm.name form) <> []
       /\ (List.length (LaunchForm.name form) <= 32)%nat
       /\ forallb nameClass (LaunchForm.name form) = true)
      /\ (trim (LaunchForm.symbol form) <> []
          /\ (List.length (LaunchForm.symbol form) <= 10)%nat
          /\ testPlus symbolClass (toUpperCase (LaunchForm.symbol form)) = true)
      /\ (exists d, Number (LaunchForm.decimals form) = ofZ d /\ (0 <= d <= 9)%Z)
      /\ (testPlus isDigit (trim (LaunchForm.supply form)) = true
          /\ (1 <= decimalValue (trim (LaunchForm.supply form)) <= UINT64_MAX)%Z)
      /\ (List.length (LaunchForm.description form) <= 200)%nat
      /\ (forall f, img = Some f -> imageAccepted f = true).
Proof.
  destruct (validateForm_returns form img) as [e He].
  pose proof (validateForm_name _ _ _ He) as Hname.
  pose proof (validateForm_symbol _ _ _ He) as Hsymbol.
  pose proof (validateForm_decimals _ _ _ He) as Hdecimals.
  pose proof (validateForm_supply _ _ _ He) as Hsupply.
  pose proof (validateForm_description _ _ _ He) as Hdescription.
  pose proof (validateForm_image _ _ _ He) as Himage.
  rewrite He.
  rewrite <- name_verdict, <- symbol_verdict, <- decimals_verdict, <- supply_verdict.
  rewrite <- Hname, <- Hsymbol, <- Hdecimals, <- Hsupply.
  assert (Hd : FormErrors.description e = None
               <-> (List.length (LaunchForm.description form) <= 200)%nat).
  { rewrite Hdescription. unfold MAX_DESCRIPTION_LENGTH.
    destruct (Nat.ltb_spec 200 (List.length (LaunchForm.description form)));
      split; first [discriminate | lia | reflexivity]. }
  assert (Hi : FormErrors.image e = None <-> forall f, img = Some f -> imageAccepted f = true).
  { rewrite Himage. destruct img as [f|].
    - rewrite image_verdict. split; [intros H f' Hf; congruence | auto].
    - split; [discriminate | reflexivity]. }
  rewrite <- Hd, <- Hi.
  split.
  - intros H. injection H as ->. cbn. auto 10.
  - intros (H1 & H2 & H3 & H4 & H5 & H6).
    clear - H1 H2 H3 H4 H5 H6. destruct e.
    cbn [FormErrors.name FormErrors.symbol FormErrors.decimals FormErrors.supply
         FormErrors.description FormErrors.image] in *.
    subst. reflexivity.
Qed.

Lemma accepted_amount_value (form : LaunchForm.t) (img : option File) :
  validateForm form img = Normal FormErrors.empty ->
  exists d,
    Number (LaunchForm.decimals form) = ofZ d /\ (0 <= d <= 9)%Z
    /\ toBigIntAmount (LaunchForm.supply form) (Number (LaunchForm.decimals form))
       = Normal (decimalValue (trim (LaunchForm.supply form)) * 10 ^ d)%Z
    /\ (1 <= decimalValue (trim (LaunchForm.supply form)) * 10 ^ d
        <= UINT64_MAX * 10 ^ 9)%Z.
Proof.
  intros H.
  pose proof (validateForm_decimals _ _ _ H) as Hd.
  pose proof (validateForm_supply _ _ _ H) as Hs.
  cbn [FormErrors.decimals FormErrors.supply FormErrors.empty] in Hd, Hs.
  symmetry in Hd, Hs. apply decimals_verdict in Hd. apply supply_verdict in Hs.
  destruct Hd as (d & Hn & Hd). destruct Hs as (Hdigits & Hrange).
  exists d. split; [exact Hn|]. split; [exact Hd|]. split.
  - rewrite Hn. apply toBigIntAmount_digits; [exact Hdigits | lia].
  - assert (1 <= 10 ^ d <= 10 ^ 9)%Z.
    { split; [|apply Z.pow_le_mono_r; lia].
      assert (0 < 10 ^ d)%Z by (apply Z.pow_pos_nonneg; lia). lia. }
    unfold UINT64_MAX in *. nia.
Qed.

(** X2.  For a form the validator lets through, the amount minted is
    computed without a throw, is exactly the entered supply times ten to
    the entered decimals, and lies between 1 and (2^64-1) * 10^9. *)
Theorem accepted_amount_exact (form : LaunchForm.t) (img : option File) :
  validateForm form img = Normal FormErrors.empty ->
  exists d,
    Number (LaunchForm.decimals form) = ofZ d /\ (0 <= d <= 9)%Z
    /\ toBigIntAmount (LaunchForm.supply form) (Number (LaunchForm.decimals form))
       = Normal (decimalValue (trim (LaunchForm.supply form)) * 10 ^ d)%Z
    /\ (1 <= decimalValue (trim (LaunchForm.supply form)) * 10 ^ d
        <= UINT64_MAX * 10 ^ 9)%Z.
Proof. apply accepted_amount_value. Qed.

Lemma keysLength_zero e : (FormErrors.keysLength e =? 0)%nat = true <-> e = FormErrors.empty.
Proof.
  split; [|intros ->; reflexivity].
  destruct e as [[?|] [?|] [?|] [?|] [?|] [?|]]; cbn;
    intros H; first [discriminate H | reflexivity].
Qed.

(** X3.  The flag that enables the create button is set exactly for the
    forms the validator lets through: its two further tests, that name
    and symbol are not blank, never decide. *)
Theorem isFormValid_iff (form : LaunchForm.t) (img : option File) :
  exists b,
    Form.isFormValid form img = Normal b
    /\ (b = true <-> validateForm form img = Normal FormErrors.empty).
Proof.
  destruct (validateForm_returns form img) as [e He].
  unfold Form.isFormValid. rewrite He. eexists. split; [reflexivity|].
  split.
  - intros H. apply andb_true_iff in H. destruct H as [H _].
    apply andb_true_iff in H. destruct H as [H _].
    apply keysLength_zero in H. congruence.
  - intros H. assert (e = FormErrors.empty) by congruence. subst e.
    pose proof (validateForm_name _ _ _ He) as Hn.
    pose proof (validateForm_symbol _ _ _ He) as Hs.
    cbn [FormErrors.name FormErrors.symbol FormErrors.empty] in Hn, Hs.
    symmetry in Hn, Hs. apply name_verdict in Hn. apply symbol_verdict in Hs.
    destruct Hn as [Hn _]. destruct Hs as [Hs _].
    destruct (trim (LaunchForm.name form)); [contradiction|].
    destruct (trim (LaunchForm.symbol form)); [contradiction|]. reflexivity.
Qed.

(** Every message of the validator is one of its fifteen texts. *)
Lemma validateForm_messages form img e m :
  validateForm form img = Normal e -> In m (FormErrors.values e) ->
  In m validatorMessages.
Proof.
  intros He.
  pose proof (validateForm_name _ _ _ He) as Hname.
  pose proof (validateForm_symbol _ _ _ He) as Hsymbol.
  pose proof (validateForm_decimals _ _ _ He) as Hdecimals.
  pose proof (validateForm_supply _ _ _ He) as Hsupply.
  pose proof (validateForm_description _ _ _ He) as Hdescription.
  pose proof (validateForm_image _ _ _ He) as Himage.
  clear He. unfold FormErrors.values. cbn [flat_map].
  rewrite !in_app_iff. cbv zeta in Hdecimals. unfold supplyVerdict in Hsupply.
  intros [H|[H|[H|[H|[H|[H|[]]]]]]].
  - rewrite Hname in H.
    repeat match type of H with
           | context [if ?c then _ else _] => destruct c
           end; cbn in H; first [destruct H as [<-|[]] | destruct H]; cbn; auto 20.
  - rewrite Hsymbol in H.
    repeat match type of H with
           | context [if ?c then _ else _] => destruct c
           end; cbn in H; first [destruct H as [<-|[]] | destruct H]; cbn; auto 20.
  - rewrite Hdecimals in H.
    repeat match type of H with
           | context [if ?c then _ else _] => destruct c
           end; cbn in H; first [destruct H as [<-|[]] | destruct H]; cbn; auto 20.
  - rewrite Hsupply in H.
    repeat match type of H with
           | context [if ?c then _ else _] => destruct c
           end; cbn in H; first [destruct H as [<-|[]] | destruct H]; cbn; auto 20.
  - rewrite Hdescription in H.
    repeat match type of H with
           | context [if ?c then _ else _] => destruct c
           end; cbn in H; first [destruct H as [<-|[]] | destruct H]; cbn; auto 20.
  - rewrite Himage in H. destruct img as [f|]; [|destruct H].
    repeat match type of H with
           | context [if ?c then _ else _] => destruct c
           end; cbn in H; first [destruct H as [<-|[]] | destruct H]; cbn; auto 20.
Qed.

Lemma firstError_values e : firstError e = hd_error (FormErrors.values e).
Proof. destruct e as [[?|] [?|] [?|] [?|] [?|] [?|]]; reflexivity. Qed.

Lemma validatorMessages_truthy m : In m validatorMessages -> truthy m = true.
Proof.
  cbn. intros H. repeat (destruct H as [<-|H]; [reflexivity|]). destruct H.
Qed.

(** X4.  With a wallet connected and a form the validator refuses,
    [createToken] ends at once: it stores the errors, shows as an error
    status the first of them in the order name, symbol, decimals, supply,
    description, image (one of the fifteen texts of the validator, never
    the fallback text), and changes nothing else; no call is made. *)
Theorem createToken_reports_first_error (w : World) (props : Props) (s0 : State)
  (pk : PublicKey) (e : FormErrors.t) :
  walletPublicKey props = Some pk ->
  validateForm (form props) (imageFile props) = Normal e ->
  e <> FormErrors.empty ->
  exists m,
    firstError e = Some m /\ In m validatorMessages
    /\ createToken w props s0
       = (Normal tt,
          {| formErrors := e; status := m; statusType := error;
             mintAddress := mintAddress s0; tokenAccount := tokenAccount s0;
             isLaunching := isLaunching s0; currentStep := currentStep s0;
             log := log s0 |}).
Proof.
  intros Hpk He Hne. unfold createToken. rewrite Hpk.
  unfold bind, lift. rewrite He.
  destruct (0 <? FormErrors.keysLength e)%nat eqn:Hk;
    [|apply no_keys in Hk; contradiction].
  rewrite firstError_values.
  destruct (FormErrors.values e) as [|m rest] eqn:Hv.
  { unfold FormErrors.keysLength in Hk. rewrite Hv in Hk. discriminate. }
  assert (Hin : In m validatorMessages).
  { apply (validateForm_messages _ _ _ _ He). rewrite Hv. left. reflexivity. }
  exists m. split; [reflexivity|]. split; [exact Hin|].
  cbn [hd]. rewrite (validatorMessages_truthy _ Hin). reflexivity.
Qed.

End Acceptance.

Lemma createToken_reports_first_error_witness :
  exists m,
    firstError {| FormErrors.name := Some (js "Token name is required");
                  FormErrors.symbol := Some (js "Token symbol is required");
                  FormErrors.decimals := None; FormErrors.supply := None;
                  FormErrors.description := None; FormErrors.image := None |}
    = Some m
    /\ m = js "Token name is required"
    /\ status (snd (@createToken basicLatinEngine Fixtures.calmWorld
                      (Fixtures.connected DEFAULT_FORM None) Fixtures.fresh)) = m.
Proof.
  destruct (@createToken_reports_first_error basicLatinEngine Fixtures.calmWorld
              (Fixtures.connected DEFAULT_FORM None) Fixtures.fresh Fixtures.wallet
              {| FormErrors.name := Some (js "Token name is required");
                 FormErrors.symbol := Some (js "Token symbol is required");
                 FormErrors.decimals := None; FormErrors.supply := None;
                 FormErrors.description := None; FormErrors.image := None |})
    as (m & Hfirst & _ & Hrun).
  - reflexivity.
  - vm_compute. reflexivity.
  - discriminate.
  - exists m. split; [exact Hfirst|]. split.
    + cbn in Hfirst. injection Hfirst as <-. reflexivity.
    + rewrite Hrun. reflexivity.
Defined.

Lemma accepted_amount_exact_witness :
  exists d,
    Number (LaunchForm.decimals (Fixtures.tokenForm "")) = ofZ d /\ (0 <= d <= 9)%Z
    /\ toBigIntAmount (LaunchForm.supply (Fixtures.tokenForm ""))
         (Number (LaunchForm.decimals (Fixtures.tokenForm "")))
       = Normal (decimalValue (trim (LaunchForm.supply (Fixtures.tokenForm ""))) * 10 ^ d)%Z
    /\ (1 <= decimalValue (trim (LaunchForm.supply (Fixtures.tokenForm ""))) * 10 ^ d
        <= UINT64_MAX * 10 ^ 9)%Z.
Proof.
  apply (@accepted_amount_exact basicLatinEngine (Fixtures.tokenForm "") None).
  vm_compute. reflexivity.
Defined.

End AcceptedForms.

(* ===================================================================== *)
(** * The form handlers                                                   *)
(* ===================================================================== *)

Module FormHandlers.
Import JS Spec JSFacts Page PageProofs Expect AcceptedForms Form.

Lemma forallb_filter {A} (f : A -> bool) l : forallb f (filter f l) = true.
Proof.
  induction l as [|a l IH]; [reflexivity|]. cbn.
  destruct (f a) eqn:Ha; [cbn; rewrite Ha; exact IH | exact IH].
Qed.

Lemma filter_all {A} (f : A -> bool) l : forallb f l = true -> filter f l = l.
Proof.
  induction l as [|a l IH]; [reflexivity|]. cbn.
  destruct (f a); [|discriminate]. intros H. rewrite (IH H). reflexivity.
Qed.

(** Removing what is not a digit, read off the code units. *)
Lemma digitsOf_filter typed : filter isDigit typed = digitsOf typed.
Proof.
  induction typed as [|c t IH]; [reflexivity|].
  cbn [filter digitsOf]. unfold isDigit at 1. rewrite IH. reflexivity.
Qed.

Lemma digitsOf_app before c after :
  digitsOf (before ++ c :: after)
  = digitsOf before ++ (if (48 <=? c)%N && (c <=? 57)%N then [c] else [])
    ++ digitsOf after.
Proof.
  induction before as [|b before IH]; cbn [app digitsOf].
  - destruct ((48 <=? c)%N && (c <=? 57)%N); reflexivity.
  - rewrite IH. destruct ((48 <=? b)%N && (b <=? 57)%N); reflexivity.
Qed.

Section Handlers.
Context {E : Engine}.

(** X5.  Whatever is typed or pasted into the supply input, the supply kept
    is the typed text with every code unit that is not one of 0 to 9
    removed: its digits, all of them, in the order typed, and nothing
    else; a text of digits is kept as typed.  No other field changes.  So
    the validator never answers that the supply must be a whole number,
    and the amount is computed without a throw for any number of decimals
    from 0 up. *)
Theorem typed_supply_is_digits (rendered : FormErrors.t) (typed : jsstring)
  (s : Form.State) :
  let form' := Form.form (onSupplyChange rendered typed s) in
  LaunchForm.supply form' = digitsOf typed
  /\ (forall before c after,
        typed = before ++ c :: after ->
        LaunchForm.supply form'
        = digitsOf before ++ (if (48 <=? c)%N && (c <=? 57)%N then [c] else [])
          ++ digitsOf after)
  /\ forallb isDigit (LaunchForm.supply form') = true
  /\ (forallb isDigit typed = true -> LaunchForm.supply form' = typed)
  /\ (forall f, f <> supply -> get f form' = get f (Form.form s))
  /\ (forall img, exists e,
        validateForm form' img = Normal e
        /\ FormErrors.supply e <> Some (js "Supply must be a whole number"))
  /\ (forall d, (0 <= d)%Z ->
        toBigIntAmount (LaunchForm.supply form') (ofZ d)
        = Normal (decimalValue (LaunchForm.supply form') * 10 ^ d)%Z).
Proof.
  cbv zeta. unfold onSupplyChange, updateForm, stripNonDigits.
  cbn [Form.form set LaunchForm.supply].
  pose proof (forallb_filter isDigit typed) as Hd.
  split; [apply digitsOf_filter|].
  split; [intros before c after ->; rewrite digitsOf_filter; apply digitsOf_app|].
  split; [exact Hd|]. split; [apply filter_all|]. split; [|split].
  - intros f Hf. destruct f; first [reflexivity | contradiction].
  - intros img.
    match goal with |- context [validateForm ?f img] =>
      destruct (validateForm_returns f img) as [e He];
      pose proof (validateForm_supply _ _ _ He) as Hs
    end.
    exists e. split; [exact He|]. rewrite Hs. cbn [LaunchForm.supply set].
    rewrite (trim_digits _ Hd). unfold supplyVerdict, testPlus. rewrite Hd.
    destruct (truthy (filter isDigit typed)); cbn [negb andb]; [|discriminate].
    destruct (_ <=? _)%Z; [discriminate|]. destruct (_ <? _)%Z; discriminate.
  - intros d Hpos. destruct (filter isDigit typed) as [|c t] eqn:Hf.
    + reflexivity.
    + rewrite <- (trim_digits _ Hd) at 2.
      apply toBigIntAmount_digits; [|exact Hpos].
      rewrite (trim_digits _ Hd). unfold testPlus. rewrite Hd. reflexivity.
Qed.

(** X6.  Choosing a file keeps it selected whether or not it is accepted and
    does not touch the preview shown (a new one comes only from the
    reader, later).  The file is flagged exactly when
    it is over 5 MB or of another type than the four accepted, which is
    when the validator flags it, and only an unflagged file is handed to the
    reader for a preview.  The handler names the size for every file
    over 5 MB and the type for a file of a wrong type that is not; the
    validator names the type for every file of a wrong type and the size
    for a file over 5 MB of an accepted type.  So the two disagree on
    the message exactly for a file that is both too large and of a wrong
    type: the handler answers that the image must be 5MB or less, the
    validator that it must be JPEG, PNG, GIF, or WebP. *)
Theorem handleImageChange_verdict (f : File) (s : Form.State) (form : LaunchForm.t) :
  let s' := handleImageChange (Some f) s in
  Form.imageFile s' = Some f
  /\ imagePreview s' = imagePreview s
  /\ (FormErrors.image (Form.formErrors s') = None <-> imageAccepted f = true)
  /\ reading s' = (if imageAccepted f then reading s ++ [f] else reading s)
  /\ exists e,
       validateForm form (Some f) = Normal e
       /\ (FormErrors.image e = None <-> FormErrors.image (Form.formErrors s') = None)
       /\ (FormErrors.image e <> FormErrors.image (Form.formErrors s')
           <-> (MAX_IMAGE_SIZE_BYTES < size f)%Z
               /\ includes validTypes (type f) = false)
       /\ ((MAX_IMAGE_SIZE_BYTES < size f)%Z ->
           FormErrors.image (Form.formErrors s') = Some (js "Image must be 5MB or less"))
       /\ ((size f <= MAX_IMAGE_SIZE_BYTES)%Z -> includes validTypes (type f) = false ->
           FormErrors.image (Form.formErrors s')
           = Some (js "Image must be JPEG, PNG, GIF, or WebP"))
       /\ (includes validTypes (type f) = false ->
           FormErrors.image e = Some (js "Image must be JPEG, PNG, GIF, or WebP"))
       /\ ((MAX_IMAGE_SIZE_BYTES < size f)%Z -> includes validTypes (type f) = true ->
           FormErrors.image e = Some (js "Image must be 5MB or less")).
Proof.
  cbv zeta.
  destruct (validateForm_returns form (Some f)) as [e He].
  pose proof (validateForm_image _ _ _ He) as Hi.
  unfold handleImageChange, imageAccepted. fold validTypes.
  change (5 * 1024 * 1024)%Z with MAX_IMAGE_SIZE_BYTES.
  rewrite Z.leb_antisym. revert Hi.
  destruct (MAX_IMAGE_SIZE_BYTES <? size f)%Z eqn:Hsize;
    destruct (includes validTypes (type f)) eqn:Hty;
    cbn [negb andb Form.imageFile imagePreview Form.formErrors reading
         withImageError FormErrors.image]; intros Hi.
  all: rewrite ?Hsize in Hi.
  all: first [apply Z.ltb_lt in Hsize | apply Z.ltb_ge in Hsize].
  all: split; [reflexivity|]; split; [reflexivity|].
  all: split; [split; intros H; first [discriminate H | reflexivity]|].
  all: split; [reflexivity|].
  all: exists e; split; [exact He|]; rewrite Hi.
  all: split; [split; intros H; first [discriminate H | reflexivity]|].
  all: split;
    [ split;
      [ intros H; first [ split; [lia | reflexivity] | exfalso; apply H; reflexivity ]
      | intros [H1 H2]; first [discriminate | lia] ] |].
  all: split; [intros H; first [reflexivity | lia]|].
  all: split; [intros H1 H2; first [reflexivity | lia | discriminate H2]|].
  all: split; [intros H; first [reflexivity | discriminate H]|].
  all: intros H1 H2; first [reflexivity | lia | discriminate H2].
Qed.

End Handlers.

End FormHandlers.

(* ===================================================================== *)
(** * Addresses, links and the network                                    *)
(* ===================================================================== *)

Module ViewProofs.
Import JS Providers Views Expect.

(** X7.  A short address is shown whole; a longer one is cut to fifteen code
    units: its first six, three dots, its last six. *)
Theorem formatAddress_shape (address : jsstring) :
  ((List.length address <= 12)%nat -> formatAddress address = address)
  /\ ((12 < List.length address)%nat ->
      List.length (formatAddress address) = 15%nat
      /\ firstn 6 (formatAddress address) = firstn 6 address
      /\ skipn 9 (formatAddress address) = skipn (List.length address - 6) address
      /\ firstn 3 (skipn 6 (formatAddress address)) = js "...").
Proof.
  unfold formatAddress.
  destruct (Nat.leb_spec (List.length address) 12) as [Hle|Hgt].
  - split; [reflexivity | lia].
  - split; [lia|]. intros _.
    set (p := firstn 6 address). set (q := skipn (List.length address - 6) address).
    assert (H6 : List.length p = 6%nat) by (apply firstn_length_le; lia).
    assert (Hq : List.length q = 6%nat) by (unfold q; rewrite length_skipn; lia).
    split; [|split; [|split]].
    + rewrite !length_app, H6, Hq. reflexivity.
    + rewrite firstn_app, H6, Nat.sub_diag, firstn_0, app_nil_r.
      apply firstn_all2. lia.
    + rewrite skipn_app, H6, (skipn_all2 p) by lia. reflexivity.
    + rewrite skipn_app, H6, (skipn_all2 p), Nat.sub_diag by lia. reflexivity.
Qed.

Lemma eqb_string_eq a b : eqb_string a b = true <-> a = b.
Proof.
  unfold eqb_string. destruct (list_eq_dec N.eq_dec a b); split; congruence.
Qed.

Lemma getNetwork_cases env :
  (exists n, NEXT_PUBLIC_SOLANA_NETWORK env = Some n /\ isCluster n
             /\ getNetwork env = n)
  \/ ((forall n, NEXT_PUBLIC_SOLANA_NETWORK env = Some n -> ~ isCluster n)
      /\ getNetwork env = js "devnet").
Proof.
  unfold getNetwork, isCluster.
  destruct (NEXT_PUBLIC_SOLANA_NETWORK env) as [n|];
    [|right; split; [discriminate | reflexivity]].
  destruct (eqb_string n (js "mainnet-beta")) eqn:H1.
  { apply eqb_string_eq in H1. left. exists n. auto. }
  destruct (eqb_string n (js "testnet")) eqn:H2.
  { apply eqb_string_eq in H2. left. exists n. auto. }
  destruct (eqb_string n (js "devnet")) eqn:H3.
  { apply eqb_string_eq in H3. left. exists n. auto. }
  right. split; [|reflexivity].
  intros n' Hn [H|[H|H]]; injection Hn as <-; apply eqb_string_eq in H; congruence.
Qed.

Lemma startsWith_prefix s p : startsWith s p = true <-> exists rest, s = p ++ rest.
Proof.
  revert s. induction p as [|c p IH]; intros s; destruct s as [|c' s];
    cbn [startsWith app].
  - split; eauto.
  - split; eauto.
  - split; [discriminate | intros [rest H]; discriminate].
  -
    rewrite andb_true_iff, N.eqb_eq, IH. split.
    + intros [-> [rest ->]]. eauto.
    + intros [rest H]. injection H as -> ->. eauto.
Qed.

(** X8.  The RPC endpoint is the custom URL exactly when one is set and
    starts with [http]; otherwise it is the public endpoint of the
    configured cluster, which is always one of mainnet-beta, testnet and
    devnet: the network name configured when it is one of the three, and
    devnet for any other name or none. *)
Theorem getEndpoint_cases (clusterApiUrl : jsstring -> jsstring) (env : Env) :
  isCluster (getNetwork env)
  /\ (forall n, NEXT_PUBLIC_SOLANA_NETWORK env = Some n -> isCluster n ->
        getNetwork env = n)
  /\ ((forall n, NEXT_PUBLIC_SOLANA_NETWORK env = Some n -> ~ isCluster n) ->
      getNetwork env = js "devnet")
  /\ ((exists n, NEXT_PUBLIC_SOLANA_NETWORK env = Some n /\ isCluster n)
      \/ getNetwork env = js "devnet")
  /\ ((exists url rest, NEXT_PUBLIC_SOLANA_RPC_URL env = Some url
                        /\ url = js "http" ++ rest
                        /\ getEndpoint clusterApiUrl env = url)
      \/ ((forall url rest, NEXT_PUBLIC_SOLANA_RPC_URL env = Some url ->
                            url <> js "http" ++ rest)
          /\ getEndpoint clusterApiUrl env = clusterApiUrl (getNetwork env))).
Proof.
  split; [|split; [|split; [|split]]].
  - destruct (getNetwork_cases env) as [(n & _ & Hc & ->) | (_ & ->)];
      [exact Hc | right; right; reflexivity].
  - intros n Hn Hc.
    destruct (getNetwork_cases env) as [(n' & Hn' & _ & ->) | (Hno & _)];
      [congruence | exfalso; apply (Hno _ Hn Hc)].
  - intros Hno.
    destruct (getNetwork_cases env) as [(n & Hn & Hc & _) | (_ & H)];
      [exfalso; apply (Hno _ Hn Hc) | exact H].
  - destruct (getNetwork_cases env) as [(n & Hn & Hc & _) | (_ & H)]; eauto.
  - unfold getEndpoint.
    destruct (NEXT_PUBLIC_SOLANA_RPC_URL env) as [url|];
      [|right; split; [discriminate | reflexivity]].
    destruct (startsWith url (js "http")) eqn:Hs.
    + apply startsWith_prefix in Hs. destruct Hs as [rest ->].
      left. exists (js "http" ++ rest), rest. auto.
    + rewrite andb_false_r. right. split; [|reflexivity].
      intros url' rest H Heq. injection H as <-.
      assert (startsWith url (js "http") = true)
        by (apply startsWith_prefix; eauto).
      congruence.
Qed.

(** X9.  The Solscan link of a created token and the cluster the wallet
    talks to.  With the network variable set to one of the three cluster
    names the link names that cluster (none for mainnet-beta).  With the
    variable unset or empty the link is the mainnet one, while the
    connection goes to devnet. *)
Theorem solscanUrl_cluster (env : Env) (mintAddress : jsstring) :
  mintAddress <> [] ->
  let link := solscanUrl (NEXT_PUBLIC_SOLANA_NETWORK env) mintAddress in
  let mainnetLink := js "https://solscan.io/token/" ++ mintAddress in
  ((exists n, NEXT_PUBLIC_SOLANA_NETWORK env = Some n /\ isCluster n) ->
     link = if eqb_string (getNetwork env) (js "mainnet-beta") then mainnetLink
            else mainnetLink ++ js "?cluster=" ++ getNetwork env)
  /\ (NEXT_PUBLIC_SOLANA_NETWORK env = None \/ NEXT_PUBLIC_SOLANA_NETWORK env = Some [] ->
      link = mainnetLink /\ getNetwork env = js "devnet").
Proof.
  intros Hm. cbv zeta. unfold solscanUrl.
  destruct mintAddress as [|c m]; [contradiction|]. cbn [truthy negb].
  split.
  - intros (n & Hn & Hc). rewrite Hn.
    assert (Hg : getNetwork env = n).
    { destruct (getNetwork_cases env) as [(n' & Hn' & _ & ->) | (Hno & _)];
        [congruence | exfalso; apply (Hno _ Hn Hc)]. }
    rewrite Hg.
    assert (Ht : truthy n = true) by (destruct Hc as [-> | [-> | ->]]; reflexivity).
    rewrite Ht. destruct (eqb_string n (js "mainnet-beta")).
    + rewrite app_nil_r. reflexivity.
    + rewrite <- !app_assoc. reflexivity.
  - intros [Hn|Hn]; rewrite Hn; cbn [truthy].
    + split; [rewrite app_nil_r; reflexivity|]. unfold getNetwork. rewrite Hn. reflexivity.
    + split; [rewrite app_nil_r; reflexivity|]. unfold getNetwork. rewrite Hn. reflexivity.
Qed.

Lemma solscanUrl_cluster_witness :
  let env := {| NEXT_PUBLIC_SOLANA_NETWORK := None; NEXT_PUBLIC_SOLANA_RPC_URL := None |} in
  solscanUrl (NEXT_PUBLIC_SOLANA_NETWORK env) (js "Mint") = js "https://solscan.io/token/Mint"
  /\ getNetwork env = js "devnet"
  /\ solscanUrl (Some (js "testnet")) (js "Mint")
     = js "https://solscan.io/token/Mint?cluster=testnet".
Proof.
  intros env.
  destruct (solscanUrl_cluster env (js "Mint")) as [_ H]; [discriminate|].
  destruct (H (or_introl eq_refl)) as [H1 H2].
  split; [exact H1|]. split; [exact H2|].
  destruct (solscanUrl_cluster
              {| NEXT_PUBLIC_SOLANA_NETWORK := Some (js "testnet");
                 NEXT_PUBLIC_SOLANA_RPC_URL := None |} (js "Mint")) as [H' _];
    [discriminate|].
  apply H'. exists (js "testnet"). split; [reflexivity|]. right. left. reflexivity.
Defined.

End ViewProofs.

(* ===================================================================== *)
(** * The token-creation sequence: what is sent and what is shown         *)
(* ===================================================================== *)

Module LaunchProofs.
Import JS Spec JSFacts Page PageProofs Expect AcceptedForms.

Section Launch.
Context {E : Engine}.
Variable w : World.
Variable props : Props.

(** [start] around [launch]: what it adds to the outcome. *)
Lemma start_run pk s0 :
  exists s,
    log s = log s0 /\ mintAddress s = mintAddress s0 /\ tokenAccount s = tokenAccount s0
    /\ fst (start w props pk s0) = Normal tt
    /\ log (snd (start w props pk s0)) = log (snd (launch w props pk s))
    /\ mintAddress (snd (start w props pk s0)) = mintAddress (snd (launch w props pk s))
    /\ tokenAccount (snd (start w props pk s0))
       = tokenAccount (snd (launch w props pk s))
    /\ isLaunching (snd (start w props pk s0)) = false
    /\ match fst (launch w props pk s) with
       | Normal _ =>
         statusType (snd (start w props pk s0)) = statusType (snd (launch w props pk s))
         /\ currentStep (snd (start w props pk s0))
            = currentStep (snd (launch w props pk s))
       | Throw t =>
         statusType (snd (start w props pk s0)) = error
         /\ currentStep (snd (start w props pk s0)) = 0%Z
       end.
Proof.
  exists {| formErrors := formErrors s0;
            status := js "Step 1/4: Creating mint account...";
            statusType := info; mintAddress := mintAddress s0;
            tokenAccount := tokenAccount s0; isLaunching := true;
            currentStep := 1; log := log s0 |}.
  split; [reflexivity|]. split; [reflexivity|]. split; [reflexivity|].
  unfold start, bind, tryFinally, tryCatch. cbn -[launch js].
  match goal with
  | |- context [launch w props pk ?s] =>
    destruct (launch w props pk s) as [[[]|t] s']; cbn -[js]; auto 10
  end.
Qed.

(** A run of [createToken] either stops at a check, having touched
    neither the log nor the addresses, or is a run of [launch]. *)
Lemma createToken_run s0 :
  (fst (createToken w props s0) = Normal tt
   /\ statusType (snd (createToken w props s0)) = error
   /\ log (snd (createToken w props s0)) = log s0
   /\ mintAddress (snd (createToken w props s0)) = mintAddress s0
   /\ tokenAccount (snd (createToken w props s0)) = tokenAccount s0)
  \/ exists pk s,
       walletPublicKey props = Some pk
       /\ validateForm (form props) (imageFile props) = Normal FormErrors.empty
       /\ log s = log s0 /\ mintAddress s = mintAddress s0
       /\ tokenAccount s = tokenAccount s0
       /\ fst (createToken w props s0) = Normal tt
       /\ log (snd (createToken w props s0)) = log (snd (launch w props pk s))
       /\ mintAddress (snd (createToken w props s0))
          = mintAddress (snd (launch w props pk s))
       /\ tokenAccount (snd (createToken w props s0))
          = tokenAccount (snd (launch w props pk s))
       /\ isLaunching (snd (createToken w props s0)) = false
       /\ match fst (launch w props pk s) with
          | Normal _ =>
            statusType (snd (createToken w props s0))
            = statusType (snd (launch w props pk s))
            /\ currentStep (snd (createToken w props s0))
               = currentStep (snd (launch w props pk s))
          | Throw t =>
            statusType (snd (createToken w props s0)) = error
            /\ currentStep (snd (createToken w props s0)) = 0%Z
          end.
Proof.
  unfold createToken.
  destruct (walletPublicKey props) as [pk|] eqn:Hpk.
  2:{ left. cbn. auto. }
  destruct (validateForm_returns (form props) (imageFile props)) as [e He].
  unfold bind, lift. rewrite He.
  destruct (0 <? FormErrors.keysLength e)%nat eqn:Hk.
  { left. cbn. auto. }
  apply no_keys in Hk. subst e.
  assert (Hstart : exists pk0 s,
    Some pk = Some pk0
    /\ Normal FormErrors.empty = Normal FormErrors.empty
    /\ log s = log s0 /\ mintAddress s = mintAddress s0
    /\ tokenAccount s = tokenAccount s0
    /\ fst (start w props pk s0) = Normal tt
    /\ log (snd (start w props pk s0)) = log (snd (launch w props pk0 s))
    /\ mintAddress (snd (start w props pk s0))
       = mintAddress (snd (launch w props pk0 s))
    /\ tokenAccount (snd (start w props pk s0))
       = tokenAccount (snd (launch w props pk0 s))
    /\ isLaunching (snd (start w props pk s0)) = false
    /\ match fst (launch w props pk0 s) with
       | Normal _ =>
         statusType (snd (start w props pk s0))
         = statusType (snd (launch w props pk0 s))
         /\ currentStep (snd (start w props pk s0))
            = currentStep (snd (launch w props pk0 s))
       | Throw t =>
         statusType (snd (start w props pk s0)) = error
         /\ currentStep (snd (start w props pk s0)) = 0%Z
       end).
  { destruct (start_run pk s0) as (s & H). exists pk, s. tauto. }
  destruct (walletBalance props) as [balance|]; [|right; exact Hstart].
  destruct (lt (Finite balance) TOTAL_ESTIMATED_COST); [|right; exact Hstart].
  left. cbn. auto.
Qed.

(** A run that stopped at a check made no call. *)
Lemma nothing_new (s0 : State) (l new : list event) :
  l = log s0 -> l = log s0 ++ new -> new = [].
Proof.
  intros -> H. rewrite <- (app_nil_r (log s0)) in H at 1.
  apply app_inv_head in H. auto.
Qed.

(** Follows [launch] along every path, leaving the log as a list. *)
Ltac run_launch :=
  unfold launch; cbv zeta;
  unfold setCurrentStep, setStatusMessage, setMintAddress, setTokenAccount;
  match goal with
  | H : toBigIntAmount _ _ = Normal _ |- _ => rewrite H
  end;
  destruct (truthy (trim (LaunchForm.metadataUrl (form props)))) eqn:?Hurl;
  repeat step;
  unfold perform;
  cbn [fst snd log logged thrownBy statusType currentStep mintAddress tokenAccount];
  repeat rewrite <- app_assoc; cbn [app].

(** Brings the answers met along a path to the shape [log s ++ calls]. *)
Ltac tidy_answers :=
  repeat match goal with
         | H : context [logged _ _] |- _ => cbn [log logged] in H
         end;
  repeat match goal with
         | H : context [(_ ++ _) ++ _] |- _ => rewrite <- app_assoc in H
         end;
  cbn [app] in *.

Lemma launch_result pk s :
  validateForm (form props) (imageFile props) = Normal FormErrors.empty ->
  match fst (launch w props pk s) with
  | Normal _ =>
    exists kp ata h,
      mintAddress (snd (launch w props pk s)) = toBase58 (publicKey kp)
      /\ tokenAccount (snd (launch w props pk s)) = toBase58 ata
      /\ answerKeypair w (log s) = Normal kp
      /\ answerAssociated w h (publicKey kp) pk = Normal ata
      /\ statusType (snd (launch w props pk s)) = success
      /\ currentStep (snd (launch w props pk s)) = 5%Z
  | Throw _ =>
    mintAddress (snd (launch w props pk s)) = mintAddress s
    /\ tokenAccount (snd (launch w props pk s)) = tokenAccount s
  end.
Proof.
  intros Hv. destruct (accepted_amount _ _ Hv) as [amount Ha].
  unfold launch. cbv zeta.
  unfold setCurrentStep, setStatusMessage, setMintAddress, setTokenAccount.
  rewrite Ha.
  destruct (truthy (trim (LaunchForm.metadataUrl (form props)))).
  - repeat step.
    all: unfold perform;
      cbn [fst snd log logged thrownBy statusType currentStep mintAddress tokenAccount].
    all: try (split; reflexivity).
    do 3 eexists. split; [reflexivity|]. split; [reflexivity|].
    split; [reflexivity|]. split; [eassumption|]. split; reflexivity.
  - repeat step.
    all: unfold perform;
      cbn [fst snd log logged thrownBy statusType currentStep mintAddress tokenAccount].
    all: try (split; reflexivity).
    do 3 eexists. split; [reflexivity|]. split; [reflexivity|].
    split; [reflexivity|]. split; [eassumption|]. split; reflexivity.
Qed.


(** X10.  [createToken] never throws and ends with a success or an error
    status.  It ends in success only at step 5 with the launching flag
    down, and then the mint address shown is the key generated for this
    launch and the token account shown is the associated account derived
    for that mint and the connected wallet.  On every error, also one
    that comes after the mint transaction was confirmed, the addresses
    shown are left as they were. *)
Theorem createToken_outcome (s0 : State) :
  let s' := snd (createToken w props s0) in
  fst (createToken w props s0) = Normal tt
  /\ (statusType s' = success \/ statusType s' = error)
  /\ (statusType s' = success ->
      currentStep s' = 5%Z /\ isLaunching s' = false
      /\ exists pk kp ata h,
           walletPublicKey props = Some pk
           /\ answerKeypair w (log s0) = Normal kp
           /\ answerAssociated w h (publicKey kp) pk = Normal ata
           /\ mintAddress s' = toBase58 (publicKey kp)
           /\ tokenAccount s' = toBase58 ata)
  /\ (statusType s' = error ->
      mintAddress s' = mintAddress s0 /\ tokenAccount s' = tokenAccount s0).
Proof.
  cbv zeta.
  destruct (createToken_run s0)
    as [(Hr & Hty & _ & Hm & Ht)
       | (pk & s & Hpk & Hv & Hs & Hm0 & Ht0 & Hr & _ & Hm & Ht & Hflag & Hres)].
  - split; [exact Hr|]. split; [auto|]. rewrite Hty.
    split; [discriminate | auto].
  - split; [exact Hr|].
    pose proof (launch_result pk s Hv) as Hl.
    destruct (fst (launch w props pk s)) as [[]|t].
    + destruct Hl as (kp & ata & h & Hmint & Hata & Hkp & Hassoc & Hty & Hstep).
      destruct Hres as [Hty' Hstep']. rewrite Hty', Hty, Hstep', Hstep.
      split; [auto|]. split; [|discriminate].
      intros _. split; [reflexivity|]. split; [exact Hflag|].
      exists pk, kp, ata, h. rewrite Hm, Ht, <- Hs. auto.
    + destruct Hl as [Hmint Hata]. destruct Hres as [Hty' _]. rewrite Hty'.
      split; [auto|]. split; [discriminate|].
      intros _. rewrite Hm, Ht. split; congruence.
Qed.

(** ** What is sent *)

Lemma launch_sends pk s new tx signers r :
  validateForm (form props) (imageFile props) = Normal FormErrors.empty ->
  log (snd (launch w props pk s)) = log s ++ new ->
  In (Called (sendTransaction tx signers) r) new ->
  exists kp,
    answerKeypair w (log s) = Normal kp
    /\ Forall (concerns (publicKey kp) pk) (instructions tx)
    /\ (signers = [kp] \/ signers = [])
    /\ (feePayer tx = Some pk \/ feePayer tx = None).
Proof.
  intros Hv. destruct (accepted_amount _ _ Hv) as [amount Ha].
  run_launch.
  all: intros Hlog; apply app_inv_head in Hlog; subst new.
  all: cbn [In]; intros Hin.
  all: repeat (destruct Hin as [Hin|Hin];
               [first [discriminate Hin | injection Hin as <- <- <-]|]);
    try contradiction.
  all: eexists; split; [reflexivity|].
  all: split; [repeat constructor|]; cbn [feePayer newTransaction]; auto.
Qed.

(** X11.  Every transaction [createToken] hands to the wallet is made of
    instructions on the mint generated for this launch, with the
    connected wallet as the only payer, owner and authority; metadata is
    created immutable and an authority is only ever given up.  The only
    extra signer ever passed is the key pair of the mint, and the fee
    payer, when set, is the connected wallet. *)
Theorem sent_transactions_concern_wallet (s0 : State) (new : list event)
  (tx : Transaction) (signers : list Keypair) (r : option thrown) :
  log (snd (createToken w props s0)) = log s0 ++ new ->
  In (Called (sendTransaction tx signers) r) new ->
  exists pk kp,
    walletPublicKey props = Some pk
    /\ answerKeypair w (log s0) = Normal kp
    /\ Forall (concerns (publicKey kp) pk) (instructions tx)
    /\ (signers = [kp] \/ signers = [])
    /\ (feePayer tx = Some pk \/ feePayer tx = None).
Proof.
  intros Hlog Hin.
  destruct (createToken_run s0)
    as [(_ & _ & Hsame & _)
       | (pk & s & Hpk & Hv & Hs & _ & _ & _ & Hl & _)].
  - rewrite (nothing_new s0 _ new Hsame Hlog) in Hin. destruct Hin.
  - rewrite Hl, <- Hs in Hlog.
    destruct (launch_sends pk s new tx signers r Hv Hlog Hin) as (kp & Hkp & H).
    exists pk, kp. rewrite <- Hs. auto.
Qed.

Lemma launch_mints pk s new tx signers r m dest auth amount :
  validateForm (form props) (imageFile props) = Normal FormErrors.empty ->
  log (snd (launch w props pk s)) = log s ++ new ->
  In (Called (sendTransaction tx signers) r) new ->
  In (createMintToInstruction m dest auth amount) (instructions tx) ->
  exists d lamports,
    Number (LaunchForm.decimals (form props)) = ofZ d /\ (0 <= d <= 9)%Z
    /\ amount = (decimalValue (trim (LaunchForm.supply (form props))) * 10 ^ d)%Z
    /\ auth = pk
    /\ instructions tx
       = [ createAccount auth m (MINT_SIZE w) lamports (TOKEN_PROGRAM_ID w);
           createInitializeMintInstruction m (ofZ d) auth auth;
           createAssociatedTokenAccountInstruction auth dest auth m;
           createMintToInstruction m dest auth amount ].
Proof.
  intros Hv. destruct (accepted_amount_value _ _ Hv) as (d & Hn & Hd & Ha & _).
  run_launch.
  all: intros Hlog; apply app_inv_head in Hlog; subst new.
  all: cbn [In]; intros Hin.
  all: repeat (destruct Hin as [Hin|Hin];
               [first [discriminate Hin | injection Hin as <- <- <-]|]);
    try contradiction.
  all: cbn [instructions newTransaction In]; intros Hi.
  all: repeat (destruct Hi as [Hi|Hi];
               [first [discriminate Hi | injection Hi as <- <- <- <-]|]);
    try contradiction.
  all: exists d; eexists; rewrite Hn; auto 10.
Qed.

(** X12.  The transaction that mints is always built by the same four
    builder calls, in this order: the mint account is created and
    initialised with the entered decimals and the connected wallet as
    both authorities, the wallet's associated token account is created,
    and [createMintToInstruction] is called for that account with, as
    its amount argument, exactly the entered supply times ten to the
    decimals.  That argument is an integer from 1 to (2^64-1) * 10^9.
    It is within the unsigned 64 bits the instruction has for its amount
    when the decimals are 0.  This is about the argument passed; what
    the builder makes of it is the SDK's. *)
Theorem mint_transaction_shape (s0 : State) (new : list event)
  (tx : Transaction) (signers : list Keypair) (r : option thrown)
  (m dest auth : PublicKey) (amount : Z) :
  log (snd (createToken w props s0)) = log s0 ++ new ->
  In (Called (sendTransaction tx signers) r) new ->
  In (createMintToInstruction m dest auth amount) (instructions tx) ->
  exists d lamports,
    Number (LaunchForm.decimals (form props)) = ofZ d /\ (0 <= d <= 9)%Z
    /\ amount = (decimalValue (trim (LaunchForm.supply (form props))) * 10 ^ d)%Z
    /\ (1 <= amount <= 18446744073709551615 * 10 ^ 9)%Z
    /\ (d = 0%Z -> (amount <= 18446744073709551615)%Z)
    /\ walletPublicKey props = Some auth
    /\ instructions tx
       = [ createAccount auth m (MINT_SIZE w) lamports (TOKEN_PROGRAM_ID w);
           createInitializeMintInstruction m (ofZ d) auth auth;
           createAssociatedTokenAccountInstruction auth dest auth m;
           createMintToInstruction m dest auth amount ].
Proof.
  intros Hlog Hin Hi.
  destruct (createToken_run s0)
    as [(_ & _ & Hsame & _)
       | (pk & s & Hpk & Hv & Hs & _ & _ & _ & Hl & _)].
  - rewrite (nothing_new s0 _ new Hsame Hlog) in Hin. destruct Hin.
  - rewrite Hl, <- Hs in Hlog.
    destruct (launch_mints pk s new tx signers r m dest auth amount Hv Hlog Hin Hi)
      as (d & lamports & Hn & Hd & Ha & -> & Htx).
    pose proof (validateForm_supply _ _ _ Hv) as Hsupply.
    cbn [FormErrors.supply FormErrors.empty] in Hsupply. symmetry in Hsupply.
    apply supply_verdict in Hsupply. destruct Hsupply as [_ Hrange].
    unfold UINT64_MAX in Hrange.
    assert (Hpow : (1 <= 10 ^ d <= 10 ^ 9)%Z).
    { split; [|apply Z.pow_le_mono_r; lia].
      assert (0 < 10 ^ d)%Z by (apply Z.pow_pos_nonneg; lia). lia. }
    exists d, lamports.
    split; [exact Hn|]. split; [exact Hd|]. split; [exact Ha|].
    split; [rewrite Ha; nia|].
    split; [intros ->; rewrite Ha, Z.pow_0_r; lia|].
    split; [exact Hpk | exact Htx].
Qed.

(** ** Signatures and confirmations *)

Lemma launch_confirms pk s new :
  validateForm (form props) (imageFile props) = Normal FormErrors.empty ->
  log (snd (launch w props pk s)) = log s ++ new ->
  (forall i tx signers,
      nth_error new i = Some (Called (sendTransaction tx signers) None) ->
      exists signature c r,
        answerSend w (log s ++ firstn i new) tx signers = Normal signature
        /\ nth_error new (S i) = Some (Called (confirmTransaction c) r)
        /\ signatureOf c = signature)
  /\ (forall i c r,
        nth_error new i = Some (Called (confirmTransaction c) r) ->
        exists j tx signers,
          i = S j
          /\ nth_error new j = Some (Called (sendTransaction tx signers) None)
          /\ answerSend w (log s ++ firstn j new) tx signers = Normal (signatureOf c)).
Proof.
  intros Hv. destruct (accepted_amount _ _ Hv) as [amount Ha].
  run_launch.
  all: tidy_answers.
  all: intros Hlog; apply app_inv_head in Hlog; subst new.
  all: split; intros i; intros.
  all: repeat match goal with
              | H : nth_error _ ?i = Some _ |- _ =>
                destruct i as [|i]; cbn [nth_error] in H; try discriminate H
              end.
  all: match goal with
       | H : Some _ = Some _ |- _ => injection H as <- <-
       end.
  all: cbn [firstn app nth_error signatureOf].
  all: do 3 eexists; split; [first [eassumption | reflexivity]|];
    split; first [eassumption | reflexivity].
Qed.

(** X13.  The page never moves on from a transaction it has not asked the
    node to confirm.  Whenever the wallet has sent a transaction, the
    very next call is a confirmation of exactly the signature the wallet
    returned; and no confirmation is ever asked for anything but the
    signature of the transaction sent just before. *)
Theorem send_then_confirm (s0 : State) (new : list event) :
  log (snd (createToken w props s0)) = log s0 ++ new ->
  (forall i tx signers,
      nth_error new i = Some (Called (sendTransaction tx signers) None) ->
      exists signature c r,
        answerSend w (log s0 ++ firstn i new) tx signers = Normal signature
        /\ nth_error new (S i) = Some (Called (confirmTransaction c) r)
        /\ signatureOf c = signature)
  /\ (forall i c r,
        nth_error new i = Some (Called (confirmTransaction c) r) ->
        exists j tx signers,
          i = S j
          /\ nth_error new j = Some (Called (sendTransaction tx signers) None)
          /\ answerSend w (log s0 ++ firstn j new) tx signers
             = Normal (signatureOf c)).
Proof.
  intros Hlog.
  destruct (createToken_run s0)
    as [(_ & _ & Hsame & _)
       | (pk & s & Hpk & Hv & Hs & _ & _ & _ & Hl & _)].
  - rewrite (nothing_new s0 _ new Hsame Hlog).
    split; intros i; intros; destruct i; discriminate.
  - rewrite Hl, <- Hs in Hlog. rewrite <- Hs.
    apply (launch_confirms pk s new Hv Hlog).
Qed.

Lemma launch_prompts pk s new :
  validateForm (form props) (imageFile props) = Normal FormErrors.empty ->
  log (snd (launch w props pk s)) = log s ++ new ->
  let prompts := List.length (filter isSend new) in
  let planned := if truthy (trim (LaunchForm.metadataUrl (form props)))
                 then 3%nat else 2%nat in
  (prompts <= planned)%nat
  /\ match fst (launch w props pk s) with
     | Normal _ => prompts = planned
     | Throw _ => True
     end.
Proof.
  intros Hv. destruct (accepted_amount _ _ Hv) as [amount Ha].
  run_launch.
  all: intros Hlog; apply app_inv_head in Hlog; subst new.
  all: cbn; split; first [lia | reflexivity | exact I].
Qed.

(** X14.  The wallet is asked to sign at most three times in a launch, and at
    most twice when no metadata URI is set; a launch that succeeds has
    asked exactly that many times. *)
Theorem wallet_prompts (s0 : State) (new : list event) :
  log (snd (createToken w props s0)) = log s0 ++ new ->
  let prompts := List.length (filter isSend new) in
  let planned := if truthy (trim (LaunchForm.metadataUrl (form props)))
                 then 3%nat else 2%nat in
  (prompts <= planned)%nat
  /\ (statusType (snd (createToken w props s0)) = success -> prompts = planned).
Proof.
  intros Hlog. cbv zeta.
  destruct (createToken_run s0)
    as [(_ & Hty & Hsame & _)
       | (pk & s & Hpk & Hv & Hs & _ & _ & _ & Hl & _ & _ & _ & Hres)].
  - rewrite (nothing_new s0 _ new Hsame Hlog), Hty. cbn.
    split; [destruct (truthy _); lia | discriminate].
  - rewrite Hl, <- Hs in Hlog.
    destruct (launch_prompts pk s new Hv Hlog) as [Hle Heq].
    split; [exact Hle|].
    destruct (fst (launch w props pk s)) as [[]|t].
    + intros _. exact Heq.
    + destruct Hres as [-> _]. discriminate.
Qed.

(** ** The metadata account *)

Lemma length_trimStart s : (List.length (trimStart s) <= List.length s)%nat.
Proof.
  induction s as [|c s IH]; [reflexivity|]. cbn [trimStart].
  destruct (isWhiteSpace c); cbn [List.length]; lia.
Qed.

Lemma length_trim s : (List.length (trim s) <= List.length s)%nat.
Proof.
  unfold trim, trimEnd. rewrite length_rev.
  etransitivity; [apply length_trimStart|]. rewrite length_rev.
  apply length_trimStart.
Qed.

Lemma launch_metadata pk s new tx signers r accounts args :
  validateForm (form props) (imageFile props) = Normal FormErrors.empty ->
  log (snd (launch w props pk s)) = log s ++ new ->
  In (Called (sendTransaction tx signers) r) new ->
  In (createCreateMetadataAccountV3Instruction accounts args) (instructions tx) ->
  instructions tx = [createCreateMetadataAccountV3Instruction accounts args]
  /\ signers = []
  /\ dataName args = trim (LaunchForm.name (form props))
  /\ dataSymbol args = toUpperCase (trim (LaunchForm.symbol (form props)))
  /\ uri args = trim (LaunchForm.metadataUrl (form props))
  /\ uri args <> []
  /\ isMutable args = false
  /\ exists kp h,
       answerKeypair w (log s) = Normal kp
       /\ Page.mint accounts = publicKey kp
       /\ answerProgramAddress w h
            [ BufferFrom (js "metadata"); toBuffer (TOKEN_METADATA_PROGRAM_ID w);
              toBuffer (publicKey kp) ]
            (TOKEN_METADATA_PROGRAM_ID w)
          = Normal (metadata accounts).
Proof.
  intros Hv. destruct (accepted_amount _ _ Hv) as [amount Ha].
  run_launch.
  all: intros Hlog; apply app_inv_head in Hlog; subst new.
  all: cbn [In]; intros Hin.
  all: repeat (destruct Hin as [Hin|Hin];
               [first [discriminate Hin | injection Hin as <- <- <-]|]);
    try contradiction.
  all: cbn [instructions newTransaction In]; intros Hi.
  all: repeat (destruct Hi as [Hi|Hi];
               [first [discriminate Hi | injection Hi as <- <-]|]);
    try contradiction.
  all: cbn [dataName dataSymbol uri isMutable Page.mint metadata].
  all: repeat (split; [reflexivity|]).
  all: split; [intros Hnil; rewrite Hnil in Hurl; discriminate Hurl|].
  all: split; [reflexivity|].
  all: do 2 eexists; split; [reflexivity|]; split; [reflexivity | eassumption].
Qed.

(** X15.  The metadata account, when one is created, is created by a
    transaction of that single instruction with no extra signer.  It is
    immutable, belongs to the mint of this launch at the address derived
    from the seeds ["metadata"], metadata program, mint, and carries the
    trimmed name (at most 32 code units), the trimmed symbol upper-cased
    and the trimmed, non-empty URI of the form. *)
Theorem metadata_transaction_shape (s0 : State) (new : list event)
  (tx : Transaction) (signers : list Keypair) (r : option thrown)
  (accounts : MetadataAccounts) (args : MetadataArgs) :
  log (snd (createToken w props s0)) = log s0 ++ new ->
  In (Called (sendTransaction tx signers) r) new ->
  In (createCreateMetadataAccountV3Instruction accounts args) (instructions tx) ->
  instructions tx = [createCreateMetadataAccountV3Instruction accounts args]
  /\ signers = []
  /\ dataName args = trim (LaunchForm.name (form props))
  /\ (List.length (dataName args) <= 32)%nat
  /\ dataSymbol args = toUpperCase (trim (LaunchForm.symbol (form props)))
  /\ uri args = trim (LaunchForm.metadataUrl (form props))
  /\ uri args <> []
  /\ isMutable args = false
  /\ exists kp h,
       answerKeypair w (log s0) = Normal kp
       /\ Page.mint accounts = publicKey kp
       /\ answerProgramAddress w h
            [ BufferFrom (js "metadata"); toBuffer (TOKEN_METADATA_PROGRAM_ID w);
              toBuffer (publicKey kp) ]
            (TOKEN_METADATA_PROGRAM_ID w)
          = Normal (metadata accounts).
Proof.
  intros Hlog Hin Hi.
  destruct (createToken_run s0)
    as [(_ & _ & Hsame & _)
       | (pk & s & Hpk & Hv & Hs & _ & _ & _ & Hl & _)].
  - rewrite (nothing_new s0 _ new Hsame Hlog) in Hin. destruct Hin.
  - rewrite Hl, <- Hs in Hlog.
    destruct (launch_metadata pk s new tx signers r accounts args Hv Hlog Hin Hi)
      as (H1 & H2 & H3 & H4 & H5 & H6 & H7 & H8).
    rewrite <- Hs.
    repeat (split; [assumption|]).
    split; [|auto 10].
    rewrite H3.
    pose proof (validateForm_name _ _ _ Hv) as Hn.
    cbn [FormErrors.name FormErrors.empty] in Hn. symmetry in Hn.
    apply name_verdict in Hn. destruct Hn as (_ & Hn & _).
    pose proof (length_trim (LaunchForm.name (form props))). lia.
Qed.

End Launch.

Ltac member := cbn [In]; repeat first [left; reflexivity | right].

Lemma sample_run_log :
  log (snd (@createToken basicLatinEngine Fixtures.calmWorld Sample.props Fixtures.fresh))
  = [ Called Keypair_generate None;
      Called (getMinimumBalanceForRentExemption 82) None;
      Called (getAssociatedTokenAddress (Fixtures.key "Mint") Fixtures.wallet) None;
      Called getLatestBlockhash None;
      Called (sendTransaction Sample.createMintTx [Sample.mintKeypair]) None;
      Called (confirmTransaction (Strategy (js "sig") (js "hash") 1000)) None;
      Called (findProgramAddressSync
                [ BufferFrom (js "metadata"); toBuffer (Fixtures.key "MetadataProgram");
                  toBuffer (Fixtures.key "Mint") ]
                (Fixtures.key "MetadataProgram")) None;
      Called (sendTransaction Sample.metadataTx []) None;
      Called (confirmTransaction (BySignature (js "sig"))) None;
      Called (sendTransaction Sample.revokeTx []) None;
      Called (confirmTransaction (BySignature (js "sig"))) None;
      Called refreshBalance None ].
Proof. vm_compute. reflexivity. Qed.

Lemma sent_transactions_concern_wallet_witness :
  let run := @createToken basicLatinEngine Fixtures.calmWorld Sample.props
               Fixtures.fresh in
  In (Called (sendTransaction Sample.revokeTx []) None) (log (snd run))
  /\ exists pk kp,
       walletPublicKey Sample.props = Some pk
       /\ answerKeypair Fixtures.calmWorld (log Fixtures.fresh) = Normal kp
       /\ Forall (concerns (publicKey kp) pk) (instructions Sample.revokeTx)
       /\ ([] = [kp] \/ @nil Keypair = [])
       /\ (feePayer Sample.revokeTx = Some pk \/ feePayer Sample.revokeTx = None).
Proof.
  intros run.
  assert (Hin : In (Called (sendTransaction Sample.revokeTx []) None) (log (snd run)))
    by (unfold run; rewrite sample_run_log; member).
  split; [exact Hin|].
  apply (@sent_transactions_concern_wallet basicLatinEngine Fixtures.calmWorld
           Sample.props Fixtures.fresh (log (snd run)) Sample.revokeTx [] None);
    [reflexivity | exact Hin].
Defined.

Lemma mint_transaction_shape_witness :
  let run := @createToken basicLatinEngine Fixtures.calmWorld Sample.props
               Fixtures.fresh in
  In (Called (sendTransaction Sample.createMintTx [Sample.mintKeypair]) None)
    (log (snd run))
  /\ exists d lamports,
       Number (LaunchForm.decimals (form Sample.props)) = ofZ d /\ (0 <= d <= 9)%Z
       /\ 1000000000000000000%Z
          = (decimalValue (trim (LaunchForm.supply (form Sample.props))) * 10 ^ d)%Z
       /\ (1 <= 1000000000000000000 <= 18446744073709551615 * 10 ^ 9)%Z
       /\ (d = 0%Z -> (1000000000000000000 <= 18446744073709551615)%Z)
       /\ walletPublicKey Sample.props = Some Fixtures.wallet
       /\ instructions Sample.createMintTx
          = [ createAccount Fixtures.wallet (Fixtures.key "Mint")
                (MINT_SIZE Fixtures.calmWorld) lamports
                (TOKEN_PROGRAM_ID Fixtures.calmWorld);
              createInitializeMintInstruction (Fixtures.key "Mint") (ofZ d)
                Fixtures.wallet Fixtures.wallet;
              createAssociatedTokenAccountInstruction Fixtures.wallet
                (Fixtures.key "Ata") Fixtures.wallet (Fixtures.key "Mint");
              createMintToInstruction (Fixtures.key "Mint") (Fixtures.key "Ata")
                Fixtures.wallet 1000000000000000000 ].
Proof.
  intros run.
  assert (Hin : In (Called (sendTransaction Sample.createMintTx [Sample.mintKeypair])
                      None) (log (snd run)))
    by (unfold run; rewrite sample_run_log; member).
  split; [exact Hin|].
  apply (@mint_transaction_shape basicLatinEngine Fixtures.calmWorld Sample.props
           Fixtures.fresh (log (snd run)) Sample.createMintTx [Sample.mintKeypair] None
           (Fixtures.key "Mint") (Fixtures.key "Ata") Fixtures.wallet
           1000000000000000000%Z);
    [reflexivity | exact Hin | cbn; auto].
Defined.

Lemma send_then_confirm_witness :
  let run := @createToken basicLatinEngine Fixtures.calmWorld Sample.props
               Fixtures.fresh in
  nth_error (log (snd run)) 9 = Some (Called (sendTransaction Sample.revokeTx []) None)
  /\ exists signature c r,
       answerSend Fixtures.calmWorld
         (log Fixtures.fresh ++ firstn 9 (log (snd run))) Sample.revokeTx []
       = Normal signature
       /\ nth_error (log (snd run)) 10 = Some (Called (confirmTransaction c) r)
       /\ signatureOf c = signature.
Proof.
  intros run.
  assert (H9 : nth_error (log (snd run)) 9
               = Some (Called (sendTransaction Sample.revokeTx []) None))
    by (unfold run; rewrite sample_run_log; reflexivity).
  split; [exact H9|].
  apply (proj1 (@send_then_confirm basicLatinEngine Fixtures.calmWorld Sample.props
                  Fixtures.fresh (log (snd run)) eq_refl) 9%nat Sample.revokeTx [] H9).
Defined.

Lemma wallet_prompts_witness :
  let run := @createToken basicLatinEngine Fixtures.calmWorld Sample.props
               Fixtures.fresh in
  (List.length (filter isSend (log (snd run))) <= 3)%nat
  /\ (statusType (snd run) = success ->
      List.length (filter isSend (log (snd run))) = 3%nat).
Proof.
  intros run.
  apply (@wallet_prompts basicLatinEngine Fixtures.calmWorld Sample.props
           Fixtures.fresh (log (snd run)) eq_refl).
Defined.

Lemma metadata_transaction_shape_witness :
  let run := @createToken basicLatinEngine Fixtures.calmWorld Sample.props
               Fixtures.fresh in
  In (Called (sendTransaction Sample.metadataTx []) None) (log (snd run))
  /\ dataName Sample.metadataArgs = trim (LaunchForm.name (form Sample.props))
  /\ uri Sample.metadataArgs <> []
  /\ isMutable Sample.metadataArgs = false.
Proof.
  intros run.
  assert (Hin : In (Called (sendTransaction Sample.metadataTx []) None) (log (snd run)))
    by (unfold run; rewrite sample_run_log; member).
  split; [exact Hin|].
  destruct (@metadata_transaction_shape basicLatinEngine Fixtures.calmWorld
              Sample.props Fixtures.fresh (log (snd run)) Sample.metadataTx [] None
              Sample.metadataAccounts Sample.metadataArgs eq_refl Hin)
    as (_ & _ & Hname & _ & _ & _ & Huri & Hfixed & _).
  - left. reflexivity.
  - auto.
Defined.

End LaunchProofs.

(* ===================================================================== *)
(** * Publishing the metadata                                             *)
(* ===================================================================== *)

Module PublisherProofs.
Import JS Spec JSFacts Page PageProofs Expect AcceptedForms LaunchProofs Publisher.

Section Uploading.
Context {E : Engine}.
Variable w : Publisher.World.
Variable props : Publisher.Props.

(** One upload, once the checks have passed: the request is made, the
    uploading flag is down again, and the form changes on success only. *)
Lemma upload_cases f s :
  let fd := formDataOf props f in
  let r := answerUpload w (Publisher.log s) (js "/api/upload") fd in
  exists message type form',
    upload w props f s
    = (Normal tt,
       {| currentForm := form'; Publisher.formErrors := Publisher.formErrors s;
          Publisher.status := message; Publisher.statusType := type;
          isUploading := false;
          Publisher.log := Publisher.log s
                           ++ [Requested (js "/api/upload") fd (thrownBy r)] |})
    /\ ((type = success
         /\ exists resp d,
              r = Normal resp /\ ok resp = true /\ data resp = Normal d
              /\ form' = Form.set Form.metadataUrl (metadataUrl d) (currentForm s))
        \/ (type = error /\ form' = currentForm s
            /\ ((exists t, r = Throw t
                           /\ message = messageOr (js "Upload failed. Please try again.") t)
                \/ (exists resp,
                      r = Normal resp /\ ok resp = false
                      /\ message
                         = match errorData resp with
                           | Normal d =>
                             match ErrorData.error d with
                             | Some m => if truthy m then m
                                         else js "Failed to upload metadata"
                             | None => js "Failed to upload metadata"
                             end
                           | Throw _ => js "Upload failed"
                           end)
                \/ (exists resp t,
                      r = Normal resp /\ ok resp = true /\ data resp = Throw t
                      /\ message = messageOr (js "Upload failed. Please try again.") t)))).
Proof.
  cbv zeta.
  unfold upload, send, request, sendFailed, bind, tryFinally, tryCatch, throw, ret,
    lift, setIsUploading, Publisher.setStatusMessage, setMetadataUrl, update.
  cbn [Publisher.log currentForm Publisher.formErrors Publisher.status
       Publisher.statusType isUploading].
  destruct (answerUpload w (Publisher.log s) (js "/api/upload") (formDataOf props f))
    as [resp|t] eqn:Hr.
  - destruct (ok resp) eqn:Hok; cbn [negb thrownBy].
    + destruct (data resp) as [d|t] eqn:Hd.
      * do 3 eexists. split; [reflexivity|]. left. split; [reflexivity|]. eauto 10.
      * do 3 eexists. split; [reflexivity|]. right. split; [reflexivity|].
        split; [reflexivity|]. right. right. eauto 10.
    + do 3 eexists. split; [reflexivity|]. right. split; [reflexivity|].
      split; [reflexivity|]. right. left. exists resp.
      split; [reflexivity|]. split; [exact Hok|].
      destruct (errorData resp) as [[[m|]]|t]; reflexivity.
  - do 3 eexists. split; [reflexivity|]. right. split; [reflexivity|].
    split; [reflexivity|]. left. eauto.
Qed.

(** [uploadMetadata] is an upload when an accepted image is selected and
    name and symbol are not blank, and otherwise an error status. *)
Lemma uploadMetadata_cases s :
  (exists f,
      Publisher.imageFile props = Some f /\ imageAccepted f = true
      /\ trim (LaunchForm.name (Publisher.form props)) <> []
      /\ trim (LaunchForm.symbol (Publisher.form props)) <> []
      /\ uploadMetadata w props s = upload w props f s)
  \/ (~ (exists f,
            Publisher.imageFile props = Some f /\ imageAccepted f = true
            /\ trim (LaunchForm.name (Publisher.form props)) <> []
            /\ trim (LaunchForm.symbol (Publisher.form props)) <> [])
      /\ fst (uploadMetadata w props s) = Normal tt
      /\ Publisher.statusType (snd (uploadMetadata w props s)) = error
      /\ Publisher.log (snd (uploadMetadata w props s)) = Publisher.log s
      /\ currentForm (snd (uploadMetadata w props s)) = currentForm s
      /\ isUploading (snd (uploadMetadata w props s)) = isUploading s).
Proof.
  unfold uploadMetadata.
  destruct (Publisher.imageFile props) as [f|] eqn:Hf.
  2:{ right. split; [intros (f & H & _); discriminate|]. cbn. auto. }
  destruct (truthy (trim (LaunchForm.name (Publisher.form props)))) eqn:Hn.
  2:{ right. apply truthy_nil in Hn.
      split; [intros (f' & _ & _ & H & _); contradiction|]. cbn. auto. }
  destruct (truthy (trim (LaunchForm.symbol (Publisher.form props)))) eqn:Hs.
  2:{ right. apply truthy_nil in Hs.
      split; [intros (f' & _ & _ & _ & H); contradiction|]. cbn. auto. }
  cbn [negb orb].
  destruct (validateForm_returns (Publisher.form props) (Some f)) as [e He].
  unfold bind, lift. rewrite He. cbv beta iota.
  pose proof (validateForm_image _ _ _ He) as Hi.
  destruct (FormErrors.image e) as [m|] eqn:Hm.
  - assert (Hin : In m validatorMessages).
    { apply (validateForm_messages _ _ _ _ He). unfold FormErrors.values.
      cbn [flat_map]. rewrite Hm. rewrite !in_app_iff. cbn. tauto. }
    rewrite (validatorMessages_truthy _ Hin).
    right. split.
    + intros (f' & Hf' & Hacc & _). injection Hf' as <-.
      apply image_verdict in Hacc. rewrite Hacc in Hi. discriminate.
    + unfold setImageError, Publisher.setStatusMessage, update.
      cbn [fst snd Publisher.statusType Publisher.log currentForm isUploading]. auto.
  - left. exists f. split; [reflexivity|].
    split; [apply image_verdict; symmetry; exact Hi|].
    split; [intros H; rewrite H in Hn; discriminate|].
    split; [intros H; rewrite H in Hs; discriminate | reflexivity].
Qed.

(** X16.  [uploadMetadata] never throws.  It makes a request exactly when an
    image is selected that is at most 5 MB and of an accepted type and
    the name and the symbol are not blank; then it makes exactly one, to
    [/api/upload], whose form data holds, in this order, the image
    selected under [image], the trimmed name under [name], the trimmed
    symbol in upper case under [symbol], and the trimmed description,
    website, twitter and telegram under their names; and the uploading
    flag is down again at the end.  Otherwise it only shows an error. *)
Theorem uploadMetadata_requests (s0 : Publisher.State) :
  let run := uploadMetadata w props s0 in
  fst run = Normal tt
  /\ ((exists f,
         Publisher.imageFile props = Some f /\ imageAccepted f = true
         /\ trim (LaunchForm.name (Publisher.form props)) <> []
         /\ trim (LaunchForm.symbol (Publisher.form props)) <> [])
      <-> Publisher.log (snd run) <> Publisher.log s0)
  /\ (Publisher.log (snd run) <> Publisher.log s0 ->
      isUploading (snd run) = false
      /\ exists f r,
           Publisher.imageFile props = Some f
           /\ Publisher.log (snd run)
              = Publisher.log s0
                ++ [Requested (js "/api/upload")
                      [ (js "image", Route.Blob f);
                        (js "name",
                           Route.Text (trim (LaunchForm.name (Publisher.form props))));
                        (js "symbol",
                           Route.Text
                             (toUpperCase
                                (trim (LaunchForm.symbol (Publisher.form props)))));
                        (js "description",
                           Route.Text
                             (trim (LaunchForm.description (Publisher.form props))));
                        (js "website",
                           Route.Text (trim (LaunchForm.website (Publisher.form props))));
                        (js "twitter",
                           Route.Text (trim (LaunchForm.twitter (Publisher.form props))));
                        (js "telegram",
                           Route.Text (trim (LaunchForm.telegram (Publisher.form props))))
                      ] r])
  /\ (Publisher.log (snd run) = Publisher.log s0 ->
      Publisher.statusType (snd run) = error
      /\ currentForm (snd run) = currentForm s0
      /\ isUploading (snd run) = isUploading s0).
Proof.
  cbv zeta.
  assert (Hgrow : forall (l : Publisher.history) e, l ++ [e] <> l).
  { intros l e H. apply (f_equal (@List.length _)) in H.
    rewrite length_app in H. cbn in H. lia. }
  destruct (uploadMetadata_cases s0)
    as [(f & Hf & Hacc & Hn & Hs & Hrun) | (Hno & Hr & Hty & Hlog & Hform & Hflag)].
  - rewrite Hrun.
    destruct (upload_cases f s0) as (message & type & form' & -> & _).
    cbn [fst snd Publisher.log isUploading].
    split; [reflexivity|]. split; [split; [intros _; apply Hgrow | eauto 10]|].
    split; [intros _; split;
                      [reflexivity | exists f; eexists; split; [exact Hf | reflexivity]] |].
    intros H. exfalso. exact (Hgrow _ _ H).
  - split; [exact Hr|]. split; [split; [intros H; contradiction | congruence]|].
    split; [congruence | auto].
Qed.

(** X17.  The metadata URI of the form is written only when the reply is ok
    and its body could be read, and then it is the URI the reply carries
    and the status is a success; in every other case the status is an
    error and the form is left as it is.  No other field of the form is
    ever changed, whatever was typed while the upload was under way. *)
Theorem uploadMetadata_outcome (s0 : Publisher.State) :
  let run := uploadMetadata w props s0 in
  (Publisher.statusType (snd run) = success
   \/ Publisher.statusType (snd run) = error)
  /\ (Publisher.statusType (snd run) = success ->
      exists f resp d,
        Publisher.imageFile props = Some f
        /\ answerUpload w (Publisher.log s0) (js "/api/upload") (formDataOf props f)
           = Normal resp
        /\ ok resp = true /\ data resp = Normal d
        /\ LaunchForm.metadataUrl (currentForm (snd run)) = metadataUrl d)
  /\ (Publisher.statusType (snd run) = error -> currentForm (snd run) = currentForm s0)
  /\ (forall g, g <> Form.metadataUrl ->
        Form.get g (currentForm (snd run)) = Form.get g (currentForm s0)).
Proof.
  cbv zeta.
  destruct (uploadMetadata_cases s0)
    as [(f & Hf & Hacc & Hn & Hs & Hrun) | (Hno & Hr & Hty & Hlog & Hform & Hflag)].
  - rewrite Hrun.
    destruct (upload_cases f s0)
      as (message & type & form' & -> & [(-> & resp & d & Hr & Hok & Hd & ->)
                                        | (-> & -> & _)]);
      cbn [fst snd Publisher.statusType currentForm].
    + split; [auto|]. split; [|split; [discriminate|]].
      * intros _. exists f, resp, d. auto 10.
      * intros g Hg. destruct g; first [reflexivity | contradiction].
    + split; [auto|]. split; [discriminate|]. split; [reflexivity|]. reflexivity.
  - rewrite Hty, Hform. split; [auto|]. split; [discriminate|].
    split; reflexivity.
Qed.

End Uploading.

(** ** Texts without whitespace *)

Lemma trim_clean s :
  forallb (fun c => negb (isWhiteSpace c)) s = true -> trim s = s.
Proof.
  intros H.
  assert (Hstart : forall t, forallb (fun c => negb (isWhiteSpace c)) t = true ->
                             trimStart t = t).
  { intros [|c t]; [reflexivity|]. cbn [forallb]. intros Ht.
    apply andb_true_iff in Ht. destruct Ht as [Hc _].
    apply trimStart_head. apply negb_true_iff, Hc. }
  unfold trim, trimEnd. rewrite (Hstart _ H).
  rewrite Hstart by (rewrite forallb_rev; exact H).
  apply rev_involutive.
Qed.

Lemma symbolClass_not_space c : symbolClass c = true -> isWhiteSpace c = false.
Proof.
  unfold symbolClass, isUpper, isDigit, isWhiteSpace. intros H.
  cbn [existsb].
  repeat match goal with
         | |- context [N.eqb ?a ?b] => destruct (N.eqb_spec a b); [subst; discriminate H|]
         end.
  cbn [orb]. apply andb_false_iff.
  destruct (N.leb_spec 8192 c); [|left; reflexivity]. right.
  destruct (N.leb_spec c 8202); [|reflexivity].
  exfalso. apply orb_true_iff in H.
  destruct H as [H|H]; apply andb_true_iff in H; destruct H as [_ H];
    apply N.leb_le in H; lia.
Qed.

Lemma upper_symbol_not_space c :
  symbolClass (upperBasicLatin c) = true -> isWhiteSpace c = false.
Proof.
  unfold upperBasicLatin. destruct (isLower c) eqn:Hl; [|apply symbolClass_not_space].
  intros _. unfold isLower in Hl. apply andb_true_iff in Hl. destruct Hl as [H1 H2].
  apply N.leb_le in H1. apply N.leb_le in H2.
  unfold isWhiteSpace. cbn [existsb].
  repeat match goal with
         | |- context [N.eqb ?a ?b] => destruct (N.eqb_spec a b); [lia|]
         end.
  cbn. apply andb_false_iff. left. apply N.leb_gt. lia.
Qed.

Section Symbols.
Context {E : Engine}.

(** A Basic Latin symbol the validator accepts holds no whitespace, and
    neither does its upper-case form, which is as long. *)
Lemma accepted_symbol_clean symbol :
  basicLatin symbol -> testPlus symbolClass (toUpperCase symbol) = true ->
  trim symbol = symbol
  /\ trim (toUpperCase symbol) = toUpperCase symbol
  /\ List.length (toUpperCase symbol) = List.length symbol
  /\ truthy (toUpperCase symbol) = true.
Proof.
  intros Hb Ht. rewrite (toUpperCase_basicLatin _ Hb) in *.
  unfold testPlus in Ht. apply andb_true_iff in Ht. destruct Ht as [Hne Hall].
  split; [|split; [|split; [apply length_map | exact Hne]]].
  - apply trim_clean. clear Hne Hb. induction symbol as [|c t IH]; [reflexivity|].
    cbn [map forallb] in *. apply andb_true_iff in Hall. destruct Hall as [Hc Hall].
    rewrite (upper_symbol_not_space _ Hc), (IH Hall). reflexivity.
  - apply trim_clean. clear Hne Hb.
    induction (map upperBasicLatin symbol) as [|c t IH]; [reflexivity|].
    cbn [forallb] in *. apply andb_true_iff in Hall. destruct Hall as [Hc Hall].
    rewrite (symbolClass_not_space _ Hc), (IH Hall). reflexivity.
Qed.

End Symbols.

(** ** The form data on its way *)

Lemma list_ind2 {A} (P : list A -> Prop) :
  P [] -> (forall a, P [a]) -> (forall a b l, P l -> P (b :: l) -> P (a :: b :: l)) ->
  forall l, P l.
Proof.
  intros H0 H1 H2 l.
  assert (H : P l /\ forall a, P (a :: l)); [|exact (proj1 H)].
  induction l as [|b l [IH1 IH2]]; split; auto.
Qed.

Lemma toUSVString_step a b l :
  toUSVString (a :: b :: l)
  = if isHighSurrogate a then
      if isLowSurrogate b then a :: b :: toUSVString l
      else 65533%N :: toUSVString (b :: l)
    else if isLowSurrogate a then 65533%N :: toUSVString (b :: l)
    else a :: toUSVString (b :: l).
Proof. reflexivity. Qed.

(** The conversion keeps the length. *)
Lemma toUSVString_length s : List.length (toUSVString s) = List.length s.
Proof.
  induction s as [|a|a b l IH1 IH2] using list_ind2.
  - reflexivity.
  - cbn [toUSVString]. destruct (isHighSurrogate a); [reflexivity|].
    destruct (isLowSurrogate a); reflexivity.
  - rewrite toUSVString_step.
    destruct (isHighSurrogate a); [destruct (isLowSurrogate b)|destruct (isLowSurrogate a)];
      cbn [List.length]; rewrite ?IH1, ?IH2; reflexivity.
Qed.

Lemma surrogate_not_break c :
  isHighSurrogate c = true -> negb ((c =? 10) || (c =? 13))%N = true.
Proof.
  unfold isHighSurrogate. intros H. apply andb_true_iff in H. destruct H as [H _].
  apply N.leb_le in H.
  destruct (N.eqb_spec c 10); [lia|]. destruct (N.eqb_spec c 13); [lia|]. reflexivity.
Qed.

(** The conversion brings in no line break. *)
Lemma toUSVString_noLineBreak s :
  noLineBreak s = true -> noLineBreak (toUSVString s) = true.
Proof.
  unfold noLineBreak.
  induction s as [|a|a b l IH1 IH2] using list_ind2.
  - reflexivity.
  - cbn [toUSVString forallb]. intros H.
    destruct (isHighSurrogate a); [reflexivity|].
    destruct (isLowSurrogate a); [reflexivity | exact H].
  - rewrite toUSVString_step. intros H.
    assert (Hb : forallb (fun c => negb ((c =? 10) || (c =? 13))%N) (b :: l) = true).
    { cbn [forallb] in H. apply andb_true_iff in H. exact (proj2 H). }
    assert (Hl : forallb (fun c => negb ((c =? 10) || (c =? 13))%N) l = true).
    { cbn [forallb] in Hb. apply andb_true_iff in Hb. exact (proj2 Hb). }
    assert (Ha : negb ((a =? 10) || (a =? 13))%N = true).
    { cbn [forallb] in H. apply andb_true_iff in H. exact (proj1 H). }
    assert (Hb' : negb ((b =? 10) || (b =? 13))%N = true).
    { cbn [forallb] in Hb. apply andb_true_iff in Hb. exact (proj1 Hb). }
    destruct (isHighSurrogate a); [destruct (isLowSurrogate b)|destruct (isLowSurrogate a)];
      cbn [forallb]; rewrite ?Ha, ?Hb', ?(IH1 Hl), ?(IH2 Hb); reflexivity.
Qed.

(** Without a line break there is nothing to normalise. *)
Lemma normalizeLineBreaks_noLineBreak s :
  noLineBreak s = true -> normalizeLineBreaks s = s.
Proof.
  unfold noLineBreak. induction s as [|c s IH]; [reflexivity|].
  cbn [forallb normalizeLineBreaks]. intros H. apply andb_true_iff in H.
  destruct H as [Hc Hs]. apply negb_true_iff, orb_false_iff in Hc.
  destruct Hc as [H10 H13]. rewrite H13, H10, (IH Hs). reflexivity.
Qed.

(** A text without a line break arrives with its length. *)
Lemma onWire_length s : noLineBreak s = true -> List.length (onWire s) = List.length s.
Proof.
  intros H. unfold onWire.
  rewrite (normalizeLineBreaks_noLineBreak _ (toUSVString_noLineBreak _ H)).
  apply toUSVString_length.
Qed.

Lemma toUSVString_plain s : forallb plain s = true -> toUSVString s = s.
Proof.
  induction s as [|c s IH]; [reflexivity|].
  cbn [forallb toUSVString]. intros H. apply andb_true_iff in H. destruct H as [Hc Hs].
  unfold plain in Hc. apply andb_true_iff in Hc. destruct Hc as [Hc Hlow].
  apply andb_true_iff in Hc. destruct Hc as [_ Hhigh].
  apply negb_true_iff in Hlow. apply negb_true_iff in Hhigh.
  rewrite Hhigh, Hlow, (IH Hs). reflexivity.
Qed.

Lemma plain_noLineBreak s : forallb plain s = true -> noLineBreak s = true.
Proof.
  unfold noLineBreak. induction s as [|c s IH]; [reflexivity|].
  cbn [forallb]. intros H. apply andb_true_iff in H. destruct H as [Hc Hs].
  unfold plain in Hc. apply andb_true_iff in Hc. destruct Hc as [Hc _].
  apply andb_true_iff in Hc. destruct Hc as [Hc _].
  rewrite Hc, (IH Hs). reflexivity.
Qed.

(** A text of plain code units arrives as it is. *)
Lemma onWire_plain s : forallb plain s = true -> onWire s = s.
Proof.
  intros H. unfold onWire. rewrite (toUSVString_plain _ H).
  apply normalizeLineBreaks_noLineBreak, plain_noLineBreak, H.
Qed.

(** The transfer on some texts: a line alone, a pair kept, and
    surrogates with and without their other half. *)
Example onWire_examples :
  onWire (js "a" ++ [10%N] ++ js "b") = js "a" ++ [13%N; 10%N] ++ js "b"
  /\ onWire (js "a" ++ [13%N; 10%N] ++ js "b") = js "a" ++ [13%N; 10%N] ++ js "b"
  /\ onWire [13%N; 13%N; 10%N; 10%N] = [13%N; 10%N; 13%N; 10%N; 13%N; 10%N]
  /\ onWire [55357%N; 56832%N] = [55357%N; 56832%N]
  /\ onWire [55357%N; 97%N] = [65533%N; 97%N]
  /\ onWire [56832%N; 55357%N] = [65533%N; 65533%N].
Proof. repeat split; reflexivity. Qed.

Lemma forallb_trimStart (p : N -> bool) s :
  forallb p s = true -> forallb p (trimStart s) = true.
Proof.
  induction s as [|c s IH]; [reflexivity|]. cbn [trimStart]. intros H.
  destruct (isWhiteSpace c); [|exact H].
  cbn [forallb] in H. apply andb_true_iff in H. apply IH, H.
Qed.

Lemma forallb_trim (p : N -> bool) s : forallb p s = true -> forallb p (trim s) = true.
Proof.
  intros H. unfold trim, trimEnd. rewrite forallb_rev.
  apply forallb_trimStart. rewrite forallb_rev. apply forallb_trimStart, H.
Qed.

Lemma symbolClass_plain c : symbolClass c = true -> plain c = true.
Proof.
  unfold symbolClass, isUpper, isDigit, plain, isHighSurrogate, isLowSurrogate.
  intros H.
  assert (Hc : (c <= 90)%N).
  { apply orb_true_iff in H. destruct H as [H|H]; apply andb_true_iff in H;
      destruct H as [_ H]; apply N.leb_le in H; lia. }
  assert (Hc' : (48 <= c)%N).
  { apply orb_true_iff in H. destruct H as [H|H]; apply andb_true_iff in H;
      destruct H as [H _]; apply N.leb_le in H; lia. }
  destruct (N.eqb_spec c 10); [lia|]. destruct (N.eqb_spec c 13); [lia|].
  destruct (N.leb_spec 55296 c); [lia|]. destruct (N.leb_spec 56320 c); [lia|].
  reflexivity.
Qed.

Lemma nameClass_plain c :
  nameClass c = true -> negb ((c =? 10) || (c =? 13))%N = true -> plain c = true.
Proof.
  intros H Hb. unfold plain. rewrite Hb. cbn [andb].
  unfold isHighSurrogate, isLowSurrogate.
  destruct (N.leb_spec 55296 c) as [Hge|Hlt];
    [|destruct (N.leb_spec 56320 c); [lia | reflexivity]].
  destruct (N.leb_spec c 57343) as [Hle|Hgt].
  - exfalso. revert H. unfold nameClass, isLower, isUpper, isDigit, isWhiteSpace.
    cbn [existsb].
    repeat match goal with
           | |- context [N.eqb ?a ?b] => destruct (N.eqb_spec a b); [lia|]
           end.
    destruct (N.leb_spec c 122); [lia|]. destruct (N.leb_spec c 90); [lia|].
    destruct (N.leb_spec c 57); [lia|]. destruct (N.leb_spec c 8202); [lia|].
    rewrite !andb_false_r. discriminate.
  - destruct (N.leb_spec c 56319); [lia|]. destruct (N.leb_spec 56320 c); [|lia].
    reflexivity.
Qed.

Lemma name_plain s :
  forallb nameClass s = true -> noLineBreak s = true -> forallb plain s = true.
Proof.
  unfold noLineBreak. induction s as [|c s IH]; [reflexivity|].
  cbn [forallb]. intros H H'. apply andb_true_iff in H. apply andb_true_iff in H'.
  destruct H as [Hc Hs]. destruct H' as [Hc' Hs'].
  rewrite (nameClass_plain _ Hc Hc'), (IH Hs Hs'). reflexivity.
Qed.

Lemma symbol_plain s : forallb symbolClass s = true -> forallb plain s = true.
Proof.
  induction s as [|c s IH]; [reflexivity|].
  cbn [forallb]. intros H. apply andb_true_iff in H. destruct H as [Hc Hs].
  rewrite (symbolClass_plain _ Hc), (IH Hs). reflexivity.
Qed.

(** ** The page and the route together *)

Section Together.
Context {E : Engine}.
Variable env : Route.Env.
Variable pinata : Route.World.
Variable props : Publisher.Props.
Variable arrived : File -> File.

(** What the route reads of an accepted form. *)
Lemma transmitted_fields f :
  validateForm (Publisher.form props) (Some f) = Normal FormErrors.empty ->
  basicLatin (LaunchForm.symbol (Publisher.form props)) ->
  noLineBreak (LaunchForm.name (Publisher.form props)) = true ->
  let form := Publisher.form props in
  let fd := transmitted arrived (formDataOf props f) in
  Route.get fd (js "image") = Some (Route.Blob (arrived f))
  /\ Route.field fd (js "name") = trim (LaunchForm.name form)
  /\ Route.field fd (js "symbol") = toUpperCase (LaunchForm.symbol form)
  /\ Route.field fd (js "description") = trim (onWire (trim (LaunchForm.description form)))
  /\ Route.field fd (js "website") = trim (onWire (trim (LaunchForm.website form)))
  /\ Route.field fd (js "twitter") = trim (onWire (trim (LaunchForm.twitter form)))
  /\ Route.field fd (js "telegram") = trim (onWire (trim (LaunchForm.telegram form))).
Proof.
  intros Hv Hb Hline. cbv zeta.
  pose proof (validateForm_name _ _ _ Hv) as Hname.
  pose proof (validateForm_symbol _ _ _ Hv) as Hsymbol.
  cbn [FormErrors.name FormErrors.symbol FormErrors.empty] in *.
  symmetry in Hname, Hsymbol.
  apply name_verdict in Hname. apply symbol_verdict in Hsymbol.
  destruct Hname as (_ & _ & Hn3). destruct Hsymbol as (_ & _ & Hs3).
  destruct (accepted_symbol_clean _ Hb Hs3) as (Hc1 & Hc2 & _ & _).
  split; [reflexivity|].
  split.
  { unfold Route.field.
    change (Route.get (transmitted arrived (formDataOf props f)) (js "name"))
      with (Some (Route.Text (onWire (trim (LaunchForm.name (Publisher.form props)))))).
    rewrite onWire_plain by (apply forallb_trim, name_plain; assumption).
    apply trim_idem. }
  split.
  { unfold Route.field.
    change (Route.get (transmitted arrived (formDataOf props f)) (js "symbol"))
      with (Some (Route.Text
                    (onWire (toUpperCase
                               (trim (LaunchForm.symbol (Publisher.form props))))))).
    rewrite Hc1. unfold testPlus in Hs3. apply andb_true_iff in Hs3.
    rewrite onWire_plain by (apply symbol_plain, Hs3). exact Hc2. }
  repeat split; reflexivity.
Qed.

(** The answer to a form data whose description alone is too long. *)
Lemma POST_long_description request h fd image :
  configured env = true -> Route.formData request = Normal fd ->
  Route.get fd (js "image") = Some (Route.Blob image) ->
  (Route.MAX_FILE_SIZE <? size image)%Z = false ->
  includes Route.ALLOWED_TYPES (type image) = true ->
  truthy (Route.field fd (js "name")) = true ->
  (Route.MAX_NAME_LENGTH <? List.length (Route.field fd (js "name")))%nat = false ->
  truthy (Route.field fd (js "symbol")) = true ->
  (Route.MAX_SYMBOL_LENGTH <? List.length (Route.field fd (js "symbol")))%nat = false ->
  (Route.MAX_DESCRIPTION_LENGTH <? List.length (Route.field fd (js "description")))%nat
  = true ->
  Route.POST env pinata request h
  = (Normal (Route.errorResponse (js "Description must be 200 characters or less.") 400),
     h).
Proof.
  intros Hc Hfd Hg H1 H2 H3 H4 H5 H6 H7.
  unfold Route.POST, Route.handle.
  rewrite <- negb_orb. fold (configured env). rewrite Hc. cbn [negb].
  unfold tryCatch, bind at 1. unfold lift at 1. rewrite Hfd. cbv beta iota.
  rewrite Hg, H1, H2, H3, H4, H5, H6, H7. reflexivity.
Qed.

(** X18.  The page publishing through the route of the same deployment, with
    credentials configured, the form data travelling as
    multipart/form-data: a text arrives with its lone surrogates
    replaced and each lone line break as CR LF, the image with its size
    and type.  Take a form the validator accepts, with a symbol in Basic
    Latin and a name without line break.  The route answers 400 exactly
    when the description it reads, line breaks counted as sent, is
    longer than 200; so never for a description without line break.
    Every metadata document the route sends to the pinning service
    carries the trimmed name, the symbol upper-cased, and the
    description and links as they arrived, trimmed.  With a 200 the page
    shows a success and stores as metadata URI the gateway address of
    the pinned document; with a 500 it shows the error text of the
    answer and leaves the form as it is; with a 400 it shows that the
    description must be 200 characters or less and leaves the form as it
    is. *)
Theorem upload_end_to_end (s0 : Publisher.State) (f : File) :
  configured env = true ->
  Publisher.imageFile props = Some f ->
  validateForm (Publisher.form props) (Some f) = Normal FormErrors.empty ->
  basicLatin (LaunchForm.symbol (Publisher.form props)) ->
  noLineBreak (LaunchForm.name (Publisher.form props)) = true ->
  size (arrived f) = size f ->
  type (arrived f) = type f ->
  let form := Publisher.form props in
  let description := trim (onWire (trim (LaunchForm.description form))) in
  let run := uploadMetadata (served env pinata arrived) props s0 in
  exists response new,
    Route.POST env pinata
      {| Route.formData := Normal (transmitted arrived (formDataOf props f)) |} []
    = (Normal response, new)
    /\ (Route.httpStatus response = 400%Z <-> (200 < List.length description)%nat)
    /\ (noLineBreak (LaunchForm.description form) = true ->
        Route.httpStatus response <> 400%Z)
    /\ (forall url headers doc threw,
          In (Route.fetch url headers (Route.JsonBody doc) threw) new ->
          exists imageUrl imageType,
            doc = JObject
                    (Route.buildMetadata (trim (LaunchForm.name form))
                       (toUpperCase (LaunchForm.symbol form))
                       description imageUrl imageType
                       (trim (onWire (trim (LaunchForm.website form))))
                       (trim (onWire (trim (LaunchForm.twitter form))))
                       (trim (onWire (trim (LaunchForm.telegram form))))))
    /\ ((Route.httpStatus response = 200%Z
         /\ Publisher.statusType (snd run) = success
         /\ exists imageCid metadataCid,
              Route.httpBody response = successBody imageCid metadataCid
              /\ LaunchForm.metadataUrl (currentForm (snd run))
                 = gateway ++ metadataCid)
        \/ (Route.httpStatus response = 500%Z
            /\ Publisher.statusType (snd run) = error
            /\ currentForm (snd run) = currentForm s0
            /\ exists m,
                 Route.httpBody response = JObject [("error"%string, JString m)]
                 /\ Publisher.status (snd run)
                    = if truthy m then m else js "Failed to upload metadata")
        \/ (Route.httpStatus response = 400%Z
            /\ Publisher.statusType (snd run) = error
            /\ currentForm (snd run) = currentForm s0
            /\ Publisher.status (snd run)
               = js "Description must be 200 characters or less.")).
Proof.
  intros Hc Hf Hv Hb Hline Hsize Htype. cbv zeta.
  destruct (transmitted_fields f Hv Hb Hline) as (Hg & H1 & H2 & H3 & H4 & H5 & H6).
  pose proof (validateForm_name _ _ _ Hv) as Hname.
  pose proof (validateForm_symbol _ _ _ Hv) as Hsymbol.
  pose proof (validateForm_description _ _ _ Hv) as Hdescription.
  pose proof (validateForm_image _ _ _ Hv) as Himage.
  cbn [FormErrors.name FormErrors.symbol FormErrors.description FormErrors.image
       FormErrors.empty] in *.
  symmetry in Hname, Hsymbol, Himage, Hdescription.
  apply name_verdict in Hname. apply symbol_verdict in Hsymbol.
  apply image_verdict in Himage.
  destruct Hname as (Hn1 & Hn2 & Hn3). destruct Hsymbol as (Hs1 & Hs2 & Hs3).
  destruct (accepted_symbol_clean _ Hb Hs3) as (Hc1 & Hc2 & Hc3 & Hc4).
  (* the rules before the description pass *)
  pose proof Himage as Hacc.
  unfold imageAccepted in Himage. apply andb_true_iff in Himage.
  destruct Himage as [Hsz Hty].
  rewrite Z.leb_antisym in Hsz. apply negb_true_iff in Hsz.
  rewrite <- Hsize in Hsz. rewrite <- Htype in Hty.
  assert (Ht1 : truthy (trim (LaunchForm.name (Publisher.form props))) = true)
    by (destruct (trim (LaunchForm.name (Publisher.form props)));
        [contradiction | reflexivity]).
  pose proof (length_trim (LaunchForm.name (Publisher.form props))) as Hl1.
  assert (Hl2 : (32 <? List.length (trim (LaunchForm.name (Publisher.form props))))%nat
                = false) by (apply Nat.ltb_ge; lia).
  assert (Hl3 : (10 <? List.length (toUpperCase (LaunchForm.symbol (Publisher.form props))))%nat
                = false) by (apply Nat.ltb_ge; lia).
  (* the page makes its request *)
  destruct (uploadMetadata_cases (served env pinata arrived) props s0)
    as [(f' & Hf' & _ & _ & _ & Hup) | (Hno & _)].
  2:{ exfalso. apply Hno. exists f. auto. }
  assert (f' = f) by congruence. subst f'. rewrite Hup.
  destruct (upload_cases (served env pinata arrived) props f s0)
    as (message & type & form' & -> & Hwhich).
  cbv zeta in Hwhich. cbn [answerUpload served] in Hwhich.
  cbn [snd Publisher.statusType Publisher.status currentForm].
  destruct (200 <? List.length
                     (trim (onWire (trim (LaunchForm.description (Publisher.form props))))))%nat
    eqn:Hlong.
  - (* the description read is too long *)
    assert (Hrun : Route.POST env pinata
                     {| Route.formData := Normal (transmitted arrived (formDataOf props f)) |}
                     []
                   = (Normal (Route.errorResponse
                                (js "Description must be 200 characters or less.") 400),
                      [])).
    { apply (POST_long_description
               {| Route.formData := Normal (transmitted arrived (formDataOf props f)) |}
               [] (transmitted arrived (formDataOf props f)) (arrived f)
               Hc eq_refl Hg Hsz Hty);
        rewrite ?H1, ?H2, ?H3; assumption. }
    rewrite Hrun in Hwhich. cbn [fst] in Hwhich.
    do 2 eexists. split; [exact Hrun|]. cbn [Route.httpStatus Route.errorResponse].
    apply Nat.ltb_lt in Hlong.
    split; [split; [intros _; exact Hlong | reflexivity]|].
    split.
    { intros Hd. exfalso.
      pose proof (length_trim (onWire (trim (LaunchForm.description (Publisher.form props)))))
        as Hl4.
      rewrite onWire_length in Hl4 by (apply forallb_trim, Hd).
      pose proof (length_trim (LaunchForm.description (Publisher.form props))) as Hl5.
      unfold MAX_DESCRIPTION_LENGTH in Hdescription.
      destruct (Nat.ltb_spec 200
                  (List.length (LaunchForm.description (Publisher.form props))));
        [discriminate | lia]. }
    split; [intros url headers doc threw []|].
    right. right. split; [reflexivity|].
    destruct Hwhich as [(_ & resp & d & Hr & Hok & _)
                       | (-> & -> & [(t' & Hr & _)
                                    | [(resp & Hr & _ & ->) | (resp & t' & Hr & Hok & _)]])].
    + injection Hr as <-. cbn in Hok. discriminate Hok.
    + discriminate Hr.
    + injection Hr as <-. split; [reflexivity|]. split; reflexivity.
    + injection Hr as <-. cbn in Hok. discriminate Hok.
  - (* no rule is broken *)
    assert (Hrule : ruleFails (transmitted arrived (formDataOf props f)) = false).
    { unfold ruleFails. rewrite Hg, H1, H2, H3, Hlong.
      rewrite Hsz, Hty, Ht1, Hl2, Hc4, Hl3. reflexivity. }
    destruct (RouteProofs.POST_outcome env pinata
                {| Route.formData := Normal (transmitted arrived (formDataOf props f)) |}
                [] Hc)
      as (response & new & Hrun & Hcases).
    cbn [app] in Hrun. exists response, new. split; [exact Hrun|].
    cbn [Route.formData] in Hcases.
    destruct Hcases
      as [(t & Hfd & _) | [(fd & Hfd & Hbad & _) | (fd & Hfd & _ & Hdoc & Hend)]];
      [ discriminate Hfd
      | assert (fd = transmitted arrived (formDataOf props f)) by congruence;
        subst fd; congruence |].
    assert (fd = transmitted arrived (formDataOf props f)) by congruence. subst fd.
    rewrite H1, H2, H3, H4, H5, H6 in Hdoc.
    rewrite Hrun in Hwhich. cbn [fst] in Hwhich.
    apply Nat.ltb_ge in Hlong.
    destruct Hend as [(t & -> & _) | (imageCid & metadataCid & _ & _ & _ & _ & -> & _)];
      cbn [Route.httpStatus Route.errorResponse].
    + split; [split; [discriminate | lia]|]. split; [discriminate|].
      split; [exact Hdoc|].
      right. left. split; [reflexivity|].
      destruct Hwhich as [(_ & resp & d & Hr & Hok & _)
                         | (-> & -> & [(t' & Hr & _)
                                      | [(resp & Hr & _ & ->) | (resp & t' & Hr & Hok & _)]])].
      * injection Hr as <-. cbn in Hok. discriminate Hok.
      * discriminate Hr.
      * injection Hr as <-. split; [reflexivity|]. split; [reflexivity|].
        eexists. split; [reflexivity|]. reflexivity.
      * injection Hr as <-. cbn in Hok. discriminate Hok.
    + split; [split; [discriminate | lia]|]. split; [discriminate|].
      split; [exact Hdoc|].
      left. split; [reflexivity|].
      destruct Hwhich as [(-> & resp & d & Hr & _ & Hd & ->)
                         | (_ & _ & [(t' & Hr & _)
                                    | [(resp & Hr & Hok & _) | (resp & t' & Hr & _ & Hd & _)]])].
      * injection Hr as <-. split; [reflexivity|].
        exists imageCid, metadataCid. split; [reflexivity|].
        cbn in Hd. injection Hd as <-. reflexivity.
      * discriminate Hr.
      * injection Hr as <-. cbn in Hok. discriminate Hok.
      * injection Hr as <-. cbn in Hd. discriminate Hd.
Qed.

End Together.

Lemma upload_end_to_end_witness :
  let run := @uploadMetadata basicLatinEngine
               (@served basicLatinEngine Fixtures.withToken Sample.pinningBoth
                  (fun f => f))
               Sample.publishing Sample.idle in
  let refused := @uploadMetadata basicLatinEngine
                   (@served basicLatinEngine Fixtures.withToken Sample.pinningBoth
                      (fun f => f))
                   Sample.twoLines Sample.idle in
  (Publisher.statusType (snd run) = success
   /\ LaunchForm.metadataUrl (currentForm (snd run))
      = js "https://gateway.pinata.cloud/ipfs/QmDocument")
  /\ (@validateForm basicLatinEngine (Publisher.form Sample.twoLines) (Some Fixtures.logo)
      = Normal FormErrors.empty
      /\ List.length (LaunchForm.description (Publisher.form Sample.twoLines)) = 200%nat
      /\ Publisher.statusType (snd refused) = error
      /\ Publisher.status (snd refused)
         = js "Description must be 200 characters or less.").
Proof.
  intros run refused. split.
  - destruct (@upload_end_to_end basicLatinEngine Fixtures.withToken Sample.pinningBoth
                Sample.publishing (fun f => f) Sample.idle Fixtures.logo)
      as (response & new & Hrun & _ & Hnever & _ & Hpage).
    + reflexivity.
    + reflexivity.
    + vm_compute. reflexivity.
    + repeat constructor.
    + reflexivity.
    + reflexivity.
    + reflexivity.
    + destruct Hpage as [(_ & Hty & cid1 & cid2 & Hbody & Hurl) | [(Hst & _) | (Hst & _)]].
      * split; [exact Hty|]. transitivity (gateway ++ cid2); [exact Hurl|].
        assert (Hr : response
                     = {| Route.httpStatus := 200;
                          Route.httpBody := successBody (js "QmImage") (js "QmDocument") |}).
        { assert (Hrun' : fst (@Route.POST basicLatinEngine Fixtures.withToken
                                 Sample.pinningBoth
                                 {| Route.formData :=
                                      Normal (transmitted (fun f => f)
                                                (@formDataOf basicLatinEngine
                                                   Sample.publishing Fixtures.logo)) |} [])
                          = Normal {| Route.httpStatus := 200;
                                      Route.httpBody :=
                                        successBody (js "QmImage") (js "QmDocument") |})
            by (vm_compute; reflexivity).
          rewrite Hrun in Hrun'. cbn [fst] in Hrun'. injection Hrun' as ->. reflexivity. }
        rewrite Hr in Hbody. cbn [Route.httpBody] in Hbody.
        unfold successBody in Hbody. injection Hbody as _ Hm.
        rewrite <- Hm. reflexivity.
      * exfalso.
        assert (Hrun' : Route.httpStatus
                          (match fst (@Route.POST basicLatinEngine Fixtures.withToken
                                 Sample.pinningBoth
                                 {| Route.formData :=
                                      Normal (transmitted (fun f => f)
                                                (@formDataOf basicLatinEngine
                                                   Sample.publishing Fixtures.logo)) |} [])
                           with Normal r => r | Throw _ => Route.errorResponse [] 0 end)
                        = 200%Z) by (vm_compute; reflexivity).
        rewrite Hrun in Hrun'. cbn [fst] in Hrun'. rewrite Hst in Hrun'.
        discriminate Hrun'.
      * exfalso. apply (Hnever eq_refl Hst).
  - destruct (@upload_end_to_end basicLatinEngine Fixtures.withToken Sample.pinningBoth
                Sample.twoLines (fun f => f) Sample.idle Fixtures.logo)
      as (response & new & Hrun & H400 & _ & _ & Hpage).
    + reflexivity.
    + reflexivity.
    + vm_compute. reflexivity.
    + repeat constructor.
    + reflexivity.
    + reflexivity.
    + reflexivity.
    + split; [vm_compute; reflexivity|]. split; [reflexivity|].
      assert (Hst : Route.httpStatus response = 400%Z)
        by (apply H400; vm_compute; lia).
      destruct Hpage as [(Hst' & _) | [(Hst' & _) | (_ & Hty & _ & Hmsg)]];
        [rewrite Hst in Hst'; discriminate Hst'
        | rewrite Hst in Hst'; discriminate Hst' |].
      split; [exact Hty | exact Hmsg].
Defined.


End PublisherProofs.

(* ===================================================================== *)
(** * The symbol as typed                                                 *)
(* ===================================================================== *)

Module SymbolInput.
Import JS Spec JSFacts Page PageProofs Expect AcceptedForms PublisherProofs Form.

Lemma upper_not_lower c : isLower (upperBasicLatin c) = false.
Proof.
  unfold upperBasicLatin. destruct (isLower c) eqn:Hl; [|exact Hl].
  unfold isLower in *. apply andb_true_iff in Hl. destruct Hl as [H1 H2].
  apply N.leb_le in H1. apply N.leb_le in H2.
  apply andb_false_iff. left. apply N.leb_gt. lia.
Qed.

Lemma upper_idem c : upperBasicLatin (upperBasicLatin c) = upperBasicLatin c.
Proof. unfold upperBasicLatin at 1. rewrite upper_not_lower. reflexivity. Qed.

Lemma upper_basicLatin s : basicLatin s -> basicLatin (map upperBasicLatin s).
Proof.
  unfold basicLatin. induction 1 as [|c s Hc _ IH]; cbn [map]; constructor; [|exact IH].
  unfold upperBasicLatin. destruct (isLower c); lia.
Qed.

Lemma symbolClass_upper c : symbolClass (upperBasicLatin c) = isAlphanumeric c.
Proof.
  unfold isAlphanumeric, upperBasicLatin, symbolClass.
  destruct (isLower c) eqn:Hl; [|reflexivity].
  cbn [orb]. unfold isLower in Hl. apply andb_true_iff in Hl. destruct Hl as [H1 H2].
  apply N.leb_le in H1. apply N.leb_le in H2.
  assert (Hu : isUpper (c - 32) = true).
  { unfold isUpper. apply andb_true_iff. split; apply N.leb_le; lia. }
  rewrite Hu. reflexivity.
Qed.

Lemma symbolClass_map_upper s :
  forallb symbolClass (map upperBasicLatin s) = forallb isAlphanumeric s.
Proof.
  induction s as [|c s IH]; [reflexivity|].
  cbn [map forallb]. rewrite symbolClass_upper, IH. reflexivity.
Qed.

Lemma clean_of_symbol s :
  forallb symbolClass s = true -> forallb (fun c => negb (isWhiteSpace c)) s = true.
Proof.
  induction s as [|c s IH]; [reflexivity|]. cbn [forallb]. intros H.
  apply andb_true_iff in H. destruct H as [Hc Hs].
  rewrite (symbolClass_not_space _ Hc), (IH Hs). reflexivity.
Qed.

Section Typing.
Context {E : Engine}.

(** X19.  Whatever is typed into the symbol input, the symbol kept is the
    text typed in upper case, and no other field changes.  For a text in
    Basic Latin that is the text with a to z replaced by A to Z;
    upper-casing it again, as the validator and the uploads do, changes
    nothing, and the validator has no complaint about the symbol exactly
    when the text typed is one to ten ASCII letters and digits. *)
Theorem typed_symbol_is_upper (rendered : FormErrors.t) (typed : jsstring)
  (s : Form.State) :
  let form' := Form.form (onSymbolChange rendered typed s) in
  LaunchForm.symbol form' = toUpperCase typed
  /\ (forall f, f <> symbol -> get f form' = get f (Form.form s))
  /\ (basicLatin typed ->
      LaunchForm.symbol form' = map upperBasicLatin typed
      /\ toUpperCase (LaunchForm.symbol form') = LaunchForm.symbol form'
      /\ forall img e,
           validateForm form' img = Normal e ->
           (FormErrors.symbol e = None
            <-> (1 <= List.length typed <= 10)%nat
                /\ forallb isAlphanumeric typed = true)).
Proof.
  cbv zeta. unfold onSymbolChange, updateForm.
  cbn [Form.form set LaunchForm.symbol].
  split; [reflexivity|].
  split; [intros f Hf; destruct f; first [reflexivity | contradiction]|].
  intros Hb.
  rewrite (toUpperCase_basicLatin _ Hb).
  assert (Hup : toUpperCase (map upperBasicLatin typed) = map upperBasicLatin typed).
  { rewrite (toUpperCase_basicLatin _ (upper_basicLatin _ Hb)), map_map.
    apply map_ext. intros c. apply upper_idem. }
  split; [reflexivity|]. split; [exact Hup|].
  intros img e He. rewrite (validateForm_symbol _ _ _ He).
  cbn [LaunchForm.symbol set]. rewrite symbol_verdict, Hup.
  unfold testPlus. rewrite symbolClass_map_upper, length_map.
  split.
  - intros (_ & Hlen & Hall). apply andb_true_iff in Hall. destruct Hall as [Hne Hall].
    split; [|exact Hall]. destruct typed; [discriminate Hne | cbn [List.length] in *; lia].
  - intros (Hlen & Hall).
    assert (Hne : truthy (map upperBasicLatin typed) = true)
      by (destruct typed; [cbn in Hlen; lia | reflexivity]).
    rewrite Hne, Hall. split; [|split; [lia | reflexivity]].
    rewrite trim_clean.
    + destruct typed; [cbn in Hlen; lia | discriminate].
    + apply clean_of_symbol. rewrite symbolClass_map_upper. exact Hall.
Qed.

End Typing.

Lemma typed_symbol_is_upper_witness :
  let s := {| Form.form := DEFAULT_FORM; Form.formErrors := FormErrors.empty;
              Form.imageFile := None; imagePreview := []; reading := [] |} in
  LaunchForm.symbol
    (Form.form (@onSymbolChange basicLatinEngine FormErrors.empty (js "moon") s))
  = js "MOON".
Proof.
  intros s.
  destruct (@typed_symbol_is_upper basicLatinEngine FormErrors.empty (js "moon") s)
    as (_ & _ & Hlatin).
  destruct Hlatin as (Hkept & _); [repeat constructor|].
  rewrite Hkept. reflexivity.
Defined.

End SymbolInput.

(* ===================================================================== *)
(** * The balance shown                                                   *)
(* ===================================================================== *)

Module BalanceProofs.
Import JS Spec Balance.

Section Observing.
Variable w : Balance.World.

(** Reduces the state of a run as far as it is known. *)
Ltac tidy :=
  cbv beta iota; cbn [Balance.log Balance.logged walletBalance thrownBy fst snd].

(** A run of [updateBalance]: it never throws, reads the chain one to
    three times, and with the component mounted throughout ends with a
    balance written. *)
Lemma updateBalance_runs (s0 : Balance.State) :
  let run := updateBalance w s0 in
  fst run = Normal tt
  /\ (exists new,
        Balance.log (snd run) = Balance.log s0 ++ new
        /\ (1 <= List.length (filter isRead new) <= 3)%nat)
  /\ ((forall h, isMounted w h = true) ->
      exists b,
        walletBalance (snd run) = Some b
        /\ ((exists h lamports,
               (answerAccountInfo w h = Normal (Some lamports)
                \/ answerBalance w h = Normal lamports)
               /\ b = toSol lamports)
            \/ (b = Finite 0 /\ exists h t, answerBalance w h = Throw t))).
Proof.
  cbv zeta.
  unfold updateBalance, tryCatch, bind, Balance.consoleError, Balance.perform, mounted,
    setWalletBalance, update, ret.
  cbn [Balance.log Balance.logged walletBalance thrownBy fst snd].
  repeat match goal with
         | |- context [answerAccountInfo w ?h] =>
           lazymatch goal with
           | H : answerAccountInfo w h = _ |- _ => fail
           | _ => destruct (answerAccountInfo w h) as [[?lamports|]|?t] eqn:?Hinfo
           end
         | |- context [answerBalance w ?h] =>
           lazymatch goal with
           | H : answerBalance w h = _ |- _ => fail
           | _ => destruct (answerBalance w h) as [?lamports|?t] eqn:?Hbal
           end
         | |- context [isMounted w ?h] =>
           lazymatch goal with
           | H : isMounted w h = _ |- _ => fail
           | _ => destruct (isMounted w h) eqn:?Hm
           end
         | _ => progress cbn [Balance.log Balance.logged walletBalance thrownBy fst snd]
         end.
  all: split; [reflexivity|].
  all: split;
    [ eexists; split;
      [ rewrite <- ?app_assoc; cbn [app];
        first [reflexivity | rewrite app_nil_r; reflexivity]
      | cbn; lia ] |].
  all: intros Hall.
  all: try (repeat match goal with
                   | H : isMounted w ?h = false |- _ => rewrite Hall in H; discriminate H
                   end; fail).
  all: eexists; split; [reflexivity|].
  all: first [ left; do 2 eexists; split; [|reflexivity]; eauto; fail
             | right; split; [reflexivity|]; eauto ].
Qed.

(** The tests of [isMounted] in a run of [updateBalance], each at the
    point where the code makes it, and the write that follows the second
    read without a test. *)
Lemma updateBalance_tests (s0 : Balance.State) :
  let run := updateBalance w s0 in
  let h0 := Balance.log s0 in
  let answered := h0 ++ [Balance.Called getAccountInfo None] in
  let failed t :=
    h0 ++ [ Balance.Called getAccountInfo (Some t);
            Balance.Called (console_error (js "Failed to fetch balance:") t) None ] in
  let retried t :=
    answered ++ [ Balance.Called getBalance (Some t);
                  Balance.Called (console_error (js "Failed to fetch balance:") t) None ] in
  (forall info,
      answerAccountInfo w h0 = Normal info -> isMounted w answered = false ->
      walletBalance (snd run) = walletBalance s0 /\ Balance.log (snd run) = answered)
  /\ (forall t,
        answerAccountInfo w h0 = Throw t -> isMounted w (failed t) = false ->
        walletBalance (snd run) = walletBalance s0 /\ Balance.log (snd run) = failed t)
  /\ (forall t,
        answerAccountInfo w h0 = Normal None -> isMounted w answered = true ->
        answerBalance w answered = Throw t -> isMounted w (retried t) = false ->
        walletBalance (snd run) = walletBalance s0 /\ Balance.log (snd run) = retried t)
  /\ (forall lamports,
        answerAccountInfo w h0 = Normal None -> isMounted w answered = true ->
        answerBalance w answered = Normal lamports ->
        walletBalance (snd run) = Some (toSol lamports)
        /\ Balance.log (snd run) = answered ++ [Balance.Called getBalance None]).
Proof.
  cbv zeta.
  unfold updateBalance, tryCatch, bind, Balance.consoleError, Balance.perform, mounted,
    setWalletBalance, update, ret.
  tidy.
  split; [|split; [|split]].
  - intros info Ha Hm. rewrite Ha. tidy.
    rewrite Hm. split; reflexivity.
  - intros t Ha Hm. rewrite Ha. tidy.
    rewrite <- app_assoc. cbn [app]. rewrite Hm. tidy.
    split; [reflexivity|]. rewrite <- app_assoc. reflexivity.
  - intros t Ha Hm Hb Hm'. rewrite Ha. tidy.
    rewrite Hm. tidy. rewrite Hb. tidy.
    rewrite <- (app_assoc _ [Balance.Called getBalance (Some t)]). cbn [app].
    rewrite Hm'. tidy.
    split; [reflexivity|].
    rewrite <- (app_assoc _ [Balance.Called getBalance (Some t)]). reflexivity.
  - intros lamports Ha Hm Hb. rewrite Ha. tidy.
    rewrite Hm. tidy. rewrite Hb. tidy. split; reflexivity.
Qed.

(** The writes of a run of [updateBalance]: each follows a test that
    found the component mounted, and none is tested again after the
    read it awaits. *)
Lemma updateBalance_writes (s0 : Balance.State) :
  let run := updateBalance w s0 in
  let h0 := Balance.log s0 in
  let answered := h0 ++ [Balance.Called getAccountInfo None] in
  let failed t :=
    h0 ++ [ Balance.Called getAccountInfo (Some t);
            Balance.Called (console_error (js "Failed to fetch balance:") t) None ] in
  let retried t :=
    answered ++ [ Balance.Called getBalance (Some t);
                  Balance.Called (console_error (js "Failed to fetch balance:") t) None ] in
  (forall lamports,
      answerAccountInfo w h0 = Normal (Some lamports) -> isMounted w answered = true ->
      walletBalance (snd run) = Some (toSol lamports))
  /\ (forall t lamports,
        answerAccountInfo w h0 = Normal None -> isMounted w answered = true ->
        answerBalance w answered = Throw t -> isMounted w (retried t) = true ->
        answerBalance w (retried t) = Normal lamports ->
        walletBalance (snd run) = Some (toSol lamports))
  /\ (forall t t',
        answerAccountInfo w h0 = Normal None -> isMounted w answered = true ->
        answerBalance w answered = Throw t -> isMounted w (retried t) = true ->
        answerBalance w (retried t) = Throw t' ->
        walletBalance (snd run) = Some (Finite 0))
  /\ (forall t lamports,
        answerAccountInfo w h0 = Throw t -> isMounted w (failed t) = true ->
        answerBalance w (failed t) = Normal lamports ->
        walletBalance (snd run) = Some (toSol lamports))
  /\ (forall t t',
        answerAccountInfo w h0 = Throw t -> isMounted w (failed t) = true ->
        answerBalance w (failed t) = Throw t' ->
        walletBalance (snd run) = Some (Finite 0)).
Proof.
  cbv zeta.
  unfold updateBalance, tryCatch, bind, Balance.consoleError, Balance.perform, mounted,
    setWalletBalance, update, ret.
  tidy.
  split; [|split; [|split; [|split]]].
  - intros lamports Ha Hm. rewrite Ha. tidy. rewrite Hm. reflexivity.
  - intros t lamports Ha Hm Hb Hm' Hb'. rewrite Ha. tidy.
    rewrite Hm. tidy. rewrite Hb. tidy.
    rewrite <- (app_assoc _ [Balance.Called getBalance (Some t)]). cbn [app].
    rewrite Hm'. tidy.
    rewrite <- (app_assoc _ [Balance.Called getBalance (Some t)]). cbn [app].
    rewrite Hb'. reflexivity.
  - intros t t' Ha Hm Hb Hm' Hb'. rewrite Ha. tidy.
    rewrite Hm. tidy. rewrite Hb. tidy.
    rewrite <- (app_assoc _ [Balance.Called getBalance (Some t)]). cbn [app].
    rewrite Hm'. tidy.
    rewrite <- (app_assoc _ [Balance.Called getBalance (Some t)]). cbn [app].
    rewrite Hb'. reflexivity.
  - intros t lamports Ha Hm Hb. rewrite Ha. tidy.
    rewrite <- app_assoc. cbn [app]. rewrite Hm. tidy.
    rewrite <- app_assoc. cbn [app]. rewrite Hb. reflexivity.
  - intros t t' Ha Hm Hb. rewrite Ha. tidy.
    rewrite <- app_assoc. cbn [app]. rewrite Hm. tidy.
    rewrite <- app_assoc. cbn [app]. rewrite Hb. reflexivity.
Qed.

(** X20.  [updateBalance] never throws and reads the chain at most three
    times.  With the component mounted throughout it always ends with a
    balance written: the lamports of a read that answered, in SOL, or 0
    when the last read of the balance failed.  It tests whether the
    component is still mounted once after the account was read, or after
    the failure of that read was logged, and a second time only after a
    failed second read was logged; a test that finds it unmounted ends
    the run there with the balance as it was.  After a test that found
    it mounted the balance is written without a further test: the
    lamports of the account when it was found; else what [getBalance]
    answers, and when that read was the fallback after a failure, 0 if
    it fails too.  So the write that follows a read of the balance is
    made whatever [isMounted] holds by then, also for a component
    unmounted while that read was awaited. *)
Theorem updateBalance_settles (s0 : Balance.State) :
  let run := updateBalance w s0 in
  let h0 := Balance.log s0 in
  let answered := h0 ++ [Balance.Called getAccountInfo None] in
  let failed t :=
    h0 ++ [ Balance.Called getAccountInfo (Some t);
            Balance.Called (console_error (js "Failed to fetch balance:") t) None ] in
  let retried t :=
    answered ++ [ Balance.Called getBalance (Some t);
                  Balance.Called (console_error (js "Failed to fetch balance:") t) None ] in
  fst run = Normal tt
  /\ (exists new,
        Balance.log (snd run) = Balance.log s0 ++ new
        /\ (1 <= List.length (filter isRead new) <= 3)%nat)
  /\ ((forall h, isMounted w h = true) ->
      exists b,
        walletBalance (snd run) = Some b
        /\ ((exists h lamports,
               (answerAccountInfo w h = Normal (Some lamports)
                \/ answerBalance w h = Normal lamports)
               /\ b = toSol lamports)
            \/ (b = Finite 0 /\ exists h t, answerBalance w h = Throw t)))
  /\ (forall info,
        answerAccountInfo w h0 = Normal info -> isMounted w answered = false ->
        walletBalance (snd run) = walletBalance s0 /\ Balance.log (snd run) = answered)
  /\ (forall t,
        answerAccountInfo w h0 = Throw t -> isMounted w (failed t) = false ->
        walletBalance (snd run) = walletBalance s0 /\ Balance.log (snd run) = failed t)
  /\ (forall t,
        answerAccountInfo w h0 = Normal None -> isMounted w answered = true ->
        answerBalance w answered = Throw t -> isMounted w (retried t) = false ->
        walletBalance (snd run) = walletBalance s0 /\ Balance.log (snd run) = retried t)
  /\ (forall lamports,
        answerAccountInfo w h0 = Normal None -> isMounted w answered = true ->
        answerBalance w answered = Normal lamports ->
        walletBalance (snd run) = Some (toSol lamports)
        /\ Balance.log (snd run) = answered ++ [Balance.Called getBalance None])
  /\ (forall lamports,
        answerAccountInfo w h0 = Normal (Some lamports) -> isMounted w answered = true ->
        walletBalance (snd run) = Some (toSol lamports))
  /\ (forall t lamports,
        answerAccountInfo w h0 = Normal None -> isMounted w answered = true ->
        answerBalance w answered = Throw t -> isMounted w (retried t) = true ->
        answerBalance w (retried t) = Normal lamports ->
        walletBalance (snd run) = Some (toSol lamports))
  /\ (forall t t',
        answerAccountInfo w h0 = Normal None -> isMounted w answered = true ->
        answerBalance w answered = Throw t -> isMounted w (retried t) = true ->
        answerBalance w (retried t) = Throw t' ->
        walletBalance (snd run) = Some (Finite 0))
  /\ (forall t lamports,
        answerAccountInfo w h0 = Throw t -> isMounted w (failed t) = true ->
        answerBalance w (failed t) = Normal lamports ->
        walletBalance (snd run) = Some (toSol lamports))
  /\ (forall t t',
        answerAccountInfo w h0 = Throw t -> isMounted w (failed t) = true ->
        answerBalance w (failed t) = Throw t' ->
        walletBalance (snd run) = Some (Finite 0)).
Proof.
  cbv zeta.
  destruct (updateBalance_runs s0) as (H1 & H2 & H3).
  destruct (updateBalance_tests s0) as (H4 & H5 & H6 & H7).
  destruct (updateBalance_writes s0) as (H8 & H9 & H10 & H11 & H12).
  repeat (split; [assumption|]). assumption.
Qed.

(** X21.  A refresh that fails leaves the balance as it was and only writes
    a line on the console; one that succeeds shows what was read.
    Without a wallet nothing is read at all. *)
Theorem refreshBalance_keeps (s0 : Balance.State) (connected : bool) :
  let run := refreshBalance w connected s0 in
  fst run = Normal tt
  /\ (connected = false -> snd run = s0)
  /\ (connected = true ->
      match answerBalance w (Balance.log s0) with
      | Normal lamports => walletBalance (snd run) = Some (toSol lamports)
      | Throw t =>
        walletBalance (snd run) = walletBalance s0
        /\ Balance.log (snd run)
           = Balance.log s0
             ++ [ Balance.Called getBalance (Some t);
                  Balance.Called (console_error (js "Failed to refresh balance:") t)
                    None ]
      end).
Proof.
  cbv zeta. destruct connected; cbn [negb].
  - unfold refreshBalance, tryCatch, bind, Balance.consoleError, Balance.perform,
      setWalletBalance, update. cbn [negb].
    destruct (answerBalance w (Balance.log s0)) as [lamports|t];
      cbn [fst snd walletBalance Balance.log Balance.logged thrownBy].
    + split; [reflexivity|]. split; [discriminate | reflexivity].
    + split; [reflexivity|]. split; [discriminate|]. intros _.
      rewrite <- app_assoc. split; reflexivity.
  - split; [reflexivity|]. split; [reflexivity | discriminate].
Qed.

End Observing.

Section Unreadable.
Context {E : Engine}.

(** X22.  When no read of the chain can be answered, the observer shows a
    balance of 0, not an unknown one; and with a balance of 0 shown,
    [createToken] makes no call at all and ends with an error, whatever
    the form holds. *)
Theorem unreadable_balance_blocks_launch (w : Balance.World) (s : Balance.State)
  (chain : Page.World) (props : Page.Props) (s0 : Page.State) :
  (forall h, exists t, answerAccountInfo w h = Throw t) ->
  (forall h, exists t, answerBalance w h = Throw t) ->
  (forall h, isMounted w h = true) ->
  Page.walletBalance props = shown (walletBalance (snd (updateBalance w s))) ->
  walletBalance (snd (updateBalance w s)) = Some (Finite 0)
  /\ Page.statusType (snd (Page.createToken chain props s0)) = Page.error
  /\ Page.log (snd (Page.createToken chain props s0)) = Page.log s0.
Proof.
  intros Hinfo Hbal Hm Hshown.
  assert (Hzero : walletBalance (snd (updateBalance w s)) = Some (Finite 0)).
  { unfold updateBalance, tryCatch, bind, Balance.consoleError, Balance.perform, mounted,
      setWalletBalance, update, ret.
    destruct (Hinfo (Balance.log s)) as [t ->].
    cbn [Balance.log Balance.logged walletBalance thrownBy fst snd].
    rewrite Hm.
    match goal with
    | |- context [answerBalance w ?h] => destruct (Hbal h) as [t' ->]
    end.
    reflexivity. }
  split; [exact Hzero|].
  rewrite Hzero in Hshown. cbn [shown] in Hshown.
  destruct (PageProofs.createToken_cases chain props s0)
    as [((_ & _ & Hb) & _) | (_ & _ & Hty & Hlog & _)]; [|auto].
  exfalso. specialize (Hb _ Hshown). revert Hb. unfold threshold, Qle. cbn. lia.
Qed.

End Unreadable.

Lemma updateBalance_settles_witness :
  let run := updateBalance leaving {| walletBalance := None; Balance.log := [] |} in
  isMounted leaving [Balance.Called getAccountInfo None] = true
  /\ isMounted leaving (Balance.log (snd run)) = false
  /\ walletBalance (snd run) = Some (toSol 5000000000).
Proof.
  intros run.
  destruct (updateBalance_settles leaving {| walletBalance := None; Balance.log := [] |})
    as (_ & _ & _ & _ & _ & _ & Hwrite & _).
  destruct (Hwrite 5000000000%Q) as [Hb Hlog]; [reflexivity | reflexivity | reflexivity |].
  split; [reflexivity|]. split; [|exact Hb].
  unfold run. rewrite Hlog. reflexivity.
Defined.

Lemma unreadable_balance_blocks_launch_witness :
  walletBalance (snd (updateBalance unreachable {| walletBalance := None; Balance.log := [] |}))
  = Some (Finite 0)
  /\ Page.statusType
       (snd (@Page.createToken basicLatinEngine Fixtures.calmWorld
               (Fixtures.connected (Fixtures.tokenForm "") (Some 0%Q)) Fixtures.fresh))
     = Page.error
  /\ Page.log
       (snd (@Page.createToken basicLatinEngine Fixtures.calmWorld
               (Fixtures.connected (Fixtures.tokenForm "") (Some 0%Q)) Fixtures.fresh))
     = Page.log Fixtures.fresh.
Proof.
  apply (@unreadable_balance_blocks_launch basicLatinEngine unreachable
           {| walletBalance := None; Balance.log := [] |} Fixtures.calmWorld
           (Fixtures.connected (Fixtures.tokenForm "") (Some 0%Q)) Fixtures.fresh).
  - intros h. eexists. reflexivity.
  - intros h. eexists. reflexivity.
  - reflexivity.
  - reflexivity.
Defined.

End BalanceProofs.

(* ===================================================================== *)
(** * The upload route: what reaches the pinning service                  *)
(* ===================================================================== *)

Module PinningProofs.
Import JS Spec JSFacts Expect Route RouteProofs.
Local Open Scope effect_scope.

Section Pinning.
Context {E : Engine}.
Variable env : Env.
Variable w : World.

(** X23.  The test [POST] makes before anything else and the headers built
    later agree: [getPinataAuthHeaders] finds credentials exactly when
    [POST] found some, so its own error is never raised under [POST].
    With a key and its secret set the token is not sent, even when one
    is set too. *)
Theorem credentials_agree :
  (configured env = true <-> getPinataAuthHeaders env = Normal (credentials env))
  /\ (configured env = false <->
      getPinataAuthHeaders env = Throw (ErrorObj (js "No Pinata credentials configured")))
  /\ (truthy (trimmed (PINATA_API_KEY env)) = true ->
      truthy (trimmed (PINATA_API_SECRET env)) = true ->
      forall hs, getPinataAuthHeaders env = Normal hs ->
                 map fst hs = ["pinata_api_key"; "pinata_secret_api_key"]%string).
Proof.
  unfold configured, getPinataAuthHeaders, credentials.
  destruct (truthy (trimmed (PINATA_API_KEY env)));
    destruct (truthy (trimmed (PINATA_API_SECRET env)));
    destruct (truthy (trimmed (PINATA_JWT env))); cbn [andb orb].
  all: split; [split; intros H; first [reflexivity | discriminate H]|].
  all: split; [split; intros H; first [reflexivity | discriminate H]|].
  all: intros H1 H2 hs H; first [discriminate | injection H as <-; reflexivity].
Qed.

Lemma configured_credentials :
  configured env = true -> getPinataAuthHeaders env = Normal (credentials env).
Proof.
  unfold configured, getPinataAuthHeaders, credentials.
  destruct (truthy (trimmed (PINATA_API_KEY env)));
    destruct (truthy (trimmed (PINATA_API_SECRET env)));
    destruct (truthy (trimmed (PINATA_JWT env))); cbn [andb orb];
    intros H; first [reflexivity | discriminate H].
Qed.

Lemma uploadFileToPinata_cases image h :
  configured env = true ->
  uploadFileToPinata env w image h
  = match answerFetch w h PINATA_FILE_ENDPOINT (credentials env)
            (FormBody image (filenameOf image)) with
    | Throw t => (Throw t, h ++ [fileRequest env image (Some t)])
    | Normal r =>
      if ok r then
        match json r with
        | Normal data => (hashOf data, h ++ [fileRequest env image None])
        | Throw t => (Throw t, h ++ [fileRequest env image None])
        end
      else
        match text r with
        | Normal detail =>
          (Throw (ErrorObj (js "Failed to upload image to IPFS")),
           h ++ [ fileRequest env image None;
                  console_error (js "Pinata file upload error:") (LoggedText detail) ])
        | Throw t => (Throw t, h ++ [fileRequest env image None])
        end
    end.
Proof.
  intros Hc. unfold uploadFileToPinata, bind, lift, doFetch, throw, ret, consoleError,
    update, fileRequest, filenameOf.
  rewrite (configured_credentials Hc).
  destruct (answerFetch w h PINATA_FILE_ENDPOINT (credentials env) _) as [r|t];
    [|reflexivity].
  destruct (ok r); cbn [negb thrownBy].
  - destruct (json r); reflexivity.
  - destruct (text r); [|reflexivity]. rewrite <- app_assoc. reflexivity.
Qed.

Lemma uploadJsonToPinata_cases document h :
  configured env = true ->
  uploadJsonToPinata env w document h
  = match answerFetch w h PINATA_JSON_ENDPOINT
            (credentials env ++ [("Content-Type"%string, js "application/json")])
            (JsonBody document) with
    | Throw t => (Throw t, h ++ [jsonRequest env document (Some t)])
    | Normal r =>
      if ok r then
        match json r with
        | Normal data => (hashOf data, h ++ [jsonRequest env document None])
        | Throw t => (Throw t, h ++ [jsonRequest env document None])
        end
      else
        match text r with
        | Normal detail =>
          (Throw (ErrorObj (js "Failed to upload metadata to IPFS")),
           h ++ [ jsonRequest env document None;
                  console_error (js "Pinata JSON upload error:") (LoggedText detail) ])
        | Throw t => (Throw t, h ++ [jsonRequest env document None])
        end
    end.
Proof.
  intros Hc. unfold uploadJsonToPinata, bind, lift, doFetch, throw, ret, consoleError,
    update, jsonRequest.
  rewrite (configured_credentials Hc).
  destruct (answerFetch w h PINATA_JSON_ENDPOINT _ _) as [r|t]; [|reflexivity].
  destruct (ok r); cbn [negb thrownBy].
  - destruct (json r); reflexivity.
  - destruct (text r); [|reflexivity]. rewrite <- app_assoc. reflexivity.
Qed.

Lemma POST_passing request h fd :
  configured env = true -> formData request = Normal fd -> ruleFails fd = false ->
  exists image,
    get fd (js "image") = Some (Blob image)
    /\ POST env w request h = uploads env w fd image h.
Proof.
  intros Hc Hfd Hrule. unfold ruleFails in Hrule.
  destruct (get fd (js "image")) as [[s|image]|] eqn:Hg; try discriminate Hrule.
  exists image. split; [reflexivity|].
  repeat (apply orb_false_iff in Hrule; destruct Hrule as [Hrule ?]).
  unfold POST, uploads, handle.
  rewrite <- negb_orb. fold (configured env). rewrite Hc. cbn [negb].
  unfold tryCatch, bind at 1. unfold lift at 1. rewrite Hfd. cbv beta iota.
  rewrite Hg.
  unfold MAX_FILE_SIZE, ALLOWED_TYPES, MAX_NAME_LENGTH, MAX_SYMBOL_LENGTH,
    MAX_DESCRIPTION_LENGTH.
  repeat match goal with
         | H : ?c = false |- context [if ?c then _ else _] => rewrite H
         end.
  reflexivity.
Qed.

Lemma hashOf_some data hash : hashOf data = Normal hash -> IpfsHash data = Some hash.
Proof.
  unfold hashOf. destruct (IpfsHash data) as [x|]; [|discriminate].
  destruct (truthy x); [|discriminate]. intros H. injection H as <-. reflexivity.
Qed.

(** The two uploads: the image stage fails, or the document stage
    fails, or both succeed. *)
Lemma uploads_run fd image h :
  configured env = true ->
  exists response new,
    uploads env w fd image h = (Normal response, h ++ new)
    /\ ((exists thr t,
           filter isFetch new = [fileRequest env image thr]
           /\ response
              = errorResponse (messageOr (js "Upload failed. Please try again.") t) 500
           /\ In (console_error (js "Upload error:") (LoggedThrown t)) new)
        \/ (exists r1 d1 imageCid,
              answerFetch w h PINATA_FILE_ENDPOINT (credentials env)
                (FormBody image (filenameOf image)) = Normal r1
              /\ ok r1 = true /\ json r1 = Normal d1 /\ hashOf d1 = Normal imageCid
              /\ ((exists thr t,
                     filter isFetch new
                     = [ fileRequest env image None;
                         jsonRequest env (documentFor fd image imageCid) thr ]
                     /\ response
                        = errorResponse
                            (messageOr (js "Upload failed. Please try again.") t) 500
                     /\ In (console_error (js "Upload error:") (LoggedThrown t)) new)
                  \/ (exists r2 d2 metadataCid,
                        answerFetch w (h ++ [fileRequest env image None])
                          PINATA_JSON_ENDPOINT
                          (credentials env
                           ++ [("Content-Type"%string, js "application/json")])
                          (JsonBody (documentFor fd image imageCid)) = Normal r2
                        /\ ok r2 = true /\ json r2 = Normal d2
                        /\ hashOf d2 = Normal metadataCid
                        /\ new = [ fileRequest env image None;
                                   jsonRequest env (documentFor fd image imageCid) None ]
                        /\ response = {| httpStatus := 200;
                                         httpBody := successBody imageCid metadataCid |})))).
Proof.
  intros Hc. unfold uploads, tryCatch, bind.
  rewrite (uploadFileToPinata_cases image h Hc).
  unfold consoleError, update, ret.
  destruct (answerFetch w h PINATA_FILE_ENDPOINT (credentials env) _) as [r1|t] eqn:H1.
  2:{ do 2 eexists. rewrite <- app_assoc. split; [reflexivity|].
      left. exists (Some t), t. cbn [app filter isFetch fileRequest jsonRequest In]. auto 12. }
  destruct (ok r1) eqn:Hok1.
  2:{ destruct (text r1) as [detail|t].
      - do 2 eexists. rewrite <- app_assoc. split; [reflexivity|].
        left. exists None, (ErrorObj (js "Failed to upload image to IPFS")).
        cbn [app filter isFetch fileRequest jsonRequest In]. auto 12.
      - do 2 eexists. rewrite <- app_assoc. split; [reflexivity|].
        left. exists None, t. cbn [app filter isFetch fileRequest jsonRequest In]. auto 12. }
  destruct (json r1) as [d1|t] eqn:Hj1.
  2:{ do 2 eexists. rewrite <- app_assoc. split; [reflexivity|].
      left. exists None, t. cbn [app filter isFetch fileRequest jsonRequest In]. auto 12. }
  destruct (hashOf d1) as [imageCid|t] eqn:Hh1.
  2:{ do 2 eexists. rewrite <- app_assoc. split; [reflexivity|].
      left. exists None, t. cbn [app filter isFetch fileRequest jsonRequest In]. auto 12. }
  rewrite (uploadJsonToPinata_cases (documentFor fd image imageCid) _ Hc).
  destruct (answerFetch w (h ++ [fileRequest env image None]) PINATA_JSON_ENDPOINT _ _)
    as [r2|t] eqn:H2.
  2:{ do 2 eexists. rewrite <- !app_assoc. split; [reflexivity|].
      right. exists r1, d1, imageCid. repeat (split; [reflexivity || assumption|]).
      left. exists (Some t), t. cbn [app filter isFetch fileRequest jsonRequest In]. auto 12. }
  destruct (ok r2) eqn:Hok2.
  2:{ destruct (text r2) as [detail|t].
      - do 2 eexists. rewrite <- !app_assoc. split; [reflexivity|].
        right. exists r1, d1, imageCid. repeat (split; [reflexivity || assumption|]).
        left. exists None, (ErrorObj (js "Failed to upload metadata to IPFS")).
        cbn [app filter isFetch fileRequest jsonRequest In]. auto 12.
      - do 2 eexists. rewrite <- !app_assoc. split; [reflexivity|].
        right. exists r1, d1, imageCid. repeat (split; [reflexivity || assumption|]).
        left. exists None, t. cbn [app filter isFetch fileRequest jsonRequest In]. auto 12. }
  destruct (json r2) as [d2|t] eqn:Hj2.
  2:{ do 2 eexists. rewrite <- !app_assoc. split; [reflexivity|].
      right. exists r1, d1, imageCid. repeat (split; [reflexivity || assumption|]).
      left. exists None, t. cbn [app filter isFetch fileRequest jsonRequest In]. auto 12. }
  destruct (hashOf d2) as [metadataCid|t] eqn:Hh2.
  2:{ do 2 eexists. rewrite <- !app_assoc. split; [reflexivity|].
      right. exists r1, d1, imageCid. repeat (split; [reflexivity || assumption|]).
      left. exists None, t. cbn [app filter isFetch fileRequest jsonRequest In]. auto 12. }
  do 2 eexists. rewrite <- !app_assoc. split; [reflexivity|].
  right. exists r1, d1, imageCid. repeat (split; [reflexivity || assumption|]).
  right. exists r2, d2, metadataCid. auto 10.
Qed.

Lemma hashOf_pinned data cid :
  hashOf data = Normal cid -> IpfsHash data = Some cid /\ cid <> [].
Proof.
  unfold hashOf. destruct (IpfsHash data) as [x|]; [|discriminate].
  destruct x as [|c x]; cbn [truthy]; [discriminate|].
  intros H. injection H as <-. split; [reflexivity | discriminate].
Qed.

Lemma pinned_hashOf cid : cid <> [] -> truthy cid = true.
Proof. destruct cid; [contradiction | reflexivity]. Qed.

(** The uploads when the image upload fails. *)
Lemma uploads_image_failure fd image h :
  configured env = true -> upstreamFailure (imageAnswer env w h image) ->
  exists response,
    fst (uploads env w fd image h) = Normal response /\ httpStatus response = 500%Z.
Proof.
  intros Hc Hfail. unfold uploads, tryCatch, bind.
  rewrite (uploadFileToPinata_cases image h Hc).
  unfold imageAnswer, upstreamFailure in Hfail.
  destruct (answerFetch w h PINATA_FILE_ENDPOINT (credentials env)
              (FormBody image (filenameOf image))) as [r|t].
  2:{ eexists. split; reflexivity. }
  destruct (ok r).
  2:{ destruct (text r); eexists; split; reflexivity. }
  destruct Hfail as [Hf|Hf]; [discriminate Hf|].
  destruct (json r) as [d|t]; [|eexists; split; reflexivity].
  unfold hashOf. destruct Hf as [-> | ->]; eexists; split; reflexivity.
Qed.

(** The uploads when the image is pinned and the upload of the document
    fails. *)
Lemma uploads_document_failure fd image h imageCid :
  configured env = true -> pinnedAs (imageAnswer env w h image) imageCid ->
  upstreamFailure (documentAnswer env w h fd image imageCid) ->
  exists response,
    fst (uploads env w fd image h) = Normal response /\ httpStatus response = 500%Z.
Proof.
  intros Hc (r1 & d1 & H1 & Hok1 & Hj1 & Hh1 & Hne1) Hfail.
  unfold uploads, tryCatch, bind.
  rewrite (uploadFileToPinata_cases image h Hc).
  unfold imageAnswer in H1. rewrite H1, Hok1, Hj1.
  unfold hashOf at 1. rewrite Hh1, (pinned_hashOf _ Hne1).
  rewrite (uploadJsonToPinata_cases (documentFor fd image imageCid) _ Hc).
  unfold documentAnswer, upstreamFailure in Hfail.
  destruct (answerFetch w (h ++ [fileRequest env image None]) PINATA_JSON_ENDPOINT
              (credentials env ++ [("Content-Type"%string, js "application/json")])
              (JsonBody (documentFor fd image imageCid))) as [r|t].
  2:{ eexists. split; reflexivity. }
  destruct (ok r).
  2:{ destruct (text r); eexists; split; reflexivity. }
  destruct Hfail as [Hf|Hf]; [discriminate Hf|].
  destruct (json r) as [d|t]; [|eexists; split; reflexivity].
  unfold hashOf. destruct Hf as [-> | ->]; eexists; split; reflexivity.
Qed.

(** The uploads when both go through. *)
Lemma uploads_pinned fd image h imageCid metadataCid :
  configured env = true -> pinnedAs (imageAnswer env w h image) imageCid ->
  pinnedAs (documentAnswer env w h fd image imageCid) metadataCid ->
  uploads env w fd image h
  = (Normal {| httpStatus := 200; httpBody := successBody imageCid metadataCid |},
     h ++ [ fileRequest env image None;
            jsonRequest env (documentFor fd image imageCid) None ]).
Proof.
  intros Hc (r1 & d1 & H1 & Hok1 & Hj1 & Hh1 & Hne1)
    (r2 & d2 & H2 & Hok2 & Hj2 & Hh2 & Hne2).
  unfold uploads, tryCatch, bind.
  rewrite (uploadFileToPinata_cases image h Hc).
  unfold imageAnswer in H1. rewrite H1, Hok1, Hj1.
  unfold hashOf at 1. rewrite Hh1, (pinned_hashOf _ Hne1).
  rewrite (uploadJsonToPinata_cases (documentFor fd image imageCid) _ Hc).
  unfold documentAnswer in H2. rewrite H2, Hok2, Hj2.
  unfold hashOf. rewrite Hh2, (pinned_hashOf _ Hne2).
  unfold ret. rewrite <- app_assoc. reflexivity.
Qed.

(** An answer with status 200: both uploads went through, and the
    answer names the two hashes. *)
Lemma POST_success (request : Request) (h new : history) (response : HttpResponse) :
  POST env w request h = (Normal response, h ++ new) ->
  httpStatus response = 200%Z ->
  exists fd image r1 d1 imageCid r2 d2 metadataCid,
    configured env = true /\ formData request = Normal fd /\ ruleFails fd = false
    /\ get fd (js "image") = Some (Blob image)
    /\ imageAnswer env w h image = Normal r1
    /\ ok r1 = true /\ json r1 = Normal d1
    /\ IpfsHash d1 = Some imageCid /\ imageCid <> []
    /\ documentAnswer env w h fd image imageCid = Normal r2
    /\ ok r2 = true /\ json r2 = Normal d2
    /\ IpfsHash d2 = Some metadataCid /\ metadataCid <> []
    /\ new = [ fileRequest env image None;
               jsonRequest env (documentFor fd image imageCid) None ]
    /\ response = {| httpStatus := 200; httpBody := successBody imageCid metadataCid |}.
Proof.
  intros Hrun Hst.
  destruct (configured env) eqn:Hc.
  2:{ rewrite (POST_unconfigured env w request h Hc) in Hrun.
      injection Hrun as <- _. discriminate Hst. }
  destruct (formData request) as [fd|t] eqn:Hfd.
  2:{ destruct (POST_outcome env w request h Hc) as (response' & new' & Hrun' & Hcases).
      rewrite Hrun in Hrun'. injection Hrun' as <- _.
      destruct Hcases as [(t' & _ & -> & _) | [(fd & Hfd' & _) | (fd & Hfd' & _)]];
        [discriminate Hst | congruence | congruence]. }
  destruct (ruleFails fd) eqn:Hrule.
  { destruct (POST_outcome env w request h Hc) as (response' & new' & Hrun' & Hcases).
    rewrite Hrun in Hrun'. injection Hrun' as <- _.
    destruct Hcases as [(t' & Hfd' & _) | [(fd' & _ & _ & Hst' & _)
                                          | (fd' & Hfd' & Hrule' & _)]];
      [congruence | rewrite Hst' in Hst; discriminate Hst | congruence]. }
  destruct (POST_passing request h fd Hc Hfd Hrule) as (image & Hg & Hpass).
  rewrite Hpass in Hrun.
  destruct (uploads_run fd image h Hc) as (response' & new' & Hup & Hcases).
  rewrite Hup in Hrun. injection Hrun as <- Hnew. apply app_inv_head in Hnew. subst new'.
  destruct Hcases
    as [(thr & t & _ & -> & _)
       | (r1 & d1 & imageCid & H1 & Hok & Hj & Hh
          & [(thr & t & _ & -> & _)
            | (r2 & d2 & metadataCid & H2 & Hok2 & Hj2 & Hh2 & -> & ->)])];
    [discriminate Hst | discriminate Hst |].
  exists fd, image, r1, d1, imageCid, r2, d2, metadataCid.
  destruct (hashOf_pinned _ _ Hh) as [Hh' Hne].
  destruct (hashOf_pinned _ _ Hh2) as [Hh2' Hne2].
  unfold imageAnswer, documentAnswer.
  repeat (split; [reflexivity || assumption|]). reflexivity.
Qed.

(** What the answer is when the form cannot be read, when an upload
    fails, and when both go through. *)
Lemma POST_upstream (request : Request) (h new : history) (response : HttpResponse) :
  POST env w request h = (Normal response, h ++ new) ->
  (forall t, formData request = Throw t ->
     httpStatus response = 500%Z /\ filter isFetch new = [])
  /\ (forall fd image,
        configured env = true -> formData request = Normal fd -> ruleFails fd = false ->
        get fd (js "image") = Some (Blob image) ->
        (upstreamFailure (imageAnswer env w h image) -> httpStatus response = 500%Z)
        /\ (forall imageCid,
              pinnedAs (imageAnswer env w h image) imageCid ->
              (upstreamFailure (documentAnswer env w h fd image imageCid) ->
               httpStatus response = 500%Z)
              /\ (forall metadataCid,
                    pinnedAs (documentAnswer env w h fd image imageCid) metadataCid ->
                    httpStatus response = 200%Z
                    /\ httpBody response
                       = JObject
                           [ ("success"%string, JBool true);
                             ("imageUrl"%string,
                                JString (js "https://gateway.pinata.cloud/ipfs/"
                                         ++ imageCid));
                             ("metadataUrl"%string,
                                JString (js "https://gateway.pinata.cloud/ipfs/"
                                         ++ metadataCid)) ]))).
Proof.
  intros Hrun. split.
  - intros t Hfd.
    destruct (configured env) eqn:Hc.
    + destruct (POST_outcome env w request h Hc) as (response' & new' & Hrun' & Hcases).
      rewrite Hrun in Hrun'. injection Hrun' as <- Hnew. apply app_inv_head in Hnew.
      subst new'.
      destruct Hcases as [(t' & _ & -> & ->) | [(fd & Hfd' & _) | (fd & Hfd' & _)]];
        [split; reflexivity | congruence | congruence].
    + rewrite (POST_unconfigured env w request h Hc) in Hrun.
      injection Hrun as <- Hnew. rewrite <- (app_nil_r h) in Hnew at 1.
      apply app_inv_head in Hnew. subst new. split; reflexivity.
  - intros fd image Hc Hfd Hrule Hg.
    destruct (POST_passing request h fd Hc Hfd Hrule) as (image' & Hg' & Hpass).
    assert (image' = image) by congruence. subst image'.
    rewrite Hpass in Hrun.
    split.
    + intros Hfail.
      destruct (uploads_image_failure fd image h Hc Hfail) as (r & Hr & Hst).
      rewrite Hrun in Hr. cbn [fst] in Hr. injection Hr as <-. exact Hst.
    + intros imageCid Hpin. split.
      * intros Hfail.
        destruct (uploads_document_failure fd image h imageCid Hc Hpin Hfail)
          as (r & Hr & Hst).
        rewrite Hrun in Hr. cbn [fst] in Hr. injection Hr as <-. exact Hst.
      * intros metadataCid Hpin'.
        rewrite (uploads_pinned fd image h imageCid metadataCid Hc Hpin Hpin') in Hrun.
        injection Hrun as <- _. split; reflexivity.
Qed.

(** X24.  What reaches the pinning service in answering one request: nothing;
    or the image alone, sent to the file endpoint under its own name
    ([token-image] when it has none); or the image and then the
    document, sent to the JSON endpoint only after the image upload was
    answered ok with a hash, the document naming the gateway address of
    that hash as its image.  Both carry the configured credentials and
    nothing else but, for the document, its content type. *)
Theorem pinning_requests (request : Request) (h new : history) :
  snd (POST env w request h) = h ++ new ->
  filter isFetch new = []
  \/ exists fd image,
       configured env = true /\ formData request = Normal fd
       /\ get fd (js "image") = Some (Blob image) /\ ruleFails fd = false
       /\ ((exists thr, filter isFetch new = [fileRequest env image thr])
           \/ exists r1 d1 imageCid thr,
                answerFetch w h PINATA_FILE_ENDPOINT (credentials env)
                  (FormBody image (filenameOf image)) = Normal r1
                /\ ok r1 = true /\ json r1 = Normal d1 /\ hashOf d1 = Normal imageCid
                /\ filter isFetch new
                   = [ fileRequest env image None;
                       jsonRequest env (documentFor fd image imageCid) thr ]).
Proof.
  intros Hlog.
  destruct (configured env) eqn:Hc.
  2:{ rewrite (POST_unconfigured env w request h Hc) in Hlog. cbn [snd] in Hlog.
      rewrite <- (app_nil_r h) in Hlog at 1. apply app_inv_head in Hlog. subst new.
      left. reflexivity. }
  destruct (formData request) as [fd|t] eqn:Hfd.
  2:{ destruct (POST_outcome env w request h Hc) as (response & new' & Hrun & Hcases).
      rewrite Hrun in Hlog. cbn [snd] in Hlog. apply app_inv_head in Hlog. subst new'.
      destruct Hcases as [(t' & _ & _ & ->) | [(fd & Hfd' & _) | (fd & Hfd' & _)]];
        [left; reflexivity | congruence | congruence]. }
  destruct (ruleFails fd) eqn:Hrule.
  { destruct (POST_outcome env w request h Hc) as (response & new' & Hrun & Hcases).
    rewrite Hrun in Hlog. cbn [snd] in Hlog. apply app_inv_head in Hlog. subst new'.
    destruct Hcases as [(t' & Hfd' & _) | [(fd' & _ & _ & _ & _ & ->)
                                          | (fd' & Hfd' & Hrule' & _)]];
      [congruence | left; reflexivity | congruence]. }
  destruct (POST_passing request h fd Hc Hfd Hrule) as (image & Hg & Hrun).
  rewrite Hrun in Hlog.
  destruct (uploads_run fd image h Hc) as (response & new' & Hup & Hcases).
  rewrite Hup in Hlog. cbn [snd] in Hlog. apply app_inv_head in Hlog. subst new'.
  right. exists fd, image. repeat (split; [reflexivity || assumption|]).
  destruct Hcases as [(thr & t & Hf & _)
                     | (r1 & d1 & imageCid & H1 & Hok & Hj & Hh
                        & [(thr & t & Hf & _) | (r2 & d2 & metadataCid & _ & _ & _ & _ & -> & _)])].
  - left. eauto.
  - right. exists r1, d1, imageCid, thr. auto.
  - right. exists r1, d1, imageCid, None. auto.
Qed.


(** X26.  An answer with status 200 means both uploads were answered ok with
    a hash that is not empty, and nothing else was sent or logged.  The
    image URL returned is the gateway address of the hash answered for
    the image, and it is the address the pinned document names; the
    metadata URL returned is the gateway address of the hash answered
    for that document. *)
Theorem success_links (request : Request) (h new : history) (response : HttpResponse) :
  POST env w request h = (Normal response, h ++ new) ->
  httpStatus response = 200%Z ->
  exists fd image r1 d1 imageCid r2 d2 metadataCid,
    formData request = Normal fd /\ get fd (js "image") = Some (Blob image)
    /\ answerFetch w h PINATA_FILE_ENDPOINT (credentials env)
         (FormBody image (filenameOf image)) = Normal r1
    /\ ok r1 = true
    /\ json r1 = Normal d1 /\ IpfsHash d1 = Some imageCid /\ imageCid <> []
    /\ answerFetch w (h ++ [fileRequest env image None]) PINATA_JSON_ENDPOINT
         (credentials env ++ [("Content-Type"%string, js "application/json")])
         (JsonBody (documentFor fd image imageCid)) = Normal r2
    /\ ok r2 = true
    /\ json r2 = Normal d2 /\ IpfsHash d2 = Some metadataCid /\ metadataCid <> []
    /\ new = [ fileRequest env image None;
               jsonRequest env (documentFor fd image imageCid) None ]
    /\ httpBody response
       = JObject [ ("success"%string, JBool true);
                   ("imageUrl"%string, JString (gateway ++ imageCid));
                   ("metadataUrl"%string, JString (gateway ++ metadataCid)) ]
    /\ Publisher.stringAt "image" (documentFor fd image imageCid)
       = Some (gateway ++ imageCid).
Proof.
  intros Hrun Hst.
  destruct (POST_success request h new response Hrun Hst)
    as (fd & image & r1 & d1 & imageCid & r2 & d2 & metadataCid
        & _ & Hfd & _ & Hg & H1 & Hok1 & Hj1 & Hh1 & Hne1
        & H2 & Hok2 & Hj2 & Hh2 & Hne2 & Hnew & ->).
  exists fd, image, r1, d1, imageCid, r2, d2, metadataCid.
  unfold imageAnswer in H1. unfold documentAnswer in H2.
  repeat (split; [reflexivity || assumption|]).
  unfold documentFor, buildMetadata, Publisher.stringAt.
  match goal with
  | |- context [lookup "extensions" ?l] => destruct (lookup "extensions" l) as [[]|]
  end; try reflexivity.
  match goal with
  | |- context [if ?c then _ else _] => destruct c
  end; reflexivity.
Qed.

(** C8 (amended).  The endpoint always answers, with status 200, 400 or
    500.  It answers 400 exactly when credentials are configured, the
    form can be read and a validation rule is broken (image absent, over
    5 MB or of another type than the four accepted; name empty or over
    32; symbol empty or over 10; description over 200; all read on the
    trimmed fields), and then nothing is sent.  It answers 500 exactly
    when credentials are missing or something was thrown while handling
    the request.  That includes a form that cannot be read, and, for a
    readable form that breaks no rule, every upstream failure: an
    upload of the image or of the document that throws, is answered not
    ok, or is answered ok without a readable body holding a hash that
    is not empty.  Every answer but 200 carries a JSON error body.  It
    answers 200 exactly when both uploads went through, and then the
    body holds the gateway address of the hash answered for the image as
    image URL and the gateway address of the hash answered for the
    document as metadata URL, and the two requests are all that was
    done. *)
Theorem POST_statuses (request : Request) (h : history) :
  exists response new,
    POST env w request h = (Normal response, h ++ new)
    /\ (httpStatus response = 200 \/ httpStatus response = 400
        \/ httpStatus response = 500)%Z
    /\ (httpStatus response = 400%Z <->
        configured env = true
        /\ exists fd, formData request = Normal fd /\ ruleFails fd = true)
    /\ (httpStatus response = 400%Z -> new = [])
    /\ (httpStatus response = 500%Z <->
        configured env = false
        \/ exists t, In (console_error (js "Upload error:") (LoggedThrown t)) new)
    /\ ((exists url headers body t, In (fetch url headers body (Some t)) new) ->
        httpStatus response = 500%Z)
    /\ (httpStatus response <> 200%Z -> isErrorBody (httpBody response))
    /\ (forall t, formData request = Throw t ->
          httpStatus response = 500%Z /\ filter isFetch new = [])
    /\ (forall fd image,
          configured env = true -> formData request = Normal fd ->
          ruleFails fd = false -> get fd (js "image") = Some (Blob image) ->
          (upstreamFailure (imageAnswer env w h image) -> httpStatus response = 500%Z)
          /\ (forall imageCid,
                pinnedAs (imageAnswer env w h image) imageCid ->
                (upstreamFailure (documentAnswer env w h fd image imageCid) ->
                 httpStatus response = 500%Z)
                /\ (forall metadataCid,
                      pinnedAs (documentAnswer env w h fd image imageCid) metadataCid ->
                      httpStatus response = 200%Z
                      /\ httpBody response
                         = JObject
                             [ ("success"%string, JBool true);
                               ("imageUrl"%string,
                                  JString (js "https://gateway.pinata.cloud/ipfs/"
                                           ++ imageCid));
                               ("metadataUrl"%string,
                                  JString (js "https://gateway.pinata.cloud/ipfs/"
                                           ++ metadataCid)) ])))
    /\ (httpStatus response = 200%Z ->
        exists fd image imageCid metadataCid,
          configured env = true /\ formData request = Normal fd
          /\ ruleFails fd = false /\ get fd (js "image") = Some (Blob image)
          /\ pinnedAs (imageAnswer env w h image) imageCid
          /\ pinnedAs (documentAnswer env w h fd image imageCid) metadataCid
          /\ httpBody response
             = JObject
                 [ ("success"%string, JBool true);
                   ("imageUrl"%string,
                      JString (js "https://gateway.pinata.cloud/ipfs/" ++ imageCid));
                   ("metadataUrl"%string,
                      JString (js "https://gateway.pinata.cloud/ipfs/" ++ metadataCid)) ]
          /\ new = [ fileRequest env image None;
                     jsonRequest env (documentFor fd image imageCid) None ]).
Proof.
  destruct (POST_status_cases env w request h)
    as (response & new & Hrun & H1 & H2 & H3 & H4 & H5 & H6 & _).
  exists response, new.
  destruct (POST_upstream request h new response Hrun) as [H7 H8].
  repeat (split; [assumption|]).
  intros Hst.
  destruct (POST_success request h new response Hrun Hst)
    as (fd & image & r1 & d1 & imageCid & r2 & d2 & metadataCid
        & Hc & Hfd & Hrule & Hg & Ha1 & Hok1 & Hj1 & Hh1 & Hne1
        & Ha2 & Hok2 & Hj2 & Hh2 & Hne2 & Hnew & ->).
  exists fd, image, imageCid, metadataCid.
  repeat (split; [assumption|]).
  split; [exists r1, d1; auto|]. split; [exists r2, d2; auto|].
  split; [reflexivity | exact Hnew].
Qed.

(** X27.  The metadata document has the keys name, symbol, description,
    image, attributes and properties, in that order, then [external_url]
    when a website is given, then [extensions] when a link is given, each
    key once.  The symbol is upper-cased, the attributes are empty, the
    properties name the image once more with its type, and
    [external_url], when present, is the website. *)
Theorem metadata_document_schema
  (name symbol description imageUrl imageType website twitter telegram : jsstring) :
  let document := buildMetadata name symbol description imageUrl imageType
                    website twitter telegram in
  keys document = documentKeys website twitter telegram
  /\ NoDup (keys document)
  /\ lookup "name" document = Some (JString name)
  /\ lookup "symbol" document = Some (JString (toUpperCase symbol))
  /\ lookup "description" document = Some (JString description)
  /\ lookup "image" document = Some (JString imageUrl)
  /\ lookup "attributes" document = Some (JArray [])
  /\ lookup "properties" document
     = Some (JObject
               [ ("files"%string,
                    JArray [ JObject [ ("uri"%string, JString imageUrl);
                                       ("type"%string, JString imageType) ] ]);
                 ("category"%string, JString (js "image")) ])
  /\ lookup "external_url" document
     = (if truthy website then Some (JString website) else None).
Proof.
  cbv zeta. unfold buildMetadata, documentKeys, extensionsOf, spreadIf.
  destruct (truthy website), (truthy twitter), (truthy telegram);
    cbn [app lookup keys map fst String.eqb Ascii.eqb Bool.eqb List.length Nat.eqb
         delete filter negb orb andb].
  all: repeat (split; [first [reflexivity | repeat constructor; cbn [In];
                                intuition discriminate]|]).
  all: reflexivity.
Qed.



End Pinning.

Lemma pinning_requests_witness :
  let run := @POST basicLatinEngine Fixtures.withToken (Fixtures.pinning "Qm")
               (Fixtures.upload "" "" "") [] in
  snd run = [] ++ snd run
  /\ (filter isFetch (snd run) = []
      \/ exists fd image,
           configured Fixtures.withToken = true
           /\ formData (Fixtures.upload "" "" "") = Normal fd
           /\ get fd (js "image") = Some (Blob image) /\ ruleFails fd = false
           /\ ((exists thr,
                  filter isFetch (snd run) = [fileRequest Fixtures.withToken image thr])
               \/ exists r1 d1 imageCid thr,
                    answerFetch (Fixtures.pinning "Qm") [] PINATA_FILE_ENDPOINT
                      (credentials Fixtures.withToken)
                      (FormBody image (filenameOf image)) = Normal r1
                    /\ ok r1 = true /\ json r1 = Normal d1
                    /\ hashOf d1 = Normal imageCid
                    /\ filter isFetch (snd run)
                       = [ fileRequest Fixtures.withToken image None;
                           jsonRequest Fixtures.withToken
                             (@documentFor basicLatinEngine fd image imageCid) thr ])).
Proof.
  intros run. split; [reflexivity|].
  apply (@pinning_requests basicLatinEngine Fixtures.withToken (Fixtures.pinning "Qm")
           (Fixtures.upload "" "" "") [] (snd run)).
  reflexivity.
Defined.


Lemma success_links_witness :
  let run := @POST basicLatinEngine Fixtures.withToken Sample.pinningBoth
               (Fixtures.upload "" "" "") [] in
  exists response,
    fst run = Normal response
    /\ httpStatus response = 200%Z
    /\ httpBody response
       = JObject [ ("success"%string, JBool true);
                   ("imageUrl"%string,
                      JString (js "https://gateway.pinata.cloud/ipfs/QmImage"));
                   ("metadataUrl"%string,
                      JString (js "https://gateway.pinata.cloud/ipfs/QmDocument")) ].
Proof.
  intros run.
  pose (response := {| httpStatus := 200;
                       httpBody := successBody (js "QmImage") (js "QmDocument") |}).
  assert (Hrun : run = (Normal response, [] ++ snd run)) by (vm_compute; reflexivity).
  destruct (@success_links basicLatinEngine Fixtures.withToken Sample.pinningBoth
              (Fixtures.upload "" "" "") [] (snd run) response Hrun eq_refl)
    as (fd & image & r1 & d1 & imageCid & r2 & d2 & metadataCid
        & _ & _ & H1 & _ & Hj1 & Hh1 & _ & H2 & _ & Hj2 & Hh2 & _ & _ & Hbody & _).
  exists response. split; [rewrite Hrun; reflexivity|]. split; [reflexivity|].
  rewrite Hbody.
  vm_compute in H1. injection H1 as <-. cbn in Hj1. injection Hj1 as <-.
  cbn in Hh1. injection Hh1 as <-.
  vm_compute in H2. injection H2 as <-. cbn in Hj2. injection Hj2 as <-.
  cbn in Hh2. injection Hh2 as <-.
  reflexivity.
Defined.

End PinningProofs.

(* ===================================================================== *)
(** * The balance a launch needs, in lamports                             *)
(* ===================================================================== *)

Module ThresholdProofs.
Import JS Spec Page PageProofs Balance.

Lemma pow2_pos k : 0 < pow2 k.
Proof. apply Qpower_0_lt. reflexivity. Qed.

Lemma pow2_le a b : (a <= b)%Z -> pow2 a <= pow2 b.
Proof. intros H. apply Qpower_le_compat_l; [exact H | discriminate]. Qed.

Lemma pow2_plus a b : pow2 (a + b) == pow2 a * pow2 b.
Proof. apply Qpower_plus. discriminate. Qed.

Lemma pow2_Z k : (0 <= k)%Z -> pow2 k == inject_Z (2 ^ k).
Proof. intros H. symmetry. apply Zpower_Qpower. exact H. Qed.

(** [floorLog2] does not overshoot. *)
Lemma floorLog2_le x : 0 < x -> pow2 (floorLog2 x) <= x.
Proof.
  intros Hx. unfold floorLog2.
  destruct (Qle_bool (pow2 (Z.log2 (Qnum x) - Z.log2 (Z.pos (Qden x)))) x) eqn:H;
    [apply Qle_bool_iff; exact H|].
  clear H. destruct x as [n d]. cbn [Qnum Qden].
  assert (Hn : (0 < n)%Z) by (unfold Qlt in Hx; cbn in Hx; lia).
  pose proof (Z.log2_spec n Hn) as [Hln _].
  pose proof (Z.log2_spec (Z.pos d) eq_refl) as [_ Hld].
  pose proof (Z.log2_nonneg n) as Hln0.
  pose proof (Z.log2_nonneg (Z.pos d)) as Hld0.
  apply (Qmult_le_r _ _ (pow2 (Z.succ (Z.log2 (Z.pos d))))); [apply pow2_pos|].
  rewrite <- pow2_plus.
  replace (Z.log2 n - Z.log2 (Z.pos d) - 1 + Z.succ (Z.log2 (Z.pos d)))%Z
    with (Z.log2 n) by lia.
  rewrite (pow2_Z (Z.log2 n)) by lia.
  rewrite (pow2_Z (Z.succ (Z.log2 (Z.pos d)))) by lia.
  unfold Qle, Qmult, inject_Z. cbn [Qnum Qden].
  rewrite Z.mul_1_r, Pos.mul_1_r. nia.
Qed.

(** Rounding to the nearest integer moves by a half at most. *)
Lemma roundHalfEven_near y :
  y - (1 # 2) <= inject_Z (roundHalfEven y) <= y + (1 # 2).
Proof.
  unfold roundHalfEven.
  pose proof (Qfloor_le y) as Hlo. pose proof (Qlt_floor y) as Hhi.
  rewrite inject_Z_plus in Hhi. change (inject_Z 1) with 1 in Hhi.
  destruct (Qcompare (y - inject_Z (Qfloor y)) (1 # 2)) eqn:Hc.
  - apply Qeq_alt in Hc. destruct (Z.even (Qfloor y));
      rewrite ?inject_Z_plus; change (inject_Z 1) with 1; lra.
  - apply Qlt_alt in Hc. lra.
  - apply Qgt_alt in Hc. rewrite inject_Z_plus. change (inject_Z 1) with 1. lra.
Qed.

(** The binary64 value nearest to a positive rational: it is within half
    a unit of the last place, and that unit is at most [x * 2^-52] unless
    the value is subnormal. *)
Lemma round64_near x :
  0 < x ->
  let ue := Z.max (floorLog2 x - 52) (-1074) in
  let v := inject_Z (roundHalfEven (x / pow2 ue)) * pow2 ue in
  x - pow2 ue * (1 # 2) <= v <= x + pow2 ue * (1 # 2)
  /\ (pow2 ue <= x * pow2 (-52) \/ ue = (-1074)%Z).
Proof.
  intros Hx ue v.
  pose proof (pow2_pos ue) as Hp.
  pose proof (roundHalfEven_near (x / pow2 ue)) as [Hlo Hhi].
  assert (Hne : ~ pow2 ue == 0) by lra.
  split; [split|].
  - setoid_replace (x - pow2 ue * (1 # 2)) with ((x / pow2 ue - (1 # 2)) * pow2 ue)
      by (field; exact Hne).
    apply Qmult_le_compat_r; [exact Hlo | lra].
  - setoid_replace (x + pow2 ue * (1 # 2)) with ((x / pow2 ue + (1 # 2)) * pow2 ue)
      by (field; exact Hne).
    apply Qmult_le_compat_r; [exact Hhi | lra].
  - unfold ue. destruct (Z.max_spec (floorLog2 x - 52) (-1074)) as [[_ ->] | [_ ->]];
      [right; reflexivity | left].
    replace (floorLog2 x - 52)%Z with (floorLog2 x + -52)%Z by lia.
    rewrite pow2_plus. apply Qmult_le_compat_r; [apply floorLog2_le, Hx|].
    apply Qlt_le_weak, pow2_pos.
Qed.

Lemma toSol_lamports n : toSol (inject_Z n) = round64 (n # 1000000000).
Proof.
  unfold toSol, LAMPORTS_PER_SOL, Qdiv, Qmult, Qinv, inject_Z. cbn [Qnum Qden].
  rewrite Z.mul_1_r. reflexivity.
Qed.

(** The balance shown for a positive lamport count below [2^53]: the
    value of [round64], which does not overflow. *)
Lemma toSol_finite n :
  (0 < n < 2 ^ 53)%Z ->
  let x := n # 1000000000 in
  let ue := Z.max (floorLog2 x - 52) (-1074) in
  let v := inject_Z (roundHalfEven (x / pow2 ue)) * pow2 ue in
  toSol (inject_Z n) = Finite (Qred v).
Proof.
  intros Hn x ue v. rewrite toSol_lamports. unfold round64. fold x.
  assert (Hx : 0 < x) by (unfold x, Qlt; cbn; lia).
  assert (Habs : Qabs x = x) by (unfold x; destruct n; try lia; reflexivity).
  assert (Hnum : Qnum x = n) by reflexivity.
  rewrite Hnum, Habs. fold ue. fold v.
  destruct (round64_near x Hx) as [[_ Hhi] Hulp]. fold ue in Hhi, Hulp. fold v in Hhi.
  assert (Hsmall : x <= inject_Z (2 ^ 53)) by (unfold x, Qle; cbn; lia).
  assert (Hp : pow2 ue <= inject_Z (2 ^ 53)).
  { destruct Hulp as [Hulp | Hulp].
    - assert (pow2 (-52) <= 1) by (vm_compute; discriminate).
      pose proof (pow2_pos (-52)). nra.
    - rewrite Hulp. apply Qle_trans with (pow2 0); [apply pow2_le; lia|].
      vm_compute. discriminate. }
  assert (Hv : v < pow2 1024).
  { apply Qle_lt_trans with (inject_Z (2 ^ 54)).
    - assert (inject_Z (2 ^ 54) == inject_Z (2 ^ 53) * 2) by reflexivity. lra.
    - apply Qlt_le_trans with (pow2 55); [vm_compute; reflexivity|].
      apply pow2_le. lia. }
  destruct (Qle_bool (pow2 1024) v) eqn:Hover.
  { apply Qle_bool_iff in Hover. lra. }
  destruct n; try lia. reflexivity.
Qed.

Lemma lt_threshold v :
  lt (Finite (Qred v)) TOTAL_ESTIMATED_COST = true <-> v < threshold.
Proof.
  rewrite TOTAL_ESTIMATED_COST_value. cbn [lt]. rewrite negb_true_iff.
  split.
  - intros H. apply Qnot_le_lt. intros Hle.
    assert (Qle_bool threshold (Qred v) = true)
      by (apply Qle_bool_iff; rewrite Qred_correct; exact Hle).
    congruence.
  - intros H. destruct (Qle_bool threshold (Qred v)) eqn:Hb; [|reflexivity].
    apply Qle_bool_iff in Hb. rewrite Qred_correct in Hb. lra.
Qed.

Lemma lamports_needed (n : Z) :
  (0 <= n < 2 ^ 53)%Z ->
  exists balance,
    toSol (inject_Z n) = Finite balance
    /\ (lt (Finite balance) TOTAL_ESTIMATED_COST = true <-> (n <= 13640000)%Z).
Proof.
  intros Hn. destruct (Z.eq_dec n 0) as [-> | Hpos].
  { exists 0. split; [reflexivity|]. split; [lia | intros _; vm_compute; reflexivity]. }
  assert (Hn' : (0 < n < 2 ^ 53)%Z) by lia.
  pose proof (toSol_finite n Hn') as Hsol. cbv zeta in Hsol.
  eexists. split; [exact Hsol|]. rewrite lt_threshold.
  set (x := n # 1000000000) in *.
  assert (Hx : 0 < x) by (unfold x, Qlt; cbn; lia).
  destruct (round64_near x Hx) as [[Hlo Hhi] Hulp].
  set (ue := Z.max (floorLog2 x - 52) (-1074)) in *.
  set (v := inject_Z (roundHalfEven (x / pow2 ue)) * pow2 ue) in *.
  pose proof (pow2_pos ue) as Hp.
  unfold threshold.
  destruct (Z.le_gt_cases n 13640000) as [Hle | Hgt].
  - split; [intros _; exact Hle | intros _].
    assert (Hxle : x <= 1364 # 100000) by (unfold x, Qle; cbn; lia).
    assert (Hk : (floorLog2 x < -6)%Z).
    { apply (Qpower_lt_compat_l_inv (inject_Z 2)); [|reflexivity].
      apply Qle_lt_trans with x; [apply floorLog2_le, Hx|].
      apply Qle_lt_trans with (1364 # 100000); [exact Hxle|].
      vm_compute. reflexivity. }
    assert (Hue : pow2 ue <= 1 # 576460752303423488).
    { apply Qle_trans with (pow2 (-59)); [apply pow2_le; unfold ue; lia|].
      vm_compute. discriminate. }
    lra.
  - split; [intros Hlt; exfalso | lia].
    assert (Hxge : 13640001 # 1000000000 <= x) by (unfold x, Qle; cbn; lia).
    destruct Hulp as [Hulp | Hulp].
    + assert (H52 : pow2 (-52) == 1 # 4503599627370496) by reflexivity.
      rewrite H52 in Hulp. lra.
    + assert (Hsub : pow2 ue <= 1 # 576460752303423488).
      { rewrite Hulp. apply Qle_trans with (pow2 (-59)); [apply pow2_le; lia|].
        vm_compute. discriminate. }
      lra.
Qed.

Section Gate.
Context {E : Engine}.

(** X28.  The balance test of [createToken], on the balance the observer
    shows for a wallet holding [n] lamports (any count below [2^53],
    which a Number holds exactly): the balance is found insufficient
    exactly when [n] is at most 13640000.  So, with a wallet connected
    and a form the validator accepts, [createToken] makes no call when
    the wallet holds 13640000 lamports or fewer, and starts the launch
    when it holds 13640001 or more: a wallet holding exactly 0.01364 SOL,
    the sum of the four costs, falls short. *)
Theorem launch_needs_13640001_lamports (n : Z) :
  (0 <= n < 2 ^ 53)%Z ->
  exists balance,
    toSol (inject_Z n) = Finite balance
    /\ (lt (Finite balance) TOTAL_ESTIMATED_COST = true <-> (n <= 13640000)%Z)
    /\ forall (w : Page.World) (props : Props) (s0 : Page.State) (pk : PublicKey),
         walletPublicKey props = Some pk ->
         validateForm (form props) (imageFile props) = Normal FormErrors.empty ->
         Page.walletBalance props = shown (Some (toSol (inject_Z n))) ->
         (Page.log (snd (createToken w props s0)) = Page.log s0 <-> (n <= 13640000)%Z).
Proof.
  intros Hn. destruct (lamports_needed n Hn) as (balance & Hsol & Hlt).
  exists balance. split; [exact Hsol|]. split; [exact Hlt|].
  intros w props s0 pk Hpk Hv Hb. rewrite Hsol in Hb. cbn [shown] in Hb.
  rewrite <- Hlt. rewrite TOTAL_ESTIMATED_COST_value.
  destruct (createToken_cases w props s0)
    as [((_ & _ & Hpass) & pk' & Hpk' & Hrun) | (Hfail & _ & _ & Hsame & _)].
  - specialize (Hpass _ Hb). apply lt_finite_false in Hpass. rewrite Hpass.
    split; [|discriminate]. intros Hsame. exfalso.
    rewrite Hrun in Hsame.
    destruct (start_outcome w props pk' s0) as (s & Hs & _ & Hl & _).
    destruct (launch_first_call w props pk' s Hv) as (r & rest & Hfirst).
    rewrite Hl, Hfirst, Hs in Hsame.
    apply (f_equal (@List.length _)) in Hsame. rewrite length_app in Hsame.
    cbn [List.length] in Hsame. lia.
  - split; [intros _ | intros _; exact Hsame].
    destruct (lt (Finite balance) (Finite threshold)) eqn:Hcmp; [reflexivity|].
    exfalso. apply Hfail. split; [eauto|]. split; [exact Hv|].
    intros b Hb'. rewrite Hb in Hb'. injection Hb' as <-.
    apply lt_finite_false, Hcmp.
Qed.

End Gate.

Lemma launch_needs_13640001_lamports_witness :
  exists balance,
    toSol (inject_Z 13640000) = Finite balance
    /\ lt (Finite balance) TOTAL_ESTIMATED_COST = true.
Proof.
  destruct (@launch_needs_13640001_lamports basicLatinEngine 13640000)
    as (balance & Hsol & Hlt & _); [lia|].
  exists balance. split; [exact Hsol|]. apply Hlt. lia.
Defined.

End ThresholdProofs.
